(** * arduino-coldfire-bdm: the BDM command protocol engine

    A shallow embedding of [serial_interface.py] and [bdm_interface.py].
    Python integers are [Z]; [>>], [&] and [|] are [Z.shiftr], [Z.land] and
    [Z.lor] (which agree with Python on negative numbers as well); [bytes]
    objects are [list byte].  Methods that mutate an object or raise become
    functions from the object's state to a [result] and the new state: what
    was written before an exception stays written. *)

From Stdlib Require Import ZArith List Bool Lia.
From Stdlib Require Import Strings.Byte.
Import ListNotations.
Local Open Scope Z_scope.

(** ** Exceptions *)

(** The source raises [ValueError] and [RuntimeError] with a message; the
    [raise_site] tells the messages apart.  [AttributeError], [IndexError]
    and [struct.error] are raised by the interpreter and the library. *)
Inductive raise_site : Type :=
| error_response              (* "... with Error response" *)
| illegal_command_response    (* "... with Illegal Command" *)
| cant_read_address_register
| cant_read_data_register
| cant_write_address_register
| cant_write_data_register
| control_register_field      (* "Coldfire only has a 12-bit control register field!" *)
| byte_out_of_range
| word_out_of_range
| address_reads_differ        (* "Read all 8 address registers twice in a row ..." *)
| data_reads_differ
| address_writes_differ       (* "Wrote to all 8 address registers, but read ..." *)
| data_writes_differ
| unlock_bypass_not_entered.  (* "To use this method, ensure that ..." *)

Inductive exn : Type :=
| ValueError (site : raise_site)
| RuntimeError (site : raise_site)
| AttributeError
| IndexError
| struct_error.

Inductive result (A : Type) : Type :=
| Ok (a : A)
| Raise (e : exn).
Arguments Ok {A} a.
Arguments Raise {A} e.

(** The error kinds of the specification, as the exceptions of the source. *)
Definition TargetError : exn := ValueError error_response.
Definition IllegalCommand : exn := ValueError illegal_command_response.
Definition ProtocolStateError : exn := RuntimeError unlock_bypass_not_entered.

Definition ValidationError (e : exn) : Prop :=
  match e with
  | ValueError cant_read_address_register
  | ValueError cant_read_data_register
  | ValueError cant_write_address_register
  | ValueError cant_write_data_register
  | ValueError control_register_field
  | ValueError byte_out_of_range
  | ValueError word_out_of_range => True
  | _ => False
  end.

Definition InconsistentReadError (e : exn) : Prop :=
  e = ValueError address_reads_differ \/ e = ValueError data_reads_differ.

Definition WriteVerificationError (e : exn) : Prop :=
  e = ValueError address_writes_differ \/ e = ValueError data_writes_differ.

(** ** A state and exception monad *)

Definition M (S A : Type) : Type := S -> result A * S.

Definition ret {S A : Type} (a : A) : M S A := fun s => (Ok a, s).

Definition raise {S A : Type} (e : exn) : M S A := fun s => (Raise e, s).

Definition bind {S A B : Type} (m : M S A) (k : A -> M S B) : M S B :=
  fun s =>
    match m s with
    | (Ok a, s') => k a s'
    | (Raise e, s') => (Raise e, s')
    end.

Declare Scope py_scope.
Delimit Scope py_scope with py.
Notation "x <- m ;; k" := (bind m (fun x => k))
  (at level 61, m at next level, right associativity) : py_scope.
Notation "m ;; k" := (bind m (fun _ => k))
  (at level 61, right associativity) : py_scope.
Local Open Scope py_scope.

(** [for x in xs: body(x)] *)
Fixpoint for_each {S A : Type} (body : A -> M S unit) (xs : list A) : M S unit :=
  match xs with
  | [] => ret tt
  | x :: xs' => body x ;; for_each body xs'
  end.

(** [[f(x) for x in xs]] *)
Fixpoint list_comprehension {S A B : Type} (f : A -> M S B) (xs : list A)
  : M S (list B) :=
  match xs with
  | [] => ret []
  | x :: xs' => y <- f x ;; ys <- list_comprehension f xs' ;; ret (y :: ys)
  end.

(** A pure computation that may raise, run inside a stateful one. *)
Definition lift_result {S A : Type} (r : result A) : M S A := fun s => (r, s).

(** [range(n)] and [enumerate(xs)] *)
Definition range (n : Z) : list Z := map Z.of_nat (seq 0 (Z.to_nat n)).

Fixpoint enumerate_from {A : Type} (i : Z) (xs : list A) : list (Z * A) :=
  match xs with
  | [] => []
  | x :: xs' => (i, x) :: enumerate_from (i + 1) xs'
  end.

Definition enumerate {A : Type} (xs : list A) : list (Z * A) := enumerate_from 0 xs.

(** ** Bytes and [struct] *)

Definition Z_of_byte (b : byte) : Z := Z.of_N (Byte.to_N b).

Definition byte_of_Z (z : Z) : byte :=
  match Byte.of_N (Z.to_N (z mod 256)) with
  | Some b => b
  | None => x00
  end.

(** [struct.pack(">H", data)]: two bytes, most significant first; anything
    outside [0, 65535] is a [struct.error]. *)
Definition be16 (data : Z) : list byte :=
  [byte_of_Z (Z.shiftr data 8); byte_of_Z (Z.land data 0xFF)].

Definition struct_pack_H_be (data : Z) : result (list byte) :=
  if (0 <=? data) && (data <=? 0xFFFF)
  then Ok (be16 data)
  else Raise struct_error.

(** [struct.unpack("<H", bs)[0]]: exactly two bytes, least significant
    first. *)
Definition struct_unpack_H_le (bs : list byte) : result Z :=
  match bs with
  | [lo; hi] => Ok (Z_of_byte lo + 256 * Z_of_byte hi)
  | _ => Raise struct_error
  end.

(** The two kinds of Python value that meet in [response[0] == b"N"].
    Indexing a [bytes] object gives an [int]; [==] between an [int] and a
    [bytes] object is [False] whatever their contents. *)
Inductive pyval : Type :=
| PyInt (z : Z)
| PyBytes (bs : list byte).

Definition bytes_eqb (a b : list byte) : bool :=
  if list_eq_dec Byte.byte_eq_dec a b then true else false.

Definition py_eq (a b : pyval) : bool :=
  match a, b with
  | PyInt x, PyInt y => x =? y
  | PyBytes x, PyBytes y => bytes_eqb x y
  | _, _ => false
  end.

(** [bs[i]] on a [bytes] object *)
Definition bytes_getitem (bs : list byte) (i : nat) : result pyval :=
  match nth_error bs i with
  | Some b => Ok (PyInt (Z_of_byte b))
  | None => Raise IndexError
  end.

(** [int(b)] on a [bool] *)
Definition int_of_bool (b : bool) : Z := if b then 1 else 0.

(** ** serial_interface.py *)

(** *** The serial port

    [serial.Serial] is outside the repository.  The port is modelled by the
    whole history of the calls made on it and by the device at the other
    end: [target history n] is what the device has to offer when [n] bytes
    are asked for after [history]; [read(n)] returns at most [n] of them
    (fewer on a timeout). *)
Inductive event : Type :=
| Wr (bs : list byte)   (* serial.write(bs) *)
| Rd (bs : list byte).  (* serial.read(n) returned bs *)

Record Serial : Type := mkSerial {
  target : list event -> nat -> list byte;
  history : list event
}.

Definition serial_write (bs : list byte) : M Serial unit :=
  fun p => (Ok tt, mkSerial (target p) (history p ++ [Wr bs])).

Definition serial_read (n : nat) : M Serial (list byte) :=
  fun p =>
    let bs := firstn n (target p (history p) n) in
    (Ok bs, mkSerial (target p) (history p ++ [Rd bs])).

(** The payloads of the [write] calls, in order. *)
Fixpoint written (h : list event) : list (list byte) :=
  match h with
  | [] => []
  | Wr bs :: h' => bs :: written h'
  | Rd _ :: h' => written h'
  end.

(** *** [Response] *)

Record Response : Type := mkResponse { status : Z; data : Z }.

(** [Response.__init__] *)
Definition Response_init (status data : Z) : result Response :=
  if status =? 1 then
    if data =? 0x0001 then Raise (ValueError error_response)
    else if data =? 0xFFFF then Raise (ValueError illegal_command_response)
    else Ok (mkResponse status data)
  else Ok (mkResponse status data).

(** *** The packet interface

    [BDMCommandInterface] calls three methods of whatever object it is
    given; [ColdfireSerialInterface] and [MockColdfireSerialInterface] both
    provide them. *)
Class PacketInterface (I : Type) : Type := {
  send_packet : Z -> M I unit;
  receive_packet : M I Response;
  send_and_receive_packet : Z -> M I Response
}.

Module ColdfireSerialInterface.

Definition send_packet (data : Z) : M Serial unit :=
  packed <- lift_result (struct_pack_H_be data) ;;
  serial_write (x73 :: packed).                        (* b"s" + ... *)

(** The body of [_receive_packet] once [serial.read(3)] has returned. *)
Definition decode (response : list byte) : result Response :=
  match bytes_getitem response 0 with
  | Raise e => Raise e
  | Ok first =>
      let status := int_of_bool (py_eq first (PyBytes [x4e])) in   (* == b"N" *)
      match struct_unpack_H_le (tl response) with
      | Raise e => Raise e
      | Ok data => Response_init status data
      end
  end.

Definition _receive_packet : M Serial Response :=
  response <- serial_read 3 ;;
  lift_result (decode response).

Definition receive_packet : M Serial Response :=
  serial_write [x72] ;;                                (* b"r" *)
  _receive_packet.

Definition send_and_receive_packet (data : Z) : M Serial Response :=
  packed <- lift_result (struct_pack_H_be data) ;;
  serial_write (x53 :: packed) ;;                      (* b"S" + ... *)
  _receive_packet.

Definition enter_debug_mode (reset : bool) : M Serial unit :=
  if reset then serial_write [x52] else serial_write [x42].

End ColdfireSerialInterface.

#[export] Instance Coldfire_PacketInterface : PacketInterface Serial := {
  send_packet := ColdfireSerialInterface.send_packet;
  receive_packet := ColdfireSerialInterface.receive_packet;
  send_and_receive_packet := ColdfireSerialInterface.send_and_receive_packet
}.

Module MockColdfireSerialInterface.

Record t : Type := mk { commands_sent : list (list byte) }.

(** [MockColdfireSerialInterface()] *)
Definition init : t := mk [].

Definition append (bs : list byte) : M t unit :=
  fun m => (Ok tt, mk (commands_sent m ++ [bs])).

Definition test_connection : M t unit := append [x50].

Definition send_packet (data : Z) : M t unit :=
  packed <- lift_result (struct_pack_H_be data) ;;
  append (x73 :: packed).

Definition _receive_packet : M t Response :=
  lift_result (Response_init 0 0xFFFF).

Definition receive_packet : M t Response :=
  append [x72] ;;
  _receive_packet.

Definition send_and_receive_packet (data : Z) : M t Response :=
  packed <- lift_result (struct_pack_H_be data) ;;
  append (x53 :: packed) ;;
  _receive_packet.

Definition enter_debug_mode (reset : bool) : M t unit :=
  if reset then append [x52] else append [x42].

End MockColdfireSerialInterface.

#[export] Instance Mock_PacketInterface
  : PacketInterface MockColdfireSerialInterface.t := {
  send_packet := MockColdfireSerialInterface.send_packet;
  receive_packet := MockColdfireSerialInterface.receive_packet;
  send_and_receive_packet := MockColdfireSerialInterface.send_and_receive_packet
}.

(** ** bdm_interface.py *)

Definition NUM_ADDRESS_REGISTERS : Z := 8.
Definition NUM_DATA_REGISTERS : Z := 8.

Module ConfigurationStatusRegister.

Record t : Type := mk { data : Z }.

(** [bool((self.data >> 4) & 0x1)] *)
Definition single_step_mode (self : t) : bool :=
  negb (Z.land (Z.shiftr (data self) 4) 0x1 =? 0).

End ConfigurationStatusRegister.

(** The attributes of a [BDMCommandInterface] object.  [__init__] assigns
    [interface] and [current_step_mode] only; [in_unlock_bypass_mode] is
    [None] until one of the methods assigns it, and reading it before that
    is an [AttributeError]. *)
Record BDMCommandInterface (I : Type) : Type := mkBDM {
  interface : I;
  current_step_mode : bool;
  in_unlock_bypass_mode : option bool
}.
Arguments mkBDM {I} _ _ _.
Arguments interface {I} _.
Arguments current_step_mode {I} _.
Arguments in_unlock_bypass_mode {I} _.

Section BDM.

Context {I : Type} `{PacketInterface I}.

(** [BDMCommandInterface(interface)] *)
Definition BDM_init (interface : I) : BDMCommandInterface I := mkBDM interface false None.

(** A method call on [self.interface]. *)
Definition on_interface {A : Type} (m : M I A) : M (BDMCommandInterface I) A :=
  fun self =>
    let (r, i) := m (interface self) in
    (r, mkBDM i (current_step_mode self) (in_unlock_bypass_mode self)).

Definition set_current_step_mode (b : bool) : M (BDMCommandInterface I) unit :=
  fun self => (Ok tt, mkBDM (interface self) b (in_unlock_bypass_mode self)).

Definition set_in_unlock_bypass_mode (b : bool) : M (BDMCommandInterface I) unit :=
  fun self => (Ok tt, mkBDM (interface self) (current_step_mode self) (Some b)).

Definition get_in_unlock_bypass_mode : M (BDMCommandInterface I) bool :=
  fun self =>
    match in_unlock_bypass_mode self with
    | Some b => (Ok b, self)
    | None => (Raise AttributeError, self)
    end.

Definition _send (commands : list Z) : M (BDMCommandInterface I) unit :=
  for_each (fun command => on_interface (send_and_receive_packet command) ;; ret tt)
           commands.

Definition _send_then_receive (commands : list Z) (response_size_words : Z)
  : M (BDMCommandInterface I) Z :=
  for_each (fun command => on_interface (send_and_receive_packet command) ;; ret tt)
           commands ;;
  responses <- list_comprehension (fun _ => on_interface receive_packet)
                                  (range response_size_words) ;;
  match responses with
  | [] => raise IndexError                                   (* responses[0] *)
  | [r0; r1] => ret (Z.lor (Z.shiftl (data r0) 16) (data r1))
  | r0 :: _ => ret (data r0)
  end.

Definition noop : M (BDMCommandInterface I) Z := _send_then_receive [0x0000] 1.

Definition read_byte (address : Z) : M (BDMCommandInterface I) Z :=
  r <- _send_then_receive [0x1900; Z.shiftr address 16; Z.land address 0xFFFF] 1 ;;
  ret (Z.land r 0xFF).

Definition read_word (address : Z) : M (BDMCommandInterface I) Z :=
  _send_then_receive [0x1940; Z.shiftr address 16; Z.land address 0xFFFF] 1.

Definition read_longword (address : Z) : M (BDMCommandInterface I) Z :=
  _send_then_receive [0x1980; Z.shiftr address 16; Z.land address 0xFFFF] 2.

Definition read_address_register (register_number : Z) : M (BDMCommandInterface I) Z :=
  if (register_number >? NUM_ADDRESS_REGISTERS - 1) || (register_number <? 0)
  then raise (ValueError cant_read_address_register)
  else _send_then_receive [Z.lor 0x2188 register_number] 2.

Definition read_data_register (register_number : Z) : M (BDMCommandInterface I) Z :=
  if (register_number >? NUM_DATA_REGISTERS - 1) || (register_number <? 0)
  then raise (ValueError cant_read_data_register)
  else _send_then_receive [Z.lor 0x2180 register_number] 2.

Definition read_control_register (register_encoding : Z) : M (BDMCommandInterface I) Z :=
  if (register_encoding <? 0) || (register_encoding >? 4095)
  then raise (ValueError control_register_field)
  else _send_then_receive [0x2980; 0; Z.land register_encoding 0xFFF] 2.

Definition read_debug_configuration_status_register
  : M (BDMCommandInterface I) ConfigurationStatusRegister.t :=
  r <- _send_then_receive [0x2D80] 2 ;;
  ret (ConfigurationStatusRegister.mk r).

Definition write_debug_configuration_status_register (new_value : Z) : M (BDMCommandInterface I) Z :=
  _send_then_receive [0x2C80; Z.shiftr new_value 16; Z.land new_value 0xFFF] 1.

Definition set_single_step_mode (enabled : bool) : M (BDMCommandInterface I) unit :=
  fun self =>
    if Bool.eqb (current_step_mode self) enabled then (Ok tt, self)
    else
      (csr <- read_debug_configuration_status_register ;;
       let new_register := Z.land (ConfigurationStatusRegister.data csr) 0xFFFFFFEF in
       let new_register :=
         if enabled then Z.lor new_register 16 (* 0b10000 *) else new_register in
       write_debug_configuration_status_register new_register ;;
       set_current_step_mode enabled) self.

Definition go : M (BDMCommandInterface I) Z :=
  set_single_step_mode false ;;
  _send_then_receive [0x0C00] 1.

Definition step : M (BDMCommandInterface I) Z :=
  set_single_step_mode true ;;
  _send_then_receive [0x0C00] 1.

Definition write_byte (address data : Z) : M (BDMCommandInterface I) unit :=
  if (data >? 255) || (data <? 0)
  then raise (ValueError byte_out_of_range)
  else _send [0x1800; Z.shiftr address 16; Z.land address 0xFFFF; Z.land data 0xFF].

Definition write_word (address data : Z) : M (BDMCommandInterface I) unit :=
  if (data >? 0xFFFF) || (data <? 0)
  then raise (ValueError word_out_of_range)
  else _send [0x1840; Z.shiftr address 16; Z.land address 0xFFFF; data].

Definition write_longword (address data : Z) : M (BDMCommandInterface I) unit :=
  _send [0x1880; Z.shiftr address 16; Z.land address 0xFFFF;
         Z.shiftr data 16; Z.land data 0xFFFF].

Definition write_control_register (register data : Z) : M (BDMCommandInterface I) unit :=
  _send [0x2880; 0; Z.land register 0xFFFF; Z.shiftr data 16; Z.land data 0xFFFF].

(** The [data] argument is not used by the body. *)
Definition write_address_register (register_number data : Z) : M (BDMCommandInterface I) Z :=
  if (register_number >? NUM_ADDRESS_REGISTERS - 1) || (register_number <? 0)
  then raise (ValueError cant_write_address_register)
  else _send_then_receive [Z.lor 0x2088 register_number] 1.

Definition write_data_register (register_number data : Z) : M (BDMCommandInterface I) Z :=
  if (register_number >? NUM_DATA_REGISTERS - 1) || (register_number <? 0)
  then raise (ValueError cant_write_data_register)
  else _send_then_receive [Z.lor 0x2080 register_number] 1.

Definition send_flash_write_enable : M (BDMCommandInterface I) unit :=
  write_word (Z.shiftl 0x555 1) 0xAA ;;
  write_word (Z.shiftl 0x2AA 1) 0x55 ;;
  write_word (Z.shiftl 0x555 1) 0xA0.

Definition enter_flash_unlock_bypass : M (BDMCommandInterface I) unit :=
  write_word (Z.shiftl 0x555 1) 0xAA ;;
  write_word (Z.shiftl 0x2AA 1) 0x55 ;;
  write_word (Z.shiftl 0x555 1) 0x20 ;;
  set_in_unlock_bypass_mode true.

Definition send_unlock_bypassed_flash_write (address data : Z) : M (BDMCommandInterface I) unit :=
  mode <- get_in_unlock_bypass_mode ;;
  if negb mode
  then raise (RuntimeError unlock_bypass_not_entered)
  else write_word 0x00 0xA0 ;; write_word address data.

Definition exit_flash_unlock_bypass : M (BDMCommandInterface I) unit :=
  write_word 0x00 0x90 ;;
  write_word 0x00 0x00 ;;
  set_in_unlock_bypass_mode false.

(** [time.sleep(30)] has no effect on the state modelled here. *)
Definition send_flash_chip_erase : M (BDMCommandInterface I) unit :=
  write_word (Z.shiftl 0x555 1) 0xAA ;;
  write_word (Z.shiftl 0x2AA 1) 0x55 ;;
  write_word (Z.shiftl 0x555 1) 0x80 ;;
  write_word (Z.shiftl 0x555 1) 0xAA ;;
  write_word (Z.shiftl 0x2AA 1) 0x55 ;;
  write_word (Z.shiftl 0x555 1) 0x10 ;;
  write_word (Z.shiftl 0x555 1) 0xF0.

(** *** [dump_words]

    [dump_words] is a generator function: calling it runs nothing, and each
    [next] runs the body up to the following [yield].  The generator object
    is modelled by the point at which it is suspended. *)
Inductive dump_words_generator : Type :=
| dw_created (base_address num_words : Z)   (* not started *)
| dw_in_loop (remaining : nat)              (* at the [yield] inside the loop *)
| dw_at_last_yield                          (* at the final [yield] *)
| dw_finished.                              (* returned, or raised *)

Definition dump_words (base_address num_words : Z) : dump_words_generator :=
  dw_created base_address num_words.

Definition on_self {G A : Type} (m : M (BDMCommandInterface I) A)
  : M (BDMCommandInterface I * G) A :=
  fun sg => let (r, self) := m (fst sg) in (r, (self, snd sg)).

Definition suspend_at {S : Type} (g : dump_words_generator)
  : M (S * dump_words_generator) unit :=
  fun sg => (Ok tt, (fst sg, g)).

(** The loop [for _ in range(num_words): yield ...] with [remaining]
    iterations to go, followed by the final [yield]. *)
Definition dump_words_loop (remaining : nat)
  : M (BDMCommandInterface I * dump_words_generator) (option Z) :=
  match remaining with
  | S k =>
      r <- on_self (on_interface (send_and_receive_packet 0x1D40)) ;;
      suspend_at (dw_in_loop k) ;;
      ret (Some (data r))
  | O =>
      r <- on_self (on_interface receive_packet) ;;
      suspend_at dw_at_last_yield ;;
      ret (Some (data r))
  end.

Definition dump_words_body
  : M (BDMCommandInterface I * dump_words_generator) (option Z) :=
  fun sg =>
    match snd sg with
    | dw_created base_address num_words =>
        (on_self (on_interface (send_packet 0x1940)) ;;
         on_self (on_interface (send_packet (Z.shiftr base_address 16))) ;;
         on_self (on_interface (send_packet (Z.land base_address 0xFFFF))) ;;
         let num_words := num_words - 1 in
         dump_words_loop (Z.to_nat num_words)) sg
    | dw_in_loop remaining => dump_words_loop remaining sg
    | dw_at_last_yield => (suspend_at dw_finished ;; ret None) sg
    | dw_finished => (Ok None, sg)
    end.

(** [next(generator)]: [Some w] is a yielded word, [None] is
    [StopIteration]; an exception leaving the body finishes the generator. *)
Definition dump_words_next
  : M (BDMCommandInterface I * dump_words_generator) (option Z) :=
  fun sg =>
    match dump_words_body sg with
    | (Ok v, sg') => (Ok v, sg')
    | (Raise e, sg') => (Raise e, (fst sg', dw_finished))
    end.

(** The number of [next] calls after which the generator is exhausted. *)
Definition dump_words_steps (g : dump_words_generator) : nat :=
  match g with
  | dw_created _ num_words => S (S (Z.to_nat (num_words - 1)))
  | dw_in_loop remaining => S (S remaining)
  | dw_at_last_yield => 1
  | dw_finished => 1
  end.

Fixpoint take_all (fuel : nat)
  : M (BDMCommandInterface I * dump_words_generator) (list Z) :=
  match fuel with
  | O => ret []
  | S fuel' =>
      v <- dump_words_next ;;
      match v with
      | None => ret []
      | Some w => ws <- take_all fuel' ;; ret (w :: ws)
      end
  end.

(** [list(self.dump_words(base_address, num_words))] *)
Definition list_dump_words (base_address num_words : Z)
  : BDMCommandInterface I ->
    result (list Z) * (BDMCommandInterface I * dump_words_generator) :=
  fun self =>
    let g := dump_words base_address num_words in
    take_all (dump_words_steps g) (self, g).

(** *** [consistency_check]

    [random_values k] is the value of the [k]-th evaluation of
    [int(random.random() * 0xFFFFFFFF)]. *)
Definition lists_differ (a b : list Z) : bool :=
  if list_eq_dec Z.eq_dec a b then false else true.

Definition consistency_check (random_values : nat -> Z)
  : M (BDMCommandInterface I) unit :=
  address_contents <-
    list_comprehension read_address_register (range NUM_ADDRESS_REGISTERS) ;;
  data_contents <-
    list_comprehension read_data_register (range NUM_DATA_REGISTERS) ;;
  address_contents_again <-
    list_comprehension read_address_register (range NUM_ADDRESS_REGISTERS) ;;
  (if lists_differ address_contents_again address_contents
   then raise (ValueError address_reads_differ) else ret tt) ;;
  data_contents_again <-
    list_comprehension read_data_register (range NUM_DATA_REGISTERS) ;;
  (if lists_differ data_contents_again data_contents
   then raise (ValueError data_reads_differ) else ret tt) ;;
  let expected_address_contents :=
    map random_values (seq 0 (Z.to_nat NUM_ADDRESS_REGISTERS)) in
  let expected_data_contents :=
    map random_values
        (seq (Z.to_nat NUM_ADDRESS_REGISTERS) (Z.to_nat NUM_DATA_REGISTERS)) in
  for_each (fun iv => write_address_register (fst iv) (snd iv) ;; ret tt)
           (enumerate expected_address_contents) ;;
  for_each (fun iv => write_data_register (fst iv) (snd iv) ;; ret tt)
           (enumerate expected_data_contents) ;;
  address_contents_again <-
    list_comprehension read_address_register (range NUM_ADDRESS_REGISTERS) ;;
  (if lists_differ address_contents_again expected_address_contents
   then raise (ValueError address_writes_differ) else ret tt) ;;
  data_contents_again <-
    list_comprehension read_data_register (range NUM_DATA_REGISTERS) ;;
  (if lists_differ data_contents_again expected_data_contents
   then raise (ValueError data_writes_differ) else ret tt) ;;
  for_each (fun iv => write_address_register (fst iv) (snd iv) ;; ret tt)
           (enumerate address_contents) ;;
  for_each (fun iv => write_data_register (fst iv) (snd iv) ;; ret tt)
           (enumerate data_contents).

End BDM.

(** ** command_line.py

    The commands run the engine and raise exceptions of their own, so their
    results carry a larger exception type.  [print], the progress bars and
    the clock have no effect on the state modelled here; the files are
    arguments: the bytes read from the input file, and for the output file
    the list of the [write] calls made on it. *)

Inductive cli_exn : Type :=
| from_engine (e : exn)              (* raised by the engine or the interface *)
| max_bytes_not_even                 (* ValueError, "--max-bytes ... divisible by two" *)
| flash_not_erased (words : list Z)  (* RuntimeError, "Flash chip was not erased!" *)
| OverflowError                      (* int.to_bytes *)
| ZeroDivisionError.

Inductive outcome (A : Type) : Type :=
| Done (a : A)
| Failed (e : cli_exn).
Arguments Done {A} a.
Arguments Failed {A} e.

Definition C (S A : Type) : Type := S -> outcome A * S.

Definition cret {S A : Type} (a : A) : C S A := fun s => (Done a, s).

Definition craise {S A : Type} (e : cli_exn) : C S A := fun s => (Failed e, s).

Definition cbind {S A B : Type} (m : C S A) (k : A -> C S B) : C S B :=
  fun s =>
    match m s with
    | (Done a, s') => k a s'
    | (Failed e, s') => (Failed e, s')
    end.

Declare Scope cli_scope.
Delimit Scope cli_scope with cli.
Notation "x <-- m ;;; k" := (cbind m (fun x => k))
  (at level 61, m at next level, right associativity) : cli_scope.
Notation "m ;;; k" := (cbind m (fun _ => k))
  (at level 61, right associativity) : cli_scope.
Local Open Scope cli_scope.

(** A call into the engine. *)
Definition engine {S A : Type} (m : M S A) : C S A :=
  fun s =>
    match m s with
    | (Ok a, s') => (Done a, s')
    | (Raise e, s') => (Failed (from_engine e), s')
    end.

(** [try: body finally: final] *)
Definition try_finally {S A : Type} (body : C S A) (final : C S unit) : C S A :=
  fun s =>
    let (r, s1) := body s in
    match final s1 with
    | (Done _, s2) => (r, s2)
    | (Failed e, s2) => (Failed e, s2)
    end.

Fixpoint cfor_each {S A : Type} (body : A -> C S unit) (xs : list A) : C S unit :=
  match xs with
  | [] => cret tt
  | x :: xs' => body x ;;; cfor_each body xs'
  end.

(** [range(0, stop, 2)] *)
Definition even_range (stop : Z) : list Z :=
  map (fun k => 2 * Z.of_nat k) (seq 0 (Z.to_nat ((stop + 1) / 2))).

(** [data[:n]], also for negative [n] *)
Definition slice_to {A : Type} (n : Z) (data : list A) : list A :=
  if n <? 0 then firstn (Z.to_nat (Z.of_nat (length data) + n)) data
  else firstn (Z.to_nat n) data.

(** [data[i]] on a [bytes] object, as an [int] *)
Definition byte_at (data : list byte) (i : Z) : result Z :=
  match nth_error data (Z.to_nat i) with
  | Some b => Ok (Z_of_byte b)
  | None => Raise IndexError
  end.

(** [z.to_bytes(1, byteorder="big")] *)
Definition to_bytes_1 (z : Z) : outcome (list byte) :=
  if (0 <=? z) && (z <=? 255) then Done [byte_of_Z z] else Failed OverflowError.

(** What is written to the output file: bytes in raw mode, otherwise text,
    of which only the formatted items are kept. *)
Inductive chunk : Type :=
| raw_bytes (bs : list byte)
| newline                         (* "\n" *)
| address_label (address : Z)     (* f"0x{address:08x}: " *)
| binary_word (high low : Z)      (* f"{word >> 8:08b} {word & 0xFF:08b} " *)
| hex_word (word : Z)             (* f"{word:04x}" *)
| space.                          (* " " *)

Inductive output_format : Type := xxd | raw | binary | unspecified.

Section CommandLine.

Context {I : Type} `{PacketInterface I}.

(** The state of a dump: the engine and what has been written to the
    output file. *)
Definition write_out (ch : chunk) : C (BDMCommandInterface I * list chunk) unit :=
  fun s => (Done tt, (fst s, snd s ++ [ch])).

Definition computed {S A : Type} (r : outcome A) : C S A := fun s => (r, s).

(** [for i, word in enumerate(generator): body(i, word)], the generator
    being suspended at [g] and [i] words having been taken. *)
Fixpoint for_each_word (fuel : nat)
         (body : Z -> Z -> C (BDMCommandInterface I * list chunk) unit)
         (i : Z) (g : dump_words_generator)
  : C (BDMCommandInterface I * list chunk) unit :=
  match fuel with
  | O => cret tt
  | S fuel' =>
      fun s =>
        match dump_words_next (fst s, g) with
        | (Raise e, sg) => (Failed (from_engine e), (fst sg, snd s))
        | (Ok None, sg) => (Done tt, (fst sg, snd s))
        | (Ok (Some word), sg) =>
            match body i word (fst sg, snd s) with
            | (Done _, s') => for_each_word fuel' body (i + 1) (snd sg) s'
            | (Failed e, s') => (Failed e, s')
            end
        end
  end.

(** The [KeyboardInterrupt] handler is not modelled. *)
Definition dump_memory_to_ascii (base length_in_bytes words_per_line : Z)
           (binary : bool)
  : C (BDMCommandInterface I * list chunk) unit :=
  let g := dump_words base (length_in_bytes / 2) in
  for_each_word (dump_words_steps g)
    (fun i word =>
       let address := base + i * 2 in
       (if words_per_line * 4 =? 0 then craise ZeroDivisionError
        else if (address - base) mod (words_per_line * 4) =? 0
             then (if address >? base then write_out newline else cret tt) ;;;
                  write_out (address_label address)
             else cret tt) ;;;
       (if binary
        then write_out (binary_word (Z.shiftr word 8) (Z.land word 0xFF))
        else write_out (hex_word word)) ;;;
       (if ((address - base) + 2) mod 4 =? 0 then write_out space else cret tt))
    0 g.

(** The function [dump] of [register_dump_command], once the output file
    is open. *)
Definition dump (starting_address num_bytes : Z) (format : output_format)
  : C (BDMCommandInterface I * list chunk) unit :=
  match format with
  | raw =>
      let g := dump_words starting_address (num_bytes / 2) in
      for_each_word (dump_words_steps g)
        (fun _ word =>
           high <-- computed (to_bytes_1 (Z.shiftr word 8)) ;;;
           write_out (raw_bytes high) ;;;
           low <-- computed (to_bytes_1 (Z.land word 0xFF)) ;;;
           write_out (raw_bytes low))
        0 g
  | binary => dump_memory_to_ascii starting_address num_bytes 8 true
  | xxd | unspecified => dump_memory_to_ascii starting_address num_bytes 8 false
  end.

(** [bdm.send_flash_unlock_bypass()]: [BDMCommandInterface] has no method
    of this name, so the attribute lookup raises. *)
Definition send_flash_unlock_bypass : M (BDMCommandInterface I) unit :=
  raise AttributeError.

(** The function [load] of [register_load_command]; [data] is what was
    read from the input file. *)
Definition load (data : list byte) (max_bytes : Z) (skip_erase : bool)
  : C (BDMCommandInterface I) unit :=
  data <-- (if max_bytes <? Z.of_nat (length data)
            then if max_bytes mod 2 =? 1
                 then craise max_bytes_not_even
                 else cret (slice_to max_bytes data)
            else cret data) ;;;
  (if negb skip_erase
   then engine send_flash_chip_erase ;;;
        words <-- engine (list_comprehension
                            (fun i => word <- read_word i ;; ret (i, word))
                            (even_range 16)) ;;;
        if negb (forallb (fun iw => snd iw =? 0xFFFF) words)
        then craise (flash_not_erased (map snd words))
        else cret tt
   else cret tt) ;;;
  engine send_flash_unlock_bypass ;;;
  try_finally
    (cfor_each
       (fun i =>
          high <-- engine (lift_result (byte_at data i)) ;;;
          low <-- engine (lift_result (byte_at data (i + 1))) ;;;
          let v := Z.lor (Z.shiftl high 8) low in
          engine (send_unlock_bypassed_flash_write i v))
       (even_range (Z.of_nat (length data))))
    (engine exit_flash_unlock_bypass).

End CommandLine.

(** ** Vocabulary of the statements *)

(** A framed command as it goes to the bridge: a letter and the command
    word, most significant byte first. *)
Definition packet (letter : byte) (word : Z) : list byte := letter :: be16 word.

(** The data word of a 3-byte response frame. *)
Definition frame_data (frame : list byte) : Z :=
  match frame with
  | [_; lo; hi] => Z_of_byte lo + 256 * Z_of_byte hi
  | _ => 0
  end.

(** A device that never lets a read time out. *)
Definition responsive (t : list event -> nat -> list byte) : Prop :=
  forall h n, (n <= length (t h n))%nat.

(** The engine after further events on its serial port. *)
Definition extend (evs : list event) (self : BDMCommandInterface Serial)
  : BDMCommandInterface Serial :=
  mkBDM (mkSerial (target (interface self)) (history (interface self) ++ evs))
        (current_step_mode self) (in_unlock_bypass_mode self).

(** What the next [serial.read(3)] returns. *)
Definition next_frame (self : BDMCommandInterface Serial) : list byte :=
  firstn 3 (target (interface self) (history (interface self)) 3).

(** A test device: its [k]-th answer is the [k]-th of [frames], whatever
    is written to it. *)
Definition reads_so_far (h : list event) : nat :=
  length (filter (fun e => match e with Rd _ => true | Wr _ => false end) h).

Definition scripted (frames : list (list byte)) : list event -> nat -> list byte :=
  fun h _ => nth (reads_so_far h) frames [].

(** A test device that answers every read with [n] zero bytes. *)
Definition silent : list event -> nat -> list byte :=
  fun _ n => repeat x00 n.

(** A test device whose answer changes with every exchange, as a target
    that is still running would. *)
Definition drifting : list event -> nat -> list byte :=
  fun h _ => [x00; byte_of_Z (Z.of_nat (length h)); x00].

(** The pipelined part of a dump: each "read next word" command is paired
    with the frame that came back while it was sent. *)
Definition pipelined (frames : list (list byte)) : list event :=
  flat_map (fun f => [Wr (packet x53 0x1D40); Rd f]) frames.

(** A write call that carries a "write address/data register" command
    word, [0x2080 | n] or [0x2088 | n]. *)
Definition is_register_write (bs : list byte) : bool :=
  match bs with
  | [letter; hi; lo] =>
      (Byte.eqb letter x53 || Byte.eqb letter x73)
      && Byte.eqb hi x20
      && (0x80 <=? Z_of_byte lo) && (Z_of_byte lo <=? 0x8F)
  | _ => false
  end.

Definition register_writes (self : BDMCommandInterface Serial) : Z :=
  Z.of_nat (length (filter is_register_write (written (history (interface self))))).

(** Exceptions that come from the transport or from argument checks, as
    opposed to the verdicts of the consistency check. *)
Definition benign (e : exn) : Prop :=
  e = IndexError \/ e = struct_error \/ ValidationError e.

(** [m] issues [k] register writes when it returns, and raises nothing but
    benign exceptions. *)
Definition issues {A : Type} (m : M (BDMCommandInterface Serial) A) (k : Z) : Prop :=
  forall self,
    match m self with
    | (Ok _, self') => register_writes self' = register_writes self + k
    | (Raise e, _) => benign e
    end.

(** What the consistency check promises about an exception [e] raised
    after [n] register writes: a mismatch between the two reads comes
    before any write, a failed read-back after the sixteen test writes and
    before any restoring write. *)
Definition in_order (e : exn) (n : Z) : Prop :=
  (InconsistentReadError e -> n = 0) /\ (WriteVerificationError e -> n = 16).

(** Started after [c] register writes, [m] issues [k] more when it returns
    (with a result in [Q]) and raises only [in_order]. *)
Definition runs {A : Type} (c : Z) (m : M (BDMCommandInterface Serial) A)
           (k : Z) (Q : A -> Prop) : Prop :=
  forall start self,
    register_writes self = register_writes start + c ->
    match m self with
    | (Ok a, self') => register_writes self' = register_writes start + c + k /\ Q a
    | (Raise e, self') => in_order e (register_writes self' - register_writes start)
    end.

(** The consistency check up to and including its last comparison; it
    returns the register contents captured by the first reads. *)
Definition verification (random_values : nat -> Z)
  : M (BDMCommandInterface Serial) (list Z * list Z) :=
  address_contents <-
    list_comprehension read_address_register (range NUM_ADDRESS_REGISTERS) ;;
  data_contents <-
    list_comprehension read_data_register (range NUM_DATA_REGISTERS) ;;
  address_contents_again <-
    list_comprehension read_address_register (range NUM_ADDRESS_REGISTERS) ;;
  (if lists_differ address_contents_again address_contents
   then raise (ValueError address_reads_differ) else ret tt) ;;
  data_contents_again <-
    list_comprehension read_data_register (range NUM_DATA_REGISTERS) ;;
  (if lists_differ data_contents_again data_contents
   then raise (ValueError data_reads_differ) else ret tt) ;;
  let expected_address_contents :=
    map random_values (seq 0 (Z.to_nat NUM_ADDRESS_REGISTERS)) in
  let expected_data_contents :=
    map random_values
        (seq (Z.to_nat NUM_ADDRESS_REGISTERS) (Z.to_nat NUM_DATA_REGISTERS)) in
  for_each (fun iv => write_address_register (fst iv) (snd iv) ;; ret tt)
           (enumerate expected_address_contents) ;;
  for_each (fun iv => write_data_register (fst iv) (snd iv) ;; ret tt)
           (enumerate expected_data_contents) ;;
  address_contents_again <-
    list_comprehension read_address_register (range NUM_ADDRESS_REGISTERS) ;;
  (if lists_differ address_contents_again expected_address_contents
   then raise (ValueError address_writes_differ) else ret tt) ;;
  data_contents_again <-
    list_comprehension read_data_register (range NUM_DATA_REGISTERS) ;;
  (if lists_differ data_contents_again expected_data_contents
   then raise (ValueError data_writes_differ) else ret tt) ;;
  ret (address_contents, data_contents).

(** The last two loops of the consistency check: the captured contents go
    back to the registers. *)
Definition restoration (captured : list Z * list Z)
  : M (BDMCommandInterface Serial) unit :=
  for_each (fun iv => write_address_register (fst iv) (snd iv) ;; ret tt)
           (enumerate (fst captured)) ;;
  for_each (fun iv => write_data_register (fst iv) (snd iv) ;; ret tt)
           (enumerate (snd captured)).

(** The CSR write as the specification's table has it: three command
    words and no response. *)
Definition csr_write_as_specified (new_value : Z) : list (list byte) :=
  [packet x53 0x2C80;
   packet x53 (Z.shiftr new_value 16);
   packet x53 (Z.land new_value 0xFFFF)].

(** The number of [write] calls that carry the word 0x2C80. *)
Definition csr_writes (cs : list (list byte)) : nat :=
  count_occ (list_eq_dec Byte.byte_eq_dec) cs (packet x53 0x2C80).

(** The engine with its cached step mode replaced. *)
Definition with_step_mode {I : Type} (b : bool) (self : BDMCommandInterface I)
  : BDMCommandInterface I :=
  mkBDM (interface self) b (in_unlock_bypass_mode self).

(** The command word carried by a framed command, read back the way the
    bridge reads it: most significant byte first. *)
Definition packet_word (bs : list byte) : Z :=
  match bs with
  | [_; hi; lo] => 256 * Z_of_byte hi + Z_of_byte lo
  | _ => 0
  end.

(** A test device that never answers: every read times out empty. *)
Definition mute : list event -> nat -> list byte := fun _ _ => [].

(** A test device that answers every read with a single byte. *)
Definition stalling : list event -> nat -> list byte := fun _ _ => [x00].

(** The attributes of the engine other than its interface. *)
Definition same_session {I : Type} (before after : BDMCommandInterface I) : Prop :=
  current_step_mode after = current_step_mode before
  /\ in_unlock_bypass_mode after = in_unlock_bypass_mode before.

(** [m] changes nothing of the engine but its interface. *)
Definition keeps_session {I A : Type} (m : M (BDMCommandInterface I) A) : Prop :=
  forall self, same_session self (snd (m self)).

(** What reading (two receives each) or writing (one receive each) the
    eight registers of a set leaves in the mock's [commands_sent]. *)
Definition eight_reads (opcode : Z) : list (list byte) :=
  flat_map (fun n => [packet x53 (opcode + n); [x72]; [x72]]) (range 8).

Definition eight_writes (opcode : Z) : list (list byte) :=
  flat_map (fun n => [packet x53 (opcode + n); [x72]]) (range 8).

(** A test device whose CSR reads 0x0000F000: its third answer, the low
    word of the CSR, carries 0xF000; every other answer is zero. *)
Definition csr_F000 : list event -> nat -> list byte :=
  fun h n =>
    if Nat.eqb (reads_so_far h) 2
    then [x00; x00; xf0] ++ repeat x00 n
    else repeat x00 n.

(** The [write] calls of a word write and of a word read, in order. *)
Definition word_write (address data : Z) : list (list byte) :=
  [packet x53 0x1840; packet x53 (Z.shiftr address 16);
   packet x53 (Z.land address 0xFFFF); packet x53 data].

Definition word_read (address : Z) : list (list byte) :=
  [packet x53 0x1940; packet x53 (Z.shiftr address 16);
   packet x53 (Z.land address 0xFFFF); [x72]].

(** The [write] calls of the chip erase, and of the eight reads with which
    [load] checks it. *)
Definition chip_erase_commands : list (list byte) :=
  word_write (Z.shiftl 0x555 1) 0xAA ++ word_write (Z.shiftl 0x2AA 1) 0x55
  ++ word_write (Z.shiftl 0x555 1) 0x80 ++ word_write (Z.shiftl 0x555 1) 0xAA
  ++ word_write (Z.shiftl 0x2AA 1) 0x55 ++ word_write (Z.shiftl 0x555 1) 0x10
  ++ word_write (Z.shiftl 0x555 1) 0xF0.

Definition erase_check_commands : list (list byte) :=
  flat_map word_read (even_range 16).

(** On a responsive device [m] returns, with [cmds] as its [write] calls
    and nothing of the engine changed but the history of its port. *)
Definition sends {A : Type} (m : M (BDMCommandInterface Serial) A)
           (cmds : list (list byte)) : Prop :=
  forall self,
    responsive (target (interface self)) ->
    exists (a : A) (after : BDMCommandInterface Serial),
      m self = (Ok a, after)
      /\ target (interface after) = target (interface self)
      /\ written (history (interface after))
         = written (history (interface self)) ++ cmds
      /\ same_session self after.

(** * Properties *)

(** ** Packet codec *)

(** C1. Decoding a response raises [TargetError] for status 1 with data
    0x0001, [IllegalCommand] for status 1 with data 0xFFFF, and for every
    other status and data returns the packet with the data unchanged. *)
Theorem Response_init_sentinels : forall status data : Z,
  (status = 1 -> data = 0x0001 -> Response_init status data = Raise TargetError)
  /\ (status = 1 -> data = 0xFFFF -> Response_init status data = Raise IllegalCommand)
  /\ (~ (status = 1 /\ (data = 0x0001 \/ data = 0xFFFF)) ->
      Response_init status data = Ok (mkResponse status data)).
Proof.
  intros status data. unfold Response_init, TargetError, IllegalCommand.
  repeat split.
  - intros -> ->. reflexivity.
  - intros -> ->. reflexivity.
  - intros Hother.
    destruct (Z.eqb_spec status 1) as [Hs | Hs]; [| reflexivity].
    destruct (Z.eqb_spec data 1) as [Hd | Hd]; [exfalso; auto |].
    destruct (Z.eqb_spec data 65535) as [Hd' | Hd']; [exfalso; auto |].
    reflexivity.
Qed.

Lemma Response_init_sentinels_witness :
  Response_init 1 0x0001 = Raise TargetError
  /\ Response_init 1 0xFFFF = Raise IllegalCommand
  /\ Response_init 1 0x1234 = Ok (mkResponse 1 0x1234).
Proof.
  split; [| split].
  - apply (Response_init_sentinels 1 0x0001); reflexivity.
  - apply (Response_init_sentinels 1 0xFFFF); reflexivity.
  - apply (Response_init_sentinels 1 0x1234). intros [_ [H | H]]; discriminate H.
Defined.

Lemma decode_frame : forall b0 b1 b2 : byte,
  ColdfireSerialInterface.decode [b0; b1; b2]
  = Ok (mkResponse 0 (Z_of_byte b1 + 256 * Z_of_byte b2)).
Proof. reflexivity. Qed.

Lemma decode_benign : forall frame e,
  ColdfireSerialInterface.decode frame = Raise e -> benign e.
Proof.
  intros frame e. unfold benign.
  destruct frame as [| b0 [| b1 [| b2 [| b3 rest]]]]; cbn; intros Heq;
    inversion Heq; auto.
Qed.

(** C2. Whatever the three bytes of a response frame are, the decoded
    packet has status 0, also when byte 0 is ['N']; its data is the
    little-endian word of bytes 1 and 2. *)
Theorem receive_packet_status_is_never_set :
  forall (b0 b1 b2 : byte) (h : list event),
    fst (ColdfireSerialInterface._receive_packet
           (mkSerial (fun _ _ => [b0; b1; b2]) h))
    = Ok (mkResponse 0 (Z_of_byte b1 + 256 * Z_of_byte b2)).
Proof. reflexivity. Qed.

Example receive_packet_N_frame :
  fst (ColdfireSerialInterface._receive_packet
         (mkSerial (fun _ _ => [x4e; x34; x12]) []))
  = Ok (mkResponse 0 0x1234).
Proof. reflexivity. Qed.

(** ** Command words on the wire *)

Arguments be16 : simpl never.
Arguments packet : simpl never.

Lemma struct_pack_in_range : forall w : Z,
  0 <= w <= 0xFFFF -> struct_pack_H_be w = Ok (be16 w).
Proof.
  intros w [Hlo Hhi]. unfold struct_pack_H_be.
  destruct (Z.leb_spec 0 w); [| lia].
  destruct (Z.leb_spec w 65535); [| lia].
  reflexivity.
Qed.

Lemma land_FFFF_range : forall z : Z, 0 <= Z.land z 0xFFFF <= 0xFFFF.
Proof.
  intros z. change (Z.land z 65535) with (Z.land z (Z.ones 16)).
  rewrite Z.land_ones by lia.
  change (2 ^ 16) with 65536.
  pose proof (Z.mod_pos_bound z 65536 ltac:(lia)) as Hb. lia.
Qed.

Lemma land_FFF_range : forall z : Z, 0 <= Z.land z 0xFFF <= 0xFFFF.
Proof.
  intros z. change (Z.land z 4095) with (Z.land z (Z.ones 12)).
  rewrite Z.land_ones by lia.
  change (2 ^ 12) with 4096.
  pose proof (Z.mod_pos_bound z 4096 ltac:(lia)) as Hb. lia.
Qed.

Lemma shiftr_16_range : forall z : Z,
  0 <= z < 2 ^ 32 -> 0 <= Z.shiftr z 16 <= 0xFFFF.
Proof.
  intros z [Hlo Hhi]. rewrite Z.shiftr_div_pow2 by lia.
  change (2 ^ 16) with 65536. change (2 ^ 32) with (65536 * 65536) in Hhi.
  split.
  - apply Z.div_pos; lia.
  - assert (z / 65536 < 65536) by (apply Z.div_lt_upper_bound; lia). lia.
Qed.

(** ** The mock interface *)

Section OnTheMock.

Lemma mock_send_and_receive : forall (w : Z) cs c u,
  0 <= w <= 0xFFFF ->
  on_interface (send_and_receive_packet w)
               (mkBDM (MockColdfireSerialInterface.mk cs) c u)
  = (Ok (mkResponse 0 0xFFFF),
     mkBDM (MockColdfireSerialInterface.mk (cs ++ [packet x53 w])) c u).
Proof.
  intros w cs c u Hw.
  unfold on_interface, send_and_receive_packet, Mock_PacketInterface,
    MockColdfireSerialInterface.send_and_receive_packet, bind, lift_result;
    cbn [interface].
  rewrite (struct_pack_in_range w Hw). reflexivity.
Qed.

Lemma mock_receive : forall cs c u,
  on_interface receive_packet (mkBDM (MockColdfireSerialInterface.mk cs) c u)
  = (Ok (mkResponse 0 0xFFFF),
     mkBDM (MockColdfireSerialInterface.mk (cs ++ [[x72]])) c u).
Proof. reflexivity. Qed.

(** One step of a run on the mock: the next packet goes out and the
    surrounding [bind] is resolved. *)
Ltac mock_step :=
  first [ rewrite mock_send_and_receive by
            first [ lia | apply land_FFFF_range | apply land_FFF_range
                  | apply shiftr_16_range; lia ]
        | rewrite mock_receive ];
  cbv beta iota.

(** C5. [write_control_register] checks nothing: for every register
    encoding, inside [0, 4095] or not, it returns normally after sending
    its five command words. *)
Theorem write_control_register_is_not_validated : forall register : Z,
  write_control_register register 0 (BDM_init MockColdfireSerialInterface.init)
  = (Ok tt,
     mkBDM (MockColdfireSerialInterface.mk
              [packet x53 0x2880; packet x53 0;
               packet x53 (Z.land register 0xFFFF);
               packet x53 0; packet x53 0])
           false None).
Proof.
  intros register.
  unfold write_control_register, _send, BDM_init, MockColdfireSerialInterface.init.
  cbn [for_each].
  change (Z.shiftr 0 16) with 0. change (Z.land 0 65535) with 0.
  unfold bind, ret.
  repeat mock_step.
  reflexivity.
Qed.

End OnTheMock.

(** ** Register writes *)

Section AnyInterface.

Context {I : Type} {PI : PacketInterface I}.

(** C3. The value given to [write_address_register] or
    [write_data_register] has no effect on what the call does, so the
    read-back after a write is the same for every value written, and for
    every engine and register there is a 32-bit value that is not read
    back. *)
Theorem register_write_drops_its_value :
  forall (self : BDMCommandInterface I) (n : Z),
    (forall v1 v2 : Z,
        write_address_register n v1 self = write_address_register n v2 self
        /\ write_data_register n v1 self = write_data_register n v2 self)
    /\ (exists v : Z,
          0 <= v < 2 ^ 32
          /\ fst ((write_address_register n v ;; read_address_register n) self)
             <> Ok v)
    /\ (exists v : Z,
          0 <= v < 2 ^ 32
          /\ fst ((write_data_register n v ;; read_data_register n) self)
             <> Ok v).
Proof.
  intros self n. split; [| split].
  - intros v1 v2. split; reflexivity.
  - destruct (fst ((write_address_register n 0 ;; read_address_register n) self))
      as [a | e] eqn:Hrun.
    + destruct (Z.eq_dec a 0) as [-> | Hneq].
      * exists 1. split; [lia |].
        change (fst ((write_address_register n 0 ;; read_address_register n) self)
                <> Ok 1).
        rewrite Hrun. discriminate.
      * exists 0. split; [lia |]. rewrite Hrun. congruence.
    + exists 0. split; [lia |]. rewrite Hrun. discriminate.
  - destruct (fst ((write_data_register n 0 ;; read_data_register n) self))
      as [a | e] eqn:Hrun.
    + destruct (Z.eq_dec a 0) as [-> | Hneq].
      * exists 1. split; [lia |].
        change (fst ((write_data_register n 0 ;; read_data_register n) self)
                <> Ok 1).
        rewrite Hrun. discriminate.
      * exists 0. split; [lia |]. rewrite Hrun. congruence.
    + exists 0. split; [lia |]. rewrite Hrun. discriminate.
Qed.

(** ** Flash unlock bypass *)

(** C4. On a freshly constructed engine [in_unlock_bypass_mode] has never
    been assigned, and [send_unlock_bypassed_flash_write] ends in an
    [AttributeError], not in the [RuntimeError] of its own check; the
    engine and its interface are left as they were. *)
Theorem bypassed_write_on_fresh_engine :
  forall (i : I) (address data : Z),
    in_unlock_bypass_mode (BDM_init i) = None
    /\ send_unlock_bypassed_flash_write address data (BDM_init i)
       = (Raise AttributeError, BDM_init i).
Proof. intros i address data. split; reflexivity. Qed.

Lemma bypassed_write_when_locked :
  forall (self : BDMCommandInterface I) (address data : Z),
    in_unlock_bypass_mode self = Some false ->
    send_unlock_bypassed_flash_write address data self
    = (Raise ProtocolStateError, self).
Proof.
  intros self address data Hlocked.
  unfold send_unlock_bypassed_flash_write, bind, get_in_unlock_bypass_mode.
  rewrite Hlocked. reflexivity.
Qed.

(** ** Bounds checks *)

Lemma register_index_is_validated :
  forall (self : BDMCommandInterface I) (n v : Z),
    ~ 0 <= n <= 7 ->
    read_address_register n self = (Raise (ValueError cant_read_address_register), self)
    /\ read_data_register n self = (Raise (ValueError cant_read_data_register), self)
    /\ write_address_register n v self
       = (Raise (ValueError cant_write_address_register), self)
    /\ write_data_register n v self
       = (Raise (ValueError cant_write_data_register), self).
Proof.
  intros self n v Hn.
  unfold read_address_register, read_data_register, write_address_register,
    write_data_register, NUM_ADDRESS_REGISTERS, NUM_DATA_REGISTERS.
  assert (Hcheck : (n >? 8 - 1) || (n <? 0) = true).
  { destruct (Z.gtb_spec n (8 - 1)); destruct (Z.ltb_spec n 0);
      try reflexivity; lia. }
  rewrite Hcheck. repeat split; reflexivity.
Qed.

Lemma control_register_read_is_validated :
  forall (self : BDMCommandInterface I) (encoding : Z),
    ~ 0 <= encoding <= 4095 ->
    read_control_register encoding self
    = (Raise (ValueError control_register_field), self).
Proof.
  intros self encoding Hn. unfold read_control_register.
  assert (Hcheck : (encoding <? 0) || (encoding >? 4095) = true).
  { destruct (Z.gtb_spec encoding 4095); destruct (Z.ltb_spec encoding 0);
      try reflexivity; lia. }
  rewrite Hcheck. reflexivity.
Qed.

End AnyInterface.

(** ** The bridge on a serial port *)

Lemma extend_extend : forall evs1 evs2 self,
  extend evs2 (extend evs1 self) = extend (evs1 ++ evs2) self.
Proof.
  intros evs1 evs2 self. unfold extend; cbn [interface target history
    current_step_mode in_unlock_bypass_mode].
  rewrite <- app_assoc. reflexivity.
Qed.

Lemma decode_full_frame : forall frame,
  length frame = 3%nat ->
  ColdfireSerialInterface.decode frame = Ok (mkResponse 0 (frame_data frame)).
Proof.
  intros frame Hlen.
  destruct frame as [| b0 [| b1 [| b2 [| b3 rest]]]]; try discriminate Hlen.
  reflexivity.
Qed.

Lemma next_frame_length : forall self,
  responsive (target (interface self)) -> length (next_frame self) = 3%nat.
Proof.
  intros self Hresp. unfold next_frame.
  rewrite length_firstn. specialize (Hresp (history (interface self)) 3%nat). lia.
Qed.

Lemma cf_send_packet : forall (w : Z) (self : BDMCommandInterface Serial),
  0 <= w <= 0xFFFF ->
  on_interface (send_packet w) self = (Ok tt, extend [Wr (packet x73 w)] self).
Proof.
  intros w self Hw.
  unfold on_interface, send_packet, Coldfire_PacketInterface,
    ColdfireSerialInterface.send_packet, bind, lift_result.
  rewrite (struct_pack_in_range w Hw). reflexivity.
Qed.

Lemma cf_send_packet_rejected : forall (w : Z) (self : BDMCommandInterface Serial),
  ~ 0 <= w <= 0xFFFF ->
  on_interface (send_packet w) self = (Raise struct_error, extend [] self).
Proof.
  intros w self Hw.
  unfold on_interface, send_packet, Coldfire_PacketInterface,
    ColdfireSerialInterface.send_packet, bind, lift_result, struct_pack_H_be.
  destruct (Z.leb_spec 0 w); destruct (Z.leb_spec w 65535); try lia;
    cbn [andb]; unfold extend; rewrite app_nil_r; destruct self as [[t h] c u];
    reflexivity.
Qed.

(** Sending a command while receiving: the command goes out, three bytes
    are asked for, and what came back is decoded. *)
Lemma cf_send_and_receive : forall (w : Z) (self : BDMCommandInterface Serial),
  0 <= w <= 0xFFFF ->
  on_interface (send_and_receive_packet w) self
  = (ColdfireSerialInterface.decode (next_frame (extend [Wr (packet x53 w)] self)),
     extend [Wr (packet x53 w); Rd (next_frame (extend [Wr (packet x53 w)] self))]
            self).
Proof.
  intros w self Hw.
  unfold on_interface, send_and_receive_packet, Coldfire_PacketInterface,
    ColdfireSerialInterface.send_and_receive_packet,
    ColdfireSerialInterface._receive_packet, bind, lift_result.
  rewrite (struct_pack_in_range w Hw).
  unfold extend, next_frame; cbn. rewrite <- app_assoc. reflexivity.
Qed.

Lemma cf_send_and_receive_rejected :
  forall (w : Z) (self : BDMCommandInterface Serial),
    ~ 0 <= w <= 0xFFFF ->
    on_interface (send_and_receive_packet w) self = (Raise struct_error, extend [] self).
Proof.
  intros w self Hw.
  unfold on_interface, send_and_receive_packet, Coldfire_PacketInterface,
    ColdfireSerialInterface.send_and_receive_packet, bind, lift_result,
    struct_pack_H_be.
  destruct (Z.leb_spec 0 w); destruct (Z.leb_spec w 65535); try lia;
    cbn [andb]; unfold extend; rewrite app_nil_r; destruct self as [[t h] c u];
    reflexivity.
Qed.

Lemma cf_receive : forall self : BDMCommandInterface Serial,
  on_interface receive_packet self
  = (ColdfireSerialInterface.decode (next_frame (extend [Wr [x72]] self)),
     extend [Wr [x72]; Rd (next_frame (extend [Wr [x72]] self))] self).
Proof.
  intros self.
  unfold on_interface, receive_packet, Coldfire_PacketInterface,
    ColdfireSerialInterface.receive_packet,
    ColdfireSerialInterface._receive_packet, bind, lift_result.
  unfold extend, next_frame; cbn. rewrite <- app_assoc. reflexivity.
Qed.

Lemma silent_responsive : responsive silent.
Proof. intros h n. unfold silent. rewrite repeat_length. apply le_n. Qed.

(** With a responsive device every exchange succeeds. *)
Lemma cf_send_and_receive_ok : forall (w : Z) (self : BDMCommandInterface Serial),
  responsive (target (interface self)) ->
  0 <= w <= 0xFFFF ->
  on_interface (send_and_receive_packet w) self
  = (Ok (mkResponse 0 (frame_data (next_frame (extend [Wr (packet x53 w)] self)))),
     extend [Wr (packet x53 w); Rd (next_frame (extend [Wr (packet x53 w)] self))]
            self).
Proof.
  intros w self Hresp Hw. rewrite (cf_send_and_receive w self Hw).
  rewrite decode_full_frame; [reflexivity |].
  apply next_frame_length. exact Hresp.
Qed.

Lemma cf_receive_ok : forall self : BDMCommandInterface Serial,
  responsive (target (interface self)) ->
  on_interface receive_packet self
  = (Ok (mkResponse 0 (frame_data (next_frame (extend [Wr [x72]] self)))),
     extend [Wr [x72]; Rd (next_frame (extend [Wr [x72]] self))] self).
Proof.
  intros self Hresp. rewrite (cf_receive self).
  rewrite decode_full_frame; [reflexivity |].
  apply next_frame_length. exact Hresp.
Qed.

(** ** The configuration status register *)

Lemma low_word_when_high_nibble_clear : forall v : Z,
  Z.land v 0xF000 = 0 -> Z.land v 0xFFF = Z.land v 0xFFFF.
Proof.
  intros v Hclear.
  change 65535 with (Z.lor 61440 4095).
  rewrite Z.land_lor_distr_r, Hclear. reflexivity.
Qed.

(** C7 (as the code has it). Writing the CSR sends the command word
    0x2C80, then the high 16 bits of the new value, then a third word that
    agrees with the new value in its low 12 bits (and is its low 16 bits
    when bits 12 to 15 of the value are clear), and then reads one response
    word, which it returns. *)
Theorem write_csr_sends_three_words_and_reads_one :
  forall (self : BDMCommandInterface Serial) (new_value : Z),
    responsive (target (interface self)) ->
    0 <= new_value < 2 ^ 32 ->
    exists (third : Z) (f1 f2 f3 f4 : list byte),
      Z.land third 0xFFF = Z.land new_value 0xFFF
      /\ (Z.land new_value 0xF000 = 0 -> third = Z.land new_value 0xFFFF)
      /\ write_debug_configuration_status_register new_value self
         = (Ok (frame_data f4),
            extend [Wr (packet x53 0x2C80); Rd f1;
                    Wr (packet x53 (Z.shiftr new_value 16)); Rd f2;
                    Wr (packet x53 third); Rd f3;
                    Wr [x72]; Rd f4] self).
Proof.
  intros self new_value Hresp Hrange.
  exists (Z.land new_value 0xFFF).
  unfold write_debug_configuration_status_register, _send_then_receive.
  change (range 1) with [0]. cbn [for_each list_comprehension].
  unfold bind, ret.
  rewrite cf_send_and_receive_ok by (assumption || lia). cbv beta iota.
  rewrite cf_send_and_receive_ok
    by (assumption || (apply shiftr_16_range; lia)). cbv beta iota.
  rewrite cf_send_and_receive_ok
    by (assumption || apply land_FFF_range). cbv beta iota.
  rewrite cf_receive_ok by assumption. cbv beta iota.
  rewrite !extend_extend. cbn [app data].
  do 4 eexists. split; [| split; [| reflexivity]].
  - rewrite <- Z.land_assoc. reflexivity.
  - apply low_word_when_high_nibble_clear.
Qed.

Lemma write_csr_sends_three_words_and_reads_one_witness :
  exists (third : Z) (f1 f2 f3 f4 : list byte),
    Z.land third 0xFFF = Z.land 0x10 0xFFF
    /\ (Z.land 0x10 0xF000 = 0 -> third = Z.land 0x10 0xFFFF)
    /\ write_debug_configuration_status_register 0x10 (BDM_init (mkSerial silent []))
       = (Ok (frame_data f4),
          extend [Wr (packet x53 0x2C80); Rd f1;
                  Wr (packet x53 (Z.shiftr 0x10 16)); Rd f2;
                  Wr (packet x53 third); Rd f3;
                  Wr [x72]; Rd f4] (BDM_init (mkSerial silent []))).
Proof.
  apply (write_csr_sends_three_words_and_reads_one
           (BDM_init (mkSerial silent [])) 0x10).
  - exact silent_responsive.
  - cbv. split; [discriminate | reflexivity].
Defined.

(** C7 (as stated) fails: after the three command words a receive command
    goes out, so the write is not the three words of the table alone. *)
Lemma write_csr_is_not_as_specified :
  written (history (interface (snd
    (write_debug_configuration_status_register 0x10
       (BDM_init (mkSerial silent []))))))
  = csr_write_as_specified 0x10 ++ [[x72]]
  /\ written (history (interface (snd
       (write_debug_configuration_status_register 0x10
          (BDM_init (mkSerial silent []))))))
     <> csr_write_as_specified 0x10.
Proof.
  split.
  - vm_compute. reflexivity.
  - vm_compute. discriminate.
Qed.

(** ** Single-step mode *)

Lemma clear_mask_bits : forall i : Z,
  0 <= i < 32 -> Z.testbit 0xFFFFFFEF i = negb (i =? 4).
Proof.
  intros i Hi.
  change 4294967279 with (Z.ldiff (Z.ones 32) (2 ^ 4)).
  rewrite Z.ldiff_spec, Z.ones_spec_low by lia.
  rewrite Z.pow2_bits_eqb by lia. rewrite Z.eqb_sym. reflexivity.
Qed.

Lemma step_bit_bits : forall i : Z, 0 <= i -> Z.testbit 16 i = (i =? 4).
Proof.
  intros i Hi. change 16 with (2 ^ 4).
  rewrite Z.pow2_bits_eqb by lia. apply Z.eqb_sym.
Qed.

(** The register value that [set_single_step_mode] computes from the CSR
    it has read has bit 4 equal to [enabled] and the other 31 bits as
    read. *)
Lemma new_register_bits : forall (csr : Z) (enabled : bool),
  let cleared := Z.land csr 0xFFFFFFEF in
  let new_register := if enabled then Z.lor cleared 16 else cleared in
  Z.testbit new_register 4 = enabled
  /\ (forall i, 0 <= i < 32 -> i <> 4 ->
      Z.testbit new_register i = Z.testbit csr i).
Proof.
  intros csr enabled cleared new_register. subst cleared new_register. split.
  - destruct enabled.
    + rewrite Z.lor_spec, step_bit_bits by lia. apply orb_true_r.
    + rewrite Z.land_spec, clear_mask_bits by lia. apply andb_false_r.
  - intros i Hi Hneq.
    assert (Hmask : Z.testbit 0xFFFFFFEF i = true).
    { rewrite clear_mask_bits by lia.
      destruct (Z.eqb_spec i 4); [contradiction | reflexivity]. }
    assert (Hbit : Z.testbit 16 i = false).
    { rewrite step_bit_bits by lia.
      destruct (Z.eqb_spec i 4); [contradiction | reflexivity]. }
    destruct enabled.
    + rewrite Z.lor_spec, Z.land_spec, Hmask, Hbit, andb_true_r, orb_false_r.
      reflexivity.
    + rewrite Z.land_spec, Hmask, andb_true_r. reflexivity.
Qed.

Lemma csr_writes_app : forall cs1 cs2,
  csr_writes (cs1 ++ cs2) = (csr_writes cs1 + csr_writes cs2)%nat.
Proof. intros cs1 cs2. unfold csr_writes. apply count_occ_app. Qed.

(** One change of step mode on the mock: the CSR is read (0x2D80 and two
    receives) and written back (0x2C80 and its two data words, then a
    receive). *)
Lemma mock_set_single_step_mode : forall cs c u,
  set_single_step_mode (negb c) (mkBDM (MockColdfireSerialInterface.mk cs) c u)
  = (Ok tt,
     mkBDM (MockColdfireSerialInterface.mk
              (cs ++ [packet x53 0x2D80; [x72]; [x72];
                      packet x53 0x2C80; packet x53 0xFFFF;
                      packet x53 (if c then 0xFEF else 0xFFF); [x72]]))
           (negb c) u).
Proof.
  intros cs c u.
  unfold set_single_step_mode; cbn [current_step_mode].
  replace (Bool.eqb c (negb c)) with false by (destruct c; reflexivity).
  unfold read_debug_configuration_status_register,
    write_debug_configuration_status_register, _send_then_receive,
    set_current_step_mode.
  change (range 1) with [0]. change (range 2) with [0; 1].
  cbn [for_each list_comprehension]. unfold bind, ret.
  rewrite mock_send_and_receive by lia. cbv beta iota.
  rewrite !mock_receive. cbv beta iota.
  cbn [data ConfigurationStatusRegister.data].
  change (Z.lor (Z.shiftl 65535 16) 65535) with 0xFFFFFFFF.
  destruct c; cbn [negb].
  - change (Z.shiftr (Z.land 4294967295 4294967279) 16) with 0xFFFF.
    change (Z.land (Z.land 4294967295 4294967279) 4095) with 0xFEF.
    rewrite !mock_send_and_receive by lia. cbv beta iota.
    rewrite mock_receive. cbv beta iota.
    cbn [interface in_unlock_bypass_mode].
    repeat rewrite <- app_assoc. reflexivity.
  - change (Z.shiftr (Z.lor (Z.land 4294967295 4294967279) 16) 16) with 0xFFFF.
    change (Z.land (Z.lor (Z.land 4294967295 4294967279) 16) 4095) with 0xFFF.
    rewrite !mock_send_and_receive by lia. cbv beta iota.
    rewrite mock_receive. cbv beta iota.
    cbn [interface in_unlock_bypass_mode].
    repeat rewrite <- app_assoc. reflexivity.
Qed.

(** The CSR decodes bit 4 as the single-step flag.  On any interface,
    [set_single_step_mode enabled] leaves the engine untouched when the
    cached mode is already [enabled]; otherwise it reads the CSR, hands
    [write_debug_configuration_status_register] the value read with bit 4
    made equal to [enabled] and the other bits kept, and sets the cache, so
    that a second call with the same value does nothing.  Counted on the
    mock, the first of two calls with the same value issues one CSR write
    when it changes the mode (none when it does not), the second none. *)
Theorem set_single_step_mode_writes_once :
  ConfigurationStatusRegister.single_step_mode
    (ConfigurationStatusRegister.mk 0x00000010) = true
  /\ ConfigurationStatusRegister.single_step_mode
       (ConfigurationStatusRegister.mk 0x00000000) = false
  /\ (forall (I : Type) (PI : PacketInterface I)
             (self : BDMCommandInterface I) (enabled : bool),
        (current_step_mode self = enabled ->
         set_single_step_mode enabled self = (Ok tt, self))
        /\ (current_step_mode self <> enabled ->
            forall csr self1,
              read_debug_configuration_status_register self = (Ok csr, self1) ->
              exists new_register : Z,
                Z.testbit new_register 4 = enabled
                /\ (forall i, 0 <= i < 32 -> i <> 4 ->
                    Z.testbit new_register i
                    = Z.testbit (ConfigurationStatusRegister.data csr) i)
                /\ (forall r self2,
                      write_debug_configuration_status_register new_register self1
                      = (Ok r, self2) ->
                      set_single_step_mode enabled self
                      = (Ok tt, with_step_mode enabled self2)
                      /\ set_single_step_mode enabled (with_step_mode enabled self2)
                         = (Ok tt, with_step_mode enabled self2))))
  /\ (forall (cs : list (list byte)) (c : bool) (u : option bool) (enabled : bool),
        let self := mkBDM (MockColdfireSerialInterface.mk cs) c u in
        let once := snd (set_single_step_mode enabled self) in
        let twice := snd (set_single_step_mode enabled once) in
        csr_writes (MockColdfireSerialInterface.commands_sent (interface once))
        = (csr_writes cs + (if Bool.eqb c enabled then 0 else 1))%nat
        /\ csr_writes (MockColdfireSerialInterface.commands_sent (interface twice))
           = csr_writes (MockColdfireSerialInterface.commands_sent (interface once))).
Proof.
  split; [reflexivity |]. split; [reflexivity |]. split.
  - intros I PI self enabled. split.
    + intros Hsame. unfold set_single_step_mode.
      rewrite Hsame, Bool.eqb_reflx. reflexivity.
    + intros Hdiff csr self1 Hread.
      pose proof (new_register_bits (ConfigurationStatusRegister.data csr) enabled)
        as [Hbit4 Hothers].
      eexists. split; [exact Hbit4 |]. split; [exact Hothers |].
      intros r self2 Hwrite. split.
      * unfold set_single_step_mode.
        destruct (Bool.eqb (current_step_mode self) enabled) eqn:Heq.
        { apply Bool.eqb_prop in Heq. contradiction. }
        unfold bind at 1. rewrite Hread.
        unfold bind at 1. rewrite Hwrite. reflexivity.
      * unfold set_single_step_mode, with_step_mode; cbn [current_step_mode].
        rewrite Bool.eqb_reflx. reflexivity.
  - intros cs c u enabled self once twice. subst self once twice.
    destruct (Bool.eqb c enabled) eqn:Heq.
    + apply Bool.eqb_prop in Heq. subst enabled.
      unfold set_single_step_mode; cbn [current_step_mode].
      rewrite Bool.eqb_reflx. cbn [snd interface current_step_mode
        MockColdfireSerialInterface.commands_sent].
      rewrite Bool.eqb_reflx. cbn [snd interface
        MockColdfireSerialInterface.commands_sent].
      split; lia.
    + assert (Henabled : enabled = negb c)
        by (destruct c, enabled; try reflexivity; discriminate Heq).
      subst enabled. rewrite mock_set_single_step_mode.
      cbn [snd interface MockColdfireSerialInterface.commands_sent].
      split.
      * rewrite csr_writes_app. f_equal. destruct c; vm_compute; reflexivity.
      * unfold set_single_step_mode; cbn [current_step_mode].
        rewrite Bool.eqb_reflx. reflexivity.
Qed.

Lemma set_single_step_mode_writes_once_witness :
  set_single_step_mode false (BDM_init MockColdfireSerialInterface.init)
  = (Ok tt, BDM_init MockColdfireSerialInterface.init)
  /\ csr_writes (MockColdfireSerialInterface.commands_sent (interface (snd
       (set_single_step_mode true (BDM_init MockColdfireSerialInterface.init)))))
     = 1%nat.
Proof.
  destruct set_single_step_mode_writes_once as [_ [_ [Hany Hmock]]]. split.
  - apply (Hany _ _ (BDM_init MockColdfireSerialInterface.init) false).
    reflexivity.
  - apply (Hmock [] false None true).
Defined.

(** ** Streaming dump *)

Lemma take_all_step :
  forall (I : Type) (PI : PacketInterface I) (fuel : nat)
         (sg : BDMCommandInterface I * dump_words_generator),
    take_all (S fuel) sg
    = match dump_words_next sg with
      | (Ok None, sg1) => (Ok [], sg1)
      | (Ok (Some w), sg1) =>
          match take_all fuel sg1 with
          | (Ok ws, sg2) => (Ok (w :: ws), sg2)
          | (Raise e, sg2) => (Raise e, sg2)
          end
      | (Raise e, sg1) => (Raise e, sg1)
      end.
Proof.
  intros I PI fuel sg. cbn [take_all]. unfold bind at 1.
  destruct (dump_words_next sg) as [[[w |] | e] sg1]; reflexivity.
Qed.

(** The loop does not look at where the generator was suspended. *)
Lemma loop_ignores_generator :
  forall (I : Type) (PI : PacketInterface I) (k : nat)
         (self : BDMCommandInterface I) (g1 g2 : dump_words_generator),
    (let (r, sg) := dump_words_loop k (self, g1) in
     match r with
     | Ok v => (Ok v, sg)
     | Raise e => (Raise e, (fst sg, dw_finished))
     end)
    = (let (r, sg) := dump_words_loop k (self, g2) in
       match r with
       | Ok v => (Ok v, sg)
       | Raise e => (Raise e, (fst sg, dw_finished))
       end).
Proof.
  intros I PI k self g1 g2.
  destruct k as [| k]; unfold dump_words_loop, on_self, suspend_at, bind, ret;
    cbn [fst snd].
  - destruct (on_interface receive_packet self) as [[r | e] s1]; reflexivity.
  - destruct (on_interface (send_and_receive_packet 7488) self) as [[r | e] s1];
      reflexivity.
Qed.

Section Dump.

Variable self0 : BDMCommandInterface Serial.
Hypothesis device_responsive : responsive (target (interface self0)).

Lemma extend_responsive : forall evs,
  responsive (target (interface (extend evs self0))).
Proof. intros evs. exact device_responsive. Qed.

Lemma next_in_loop : forall evs k,
  let self := extend evs self0 in
  let frame := next_frame (extend [Wr (packet x53 0x1D40)] self) in
  dump_words_next (self, dw_in_loop (S k))
  = (Ok (Some (frame_data frame)),
     (extend [Wr (packet x53 0x1D40); Rd frame] self, dw_in_loop k)).
Proof.
  intros evs k self frame. subst frame.
  unfold dump_words_next, dump_words_body; cbn [snd].
  unfold dump_words_loop, on_self, suspend_at, bind, ret; cbn [fst snd].
  rewrite cf_send_and_receive_ok by (apply extend_responsive || lia).
  reflexivity.
Qed.

Lemma next_after_loop : forall evs,
  let self := extend evs self0 in
  let frame := next_frame (extend [Wr [x72]] self) in
  dump_words_next (self, dw_in_loop 0)
  = (Ok (Some (frame_data frame)),
     (extend [Wr [x72]; Rd frame] self, dw_at_last_yield)).
Proof.
  intros evs self frame. subst frame.
  unfold dump_words_next, dump_words_body; cbn [snd].
  unfold dump_words_loop, on_self, suspend_at, bind, ret; cbn [fst snd].
  rewrite cf_receive_ok by apply extend_responsive.
  reflexivity.
Qed.

Lemma next_at_last_yield : forall self : BDMCommandInterface Serial,
  dump_words_next (self, dw_at_last_yield) = (Ok None, (self, dw_finished)).
Proof. reflexivity. Qed.

(** From inside the loop with [k] iterations to go, the generator yields
    [k + 1] words and stops. *)
Lemma take_all_in_loop : forall k evs,
  exists (frames : list (list byte)) (last : list byte),
    length frames = k
    /\ Forall (fun f => length f = 3%nat) (frames ++ [last])
    /\ take_all (S (S k)) (extend evs self0, dw_in_loop k)
       = (Ok (map frame_data (frames ++ [last])),
          (extend (pipelined frames ++ [Wr [x72]; Rd last]) (extend evs self0),
           dw_finished)).
Proof.
  induction k as [| k IH]; intros evs.
  - exists [], (next_frame (extend [Wr [x72]] (extend evs self0))).
    split; [reflexivity |]. split.
    + constructor; [| constructor].
      apply next_frame_length, extend_responsive.
    + cbn [take_all]. unfold bind, ret. rewrite next_after_loop.
      cbv beta iota zeta. rewrite next_at_last_yield. reflexivity.
  - pose (frame := next_frame (extend [Wr (packet x53 0x1D40)] (extend evs self0))).
    destruct (IH (evs ++ [Wr (packet x53 0x1D40); Rd frame]))
      as (frames & last & Hlen & Hall & Hrun).
    exists (frame :: frames), last.
    split; [cbn [length]; congruence |]. split.
    + cbn [app]. constructor; [| exact Hall].
      apply next_frame_length, extend_responsive.
    + rewrite take_all_step, next_in_loop. fold frame.
      cbv beta iota zeta. rewrite extend_extend, Hrun, !extend_extend.
      cbn [pipelined flat_map app map]. rewrite <- !app_assoc. reflexivity.
Qed.

Lemma next_when_created : forall base_address num_words : Z,
  0 <= base_address < 2 ^ 32 ->
  dump_words_next (extend [] self0, dw_created base_address num_words)
  = dump_words_next
      (extend [Wr (packet x73 0x1940);
               Wr (packet x73 (Z.shiftr base_address 16));
               Wr (packet x73 (Z.land base_address 0xFFFF))] self0,
       dw_in_loop (Z.to_nat (num_words - 1))).
Proof.
  intros base_address num_words Hbase.
  unfold dump_words_next, dump_words_body; cbn [snd].
  unfold on_self, bind; cbn [fst snd].
  rewrite cf_send_packet by lia.
  rewrite cf_send_packet by (apply shiftr_16_range; exact Hbase).
  rewrite cf_send_packet by apply land_FFFF_range.
  cbn [fst snd]. rewrite !extend_extend. cbn [app].
  apply loop_ignores_generator.
Qed.

Lemma extend_nothing : forall self : BDMCommandInterface Serial,
  extend [] self = self.
Proof.
  intros [[t h] c u]. unfold extend; cbn. rewrite app_nil_r. reflexivity.
Qed.

(** The whole dump, for any [num_words]. *)
Lemma dump_words_run : forall base_address num_words : Z,
  0 <= base_address < 2 ^ 32 ->
  exists (frames : list (list byte)) (last : list byte),
    length frames = Z.to_nat (num_words - 1)
    /\ Forall (fun f => length f = 3%nat) (frames ++ [last])
    /\ list_dump_words base_address num_words self0
       = (Ok (map frame_data (frames ++ [last])),
          (extend ([Wr (packet x73 0x1940);
                    Wr (packet x73 (Z.shiftr base_address 16));
                    Wr (packet x73 (Z.land base_address 0xFFFF))]
                   ++ pipelined frames ++ [Wr [x72]; Rd last]) self0,
           dw_finished)).
Proof.
  intros base_address num_words Hbase.
  destruct (take_all_in_loop (Z.to_nat (num_words - 1))
              [Wr (packet x73 0x1940);
               Wr (packet x73 (Z.shiftr base_address 16));
               Wr (packet x73 (Z.land base_address 0xFFFF))])
    as (frames & last & Hlen & Hall & Hrun).
  exists frames, last. split; [exact Hlen |]. split; [exact Hall |].
  unfold list_dump_words, dump_words; cbn [dump_words_steps].
  rewrite <- (extend_nothing self0) at 1.
  rewrite take_all_step, (next_when_created base_address num_words Hbase).
  rewrite take_all_step in Hrun. rewrite Hrun, extend_extend. reflexivity.
Qed.

End Dump.

Lemma Z_of_byte_range : forall b : byte, 0 <= Z_of_byte b <= 255.
Proof.
  intros b. unfold Z_of_byte. pose proof (Byte.to_N_bounded b). lia.
Qed.

Lemma frame_data_range : forall frame : list byte, 0 <= frame_data frame <= 0xFFFF.
Proof.
  intros frame.
  destruct frame as [| b0 [| b1 [| b2 [| b3 rest]]]]; cbn [frame_data]; try lia.
  pose proof (Z_of_byte_range b1). pose proof (Z_of_byte_range b2). lia.
Qed.

Lemma frame_data_words : forall frames : list (list byte),
  Forall (fun w => 0 <= w <= 0xFFFF) (map frame_data frames).
Proof.
  intros frames. apply Forall_forall. intros w Hin.
  apply in_map_iff in Hin. destruct Hin as (frame & <- & _).
  apply frame_data_range.
Qed.

(** C8. With a responsive device, a 32-bit base address and [count >= 1],
    the dump yields exactly [count] words: the Read-Word command and the
    two halves of the address are sent, then [count - 1] times the command
    0x1D40 is sent while the previous word's frame is received, and a final
    receive drains the last frame; the words yielded are the data of the
    frames in the order they arrived.  A device that answers with
    0x1111, 0x2222, 0x3333, 0x4444 gives exactly these four words for
    [count = 4]. *)
Theorem dump_words_yields_count_words :
  (forall (self : BDMCommandInterface Serial) (base_address count : Z),
      responsive (target (interface self)) ->
      0 <= base_address < 2 ^ 32 ->
      1 <= count ->
      exists (frames : list (list byte)) (last : list byte),
        Z.of_nat (length frames) = count - 1
        /\ Z.of_nat (length (map frame_data (frames ++ [last]))) = count
        /\ Forall (fun w => 0 <= w <= 0xFFFF) (map frame_data (frames ++ [last]))
        /\ Forall (fun f => length f = 3%nat) (frames ++ [last])
        /\ list_dump_words base_address count self
           = (Ok (map frame_data (frames ++ [last])),
              (extend ([Wr (packet x73 0x1940);
                        Wr (packet x73 (Z.shiftr base_address 16));
                        Wr (packet x73 (Z.land base_address 0xFFFF))]
                       ++ pipelined frames ++ [Wr [x72]; Rd last]) self,
               dw_finished)))
  /\ fst (list_dump_words 0x1000 4
            (BDM_init (mkSerial (scripted [[x00; x11; x11]; [x00; x22; x22];
                                           [x00; x33; x33]; [x00; x44; x44]])
                                [])))
     = Ok [0x1111; 0x2222; 0x3333; 0x4444].
Proof.
  split.
  - intros self base_address count Hresp Hbase Hcount.
    destruct (dump_words_run self Hresp base_address count Hbase)
      as (frames & last & Hlen & Hall & Hrun).
    exists frames, last. split; [lia |].
    split; [| split; [apply frame_data_words | split; assumption]].
    rewrite length_map, length_app. cbn [length]. lia.
  - vm_compute. reflexivity.
Qed.

Lemma dump_words_yields_count_words_witness :
  exists (frames : list (list byte)) (last : list byte),
    Z.of_nat (length frames) = 4 - 1
    /\ Z.of_nat (length (map frame_data (frames ++ [last]))) = 4
    /\ Forall (fun w => 0 <= w <= 0xFFFF) (map frame_data (frames ++ [last]))
    /\ Forall (fun f => length f = 3%nat) (frames ++ [last])
    /\ list_dump_words 0x1000 4 (BDM_init (mkSerial silent []))
       = (Ok (map frame_data (frames ++ [last])),
          (extend ([Wr (packet x73 0x1940);
                    Wr (packet x73 (Z.shiftr 0x1000 16));
                    Wr (packet x73 (Z.land 0x1000 0xFFFF))]
                   ++ pipelined frames ++ [Wr [x72]; Rd last])
                  (BDM_init (mkSerial silent [])),
           dw_finished)).
Proof.
  apply (proj1 dump_words_yields_count_words
               (BDM_init (mkSerial silent [])) 0x1000 4).
  - exact silent_responsive.
  - cbv. split; [discriminate | reflexivity].
  - lia.
Defined.

(** C10. With a responsive device and a 32-bit base address, the dump
    yields [max(num_words, 1)] words whatever [num_words] is; for
    [num_words <= 0] it sends the three address-setup words, performs one
    receive and yields the one word received. *)
Theorem dump_words_yields_one_word_for_no_words :
  forall (self : BDMCommandInterface Serial) (base_address num_words : Z),
    responsive (target (interface self)) ->
    0 <= base_address < 2 ^ 32 ->
    (exists (ws : list Z) (final : BDMCommandInterface Serial),
        list_dump_words base_address num_words self = (Ok ws, (final, dw_finished))
        /\ Z.of_nat (length ws) = Z.max num_words 1)
    /\ (num_words <= 0 ->
        exists last : list byte,
          length last = 3%nat
          /\ list_dump_words base_address num_words self
             = (Ok [frame_data last],
                (extend [Wr (packet x73 0x1940);
                         Wr (packet x73 (Z.shiftr base_address 16));
                         Wr (packet x73 (Z.land base_address 0xFFFF));
                         Wr [x72]; Rd last] self,
                 dw_finished))).
Proof.
  intros self base_address num_words Hresp Hbase.
  destruct (dump_words_run self Hresp base_address num_words Hbase)
    as (frames & last & Hlen & Hall & Hrun).
  split.
  - eexists. eexists. split; [exact Hrun |].
    rewrite length_map, length_app. cbn [length]. lia.
  - intros Hnone.
    assert (Hempty : frames = []).
    { destruct frames as [| f frames]; [reflexivity |].
      cbn [length] in Hlen. lia. }
    subst frames. exists last. split.
    + inversion Hall; assumption.
    + exact Hrun.
Qed.

Lemma dump_words_yields_one_word_for_no_words_witness :
  (exists (ws : list Z) (final : BDMCommandInterface Serial),
      list_dump_words 0x1000 0 (BDM_init (mkSerial silent []))
      = (Ok ws, (final, dw_finished))
      /\ Z.of_nat (length ws) = Z.max 0 1)
  /\ (0 <= 0 ->
      exists last : list byte,
        length last = 3%nat
        /\ list_dump_words 0x1000 0 (BDM_init (mkSerial silent []))
           = (Ok [frame_data last],
              (extend [Wr (packet x73 0x1940);
                       Wr (packet x73 (Z.shiftr 0x1000 16));
                       Wr (packet x73 (Z.land 0x1000 0xFFFF));
                       Wr [x72]; Rd last] (BDM_init (mkSerial silent [])),
               dw_finished))).
Proof.
  apply (dump_words_yields_one_word_for_no_words
           (BDM_init (mkSerial silent [])) 0x1000 0).
  - exact silent_responsive.
  - cbv. split; [discriminate | reflexivity].
Defined.

(** ** Consistency check *)

Lemma written_app : forall h1 h2, written (h1 ++ h2) = written h1 ++ written h2.
Proof.
  induction h1 as [| [bs | bs] h1 IH]; intros h2; cbn [written app].
  - reflexivity.
  - rewrite IH. reflexivity.
  - apply IH.
Qed.

Lemma register_writes_extend : forall evs self,
  register_writes (extend evs self)
  = register_writes self
    + Z.of_nat (length (filter is_register_write (written evs))).
Proof.
  intros evs self. unfold register_writes, extend; cbn [interface history].
  rewrite written_app, filter_app, length_app. lia.
Qed.

Lemma benign_in_order : forall e n, benign e -> in_order e n.
Proof.
  intros e n [-> | [-> | Hvalid]]; split; intros [H | H];
    try discriminate H; subst e; contradiction.
Qed.

Lemma issues_ret : forall (A : Type) (a : A), issues (ret a) 0.
Proof. intros A a self. cbn. lia. Qed.

Lemma issues_raise : forall (A : Type) (e : exn) (k : Z),
  benign e -> issues (@raise _ A e) k.
Proof. intros A e k He self. exact He. Qed.

Lemma issues_bind :
  forall (A B : Type) (m : M (BDMCommandInterface Serial) A)
         (f : A -> M (BDMCommandInterface Serial) B) (k1 k2 : Z),
    issues m k1 -> (forall a, issues (f a) k2) -> issues (bind m f) (k1 + k2).
Proof.
  intros A B m f k1 k2 Hm Hf self. unfold bind.
  specialize (Hm self). destruct (m self) as [[a | e] s1]; [| exact Hm].
  specialize (Hf a s1). destruct (f a s1) as [[b | e] s2]; [lia | exact Hf].
Qed.

Lemma issues_for_each :
  forall (A : Type) (body : A -> M (BDMCommandInterface Serial) unit) (k : Z)
         (xs : list A),
    (forall x, issues (body x) k) ->
    issues (for_each body xs) (k * Z.of_nat (length xs)).
Proof.
  intros A body k xs Hbody. induction xs as [| x xs IH]; cbn [for_each length].
  - replace (k * Z.of_nat 0) with 0 by lia. apply issues_ret.
  - replace (k * Z.of_nat (S (length xs))) with (k + k * Z.of_nat (length xs))
      by lia.
    apply issues_bind; [apply Hbody | intros _; exact IH].
Qed.

Lemma issues_list_comprehension :
  forall (A B : Type) (f : A -> M (BDMCommandInterface Serial) B) (xs : list A),
    (forall x, issues (f x) 0) -> issues (list_comprehension f xs) 0.
Proof.
  intros A B f xs Hf. induction xs as [| x xs IH]; cbn [list_comprehension].
  - apply issues_ret.
  - change 0 with (0 + (0 + 0)).
    apply issues_bind; [apply Hf |]. intros y.
    apply issues_bind; [exact IH |]. intros ys. apply issues_ret.
Qed.

Lemma list_comprehension_length :
  forall (S A B : Type) (f : A -> M S B) (xs : list A) (s s' : S) (ys : list B),
    list_comprehension f xs s = (Ok ys, s') -> length ys = length xs.
Proof.
  intros S A B f xs. induction xs as [| x xs IH]; intros s s' ys Hrun.
  - inversion Hrun. reflexivity.
  - cbn [list_comprehension] in Hrun. unfold bind at 1 in Hrun.
    destruct (f x s) as [[y | e] s1]; [| discriminate Hrun].
    unfold bind at 1 in Hrun.
    destruct (list_comprehension f xs s1) as [[ys' | e] s2] eqn:Hrest;
      [| discriminate Hrun].
    inversion Hrun; subst. cbn [length]. f_equal. exact (IH _ _ _ Hrest).
Qed.

Lemma issues_send_and_receive : forall w : Z,
  issues (on_interface (send_and_receive_packet w))
         (if is_register_write (packet x53 w) then 1 else 0).
Proof.
  intros w self.
  destruct (Z_le_dec 0 w) as [Hlo | Hlo];
    [destruct (Z_le_dec w 0xFFFF) as [Hhi | Hhi] |].
  - rewrite cf_send_and_receive by lia.
    destruct (ColdfireSerialInterface.decode _) as [r | e] eqn:Hdecode.
    + rewrite register_writes_extend. cbn [written filter].
      destruct (is_register_write (packet x53 w)); reflexivity.
    + exact (decode_benign _ _ Hdecode).
  - rewrite cf_send_and_receive_rejected by lia. right; left; reflexivity.
  - rewrite cf_send_and_receive_rejected by lia. right; left; reflexivity.
Qed.

Lemma issues_receive : issues (on_interface receive_packet) 0.
Proof.
  intros self. rewrite cf_receive.
  destruct (ColdfireSerialInterface.decode _) as [r | e] eqn:Hdecode.
  - rewrite register_writes_extend. reflexivity.
  - exact (decode_benign _ _ Hdecode).
Qed.

Lemma issues_send_then_receive : forall (w : Z) (response_size_words : Z),
  issues (_send_then_receive [w] response_size_words)
         (if is_register_write (packet x53 w) then 1 else 0).
Proof.
  intros w n. unfold _send_then_receive. cbn [for_each].
  replace (if is_register_write (packet x53 w) then 1 else 0)
    with (((if is_register_write (packet x53 w) then 1 else 0) + 0 + 0) + (0 + 0))
    by lia.
  apply issues_bind.
  - apply issues_bind.
    + apply issues_bind; [apply issues_send_and_receive |].
      intros _. apply issues_ret.
    + intros _. apply issues_ret.
  - intros _. apply issues_bind.
    + apply issues_list_comprehension. intros _. apply issues_receive.
    + intros [| r0 [| r1 [| r2 rest]]];
        first [ apply issues_ret
              | apply issues_raise; left; reflexivity ].
Qed.

Lemma register_command_words : forall n : Z,
  0 <= n <= 7 ->
  is_register_write (packet x53 (Z.lor 0x2188 n)) = false
  /\ is_register_write (packet x53 (Z.lor 0x2180 n)) = false
  /\ is_register_write (packet x53 (Z.lor 0x2088 n)) = true
  /\ is_register_write (packet x53 (Z.lor 0x2080 n)) = true.
Proof.
  intros n Hn.
  assert (Hcases : n = 0 \/ n = 1 \/ n = 2 \/ n = 3 \/ n = 4 \/ n = 5 \/ n = 6 \/ n = 7)
    by lia.
  destruct Hcases as [-> | [-> | [-> | [-> | [-> | [-> | [-> | ->]]]]]]];
    vm_compute; repeat split; reflexivity.
Qed.

Lemma register_check : forall n : Z,
  ((n >? 8 - 1) || (n <? 0) = false) -> 0 <= n <= 7.
Proof.
  intros n H. apply orb_false_elim in H. destruct H as [Hgt Hlt].
  destruct (Z.gtb_spec n (8 - 1)); [discriminate |].
  destruct (Z.ltb_spec n 0); [discriminate |]. lia.
Qed.

Lemma read_address_register_issues : forall n : Z,
  issues (read_address_register n) 0.
Proof.
  intros n. unfold read_address_register, NUM_ADDRESS_REGISTERS.
  destruct ((n >? 8 - 1) || (n <? 0)) eqn:Hcheck.
  - apply issues_raise. right; right; exact I.
  - pose proof (issues_send_then_receive (Z.lor 0x2188 n) 2) as Hissues.
    destruct (register_command_words n (register_check n Hcheck)) as (Hw & _).
    rewrite Hw in Hissues. exact Hissues.
Qed.

Lemma read_data_register_issues : forall n : Z,
  issues (read_data_register n) 0.
Proof.
  intros n. unfold read_data_register, NUM_DATA_REGISTERS.
  destruct ((n >? 8 - 1) || (n <? 0)) eqn:Hcheck.
  - apply issues_raise. right; right; exact I.
  - pose proof (issues_send_then_receive (Z.lor 0x2180 n) 2) as Hissues.
    destruct (register_command_words n (register_check n Hcheck)) as (_ & Hw & _).
    rewrite Hw in Hissues. exact Hissues.
Qed.

Lemma write_address_register_issues : forall n v : Z,
  issues (write_address_register n v) 1.
Proof.
  intros n v. unfold write_address_register, NUM_ADDRESS_REGISTERS.
  destruct ((n >? 8 - 1) || (n <? 0)) eqn:Hcheck.
  - apply issues_raise. right; right; exact I.
  - pose proof (issues_send_then_receive (Z.lor 0x2088 n) 1) as Hissues.
    destruct (register_command_words n (register_check n Hcheck))
      as (_ & _ & Hw & _).
    rewrite Hw in Hissues. exact Hissues.
Qed.

Lemma write_data_register_issues : forall n v : Z,
  issues (write_data_register n v) 1.
Proof.
  intros n v. unfold write_data_register, NUM_DATA_REGISTERS.
  destruct ((n >? 8 - 1) || (n <? 0)) eqn:Hcheck.
  - apply issues_raise. right; right; exact I.
  - pose proof (issues_send_then_receive (Z.lor 0x2080 n) 1) as Hissues.
    destruct (register_command_words n (register_check n Hcheck))
      as (_ & _ & _ & Hw).
    rewrite Hw in Hissues. exact Hissues.
Qed.

Lemma runs_bind :
  forall (A B : Type) (c k k1 : Z) (m : M (BDMCommandInterface Serial) A)
         (f : A -> M (BDMCommandInterface Serial) B)
         (Q1 : A -> Prop) (Q2 : B -> Prop),
    runs c m k1 Q1 ->
    (forall a, Q1 a -> runs (c + k1) (f a) (k - k1) Q2) ->
    runs c (bind m f) k Q2.
Proof.
  intros A B c k k1 m f Q1 Q2 Hm Hf start self Hstart. unfold bind.
  specialize (Hm start self Hstart).
  destruct (m self) as [[a | e] s1]; [| exact Hm].
  destruct Hm as [Hcount HQ].
  specialize (Hf a HQ start s1 ltac:(lia)).
  destruct (f a s1) as [[b | e] s2]; [| exact Hf].
  destruct Hf as [Hcount2 HQ2]. split; [lia | exact HQ2].
Qed.

Lemma runs_of_issues :
  forall (A : Type) (c k : Z) (m : M (BDMCommandInterface Serial) A),
    issues m k -> runs c m k (fun _ => True).
Proof.
  intros A c k m Hm start self Hstart. specialize (Hm self).
  destruct (m self) as [[a | e] s1].
  - split; [lia | exact I].
  - apply benign_in_order. exact Hm.
Qed.

Lemma runs_reads :
  forall (c : Z) (f : Z -> M (BDMCommandInterface Serial) Z) (xs : list Z),
    (forall x, issues (f x) 0) ->
    runs c (list_comprehension f xs) 0 (fun ys => length ys = length xs).
Proof.
  intros c f xs Hf start self Hstart.
  pose proof (issues_list_comprehension _ _ f xs Hf self) as Hissues.
  destruct (list_comprehension f xs self) as [[ys | e] s1] eqn:Hrun.
  - split; [lia |]. exact (list_comprehension_length _ _ _ _ _ _ _ _ Hrun).
  - apply benign_in_order. exact Hissues.
Qed.

(** A comparison of two register sets: it raises [e] or goes on. *)
Lemma runs_comparison :
  forall (c : Z) (differ : bool) (e : exn),
    in_order e c ->
    runs c ((if differ then raise e else ret tt)
            : M (BDMCommandInterface Serial) unit) 0 (fun _ => True).
Proof.
  intros c differ e He start self Hstart. destruct differ; cbn.
  - replace (register_writes self - register_writes start) with c by lia.
    exact He.
  - split; [lia | exact I].
Qed.

Lemma enumerate_from_length : forall (A : Type) (xs : list A) (i : Z),
  length (enumerate_from i xs) = length xs.
Proof.
  intros A xs. induction xs as [| x xs IH]; intros i; cbn [enumerate_from length].
  - reflexivity.
  - rewrite IH. reflexivity.
Qed.

(** Writing a set of eight registers issues eight register writes. *)
Lemma runs_writes :
  forall (c : Z) (write : Z -> Z -> M (BDMCommandInterface Serial) Z)
         (values : list Z),
    (forall n v, issues (write n v) 1) ->
    length values = 8%nat ->
    runs c (for_each (fun iv => write (fst iv) (snd iv) ;; ret tt)
                     (enumerate values)) 8 (fun _ => True).
Proof.
  intros c write values Hwrite Hlen.
  apply runs_of_issues.
  replace 8 with (1 * Z.of_nat (length (enumerate values)))
    by (unfold enumerate; rewrite enumerate_from_length, Hlen; reflexivity).
  apply issues_for_each. intros iv.
  change 1 with (1 + 0). apply issues_bind; [apply Hwrite |].
  intros _. apply issues_ret.
Qed.

Lemma verification_runs : forall random_values : nat -> Z,
  runs 0 (verification random_values) 16
       (fun captured =>
          length (fst captured) = 8%nat /\ length (snd captured) = 8%nat).
Proof.
  intros random_values. unfold verification.
  eapply runs_bind;
    [apply runs_reads; apply read_address_register_issues |].
  intros address_contents Haddress.
  eapply runs_bind; [apply runs_reads; apply read_data_register_issues |].
  intros data_contents Hdata.
  eapply runs_bind; [apply runs_reads; apply read_address_register_issues |].
  intros address_again _.
  eapply runs_bind.
  { apply runs_comparison. split; [intros _; reflexivity |].
    intros [H | H]; discriminate H. }
  intros _ _.
  eapply runs_bind; [apply runs_reads; apply read_data_register_issues |].
  intros data_again _.
  eapply runs_bind.
  { apply runs_comparison. split; [intros _; reflexivity |].
    intros [H | H]; discriminate H. }
  intros _ _.
  eapply runs_bind.
  { apply runs_writes; [apply write_address_register_issues | reflexivity]. }
  intros _ _.
  eapply runs_bind.
  { apply runs_writes; [apply write_data_register_issues | reflexivity]. }
  intros _ _.
  eapply runs_bind; [apply runs_reads; apply read_address_register_issues |].
  intros address_back _.
  eapply runs_bind.
  { apply runs_comparison. split; [intros [H | H]; discriminate H |].
    intros _; reflexivity. }
  intros _ _.
  eapply runs_bind; [apply runs_reads; apply read_data_register_issues |].
  intros data_back _.
  eapply runs_bind.
  { apply runs_comparison. split; [intros [H | H]; discriminate H |].
    intros _; reflexivity. }
  intros _ _.
  intros start self Hstart. cbn [ret fst snd]. split; [lia |].
  split; assumption.
Qed.

Lemma restoration_runs : forall captured : list Z * list Z,
  length (fst captured) = 8%nat ->
  length (snd captured) = 8%nat ->
  runs 16 (restoration captured) 16 (fun _ => True).
Proof.
  intros captured Haddress Hdata. unfold restoration.
  eapply runs_bind.
  { apply runs_writes; [apply write_address_register_issues | exact Haddress]. }
  intros _ _.
  apply runs_writes; [apply write_data_register_issues | exact Hdata].
Qed.

Lemma bind_Ok :
  forall (S A B : Type) (m : M S A) (f : A -> M S B) (s s1 : S) (a : A),
    m s = (Ok a, s1) -> bind m f s = f a s1.
Proof. intros S A B m f s s1 a Hm. unfold bind. rewrite Hm. reflexivity. Qed.

Lemma bind_Raise :
  forall (S A B : Type) (m : M S A) (f : A -> M S B) (s s1 : S) (e : exn),
    m s = (Raise e, s1) -> bind m f s = (Raise e, s1).
Proof. intros S A B m f s s1 e Hm. unfold bind. rewrite Hm. reflexivity. Qed.

Lemma lists_differ_true : forall a b : list Z, a <> b -> lists_differ a b = true.
Proof.
  intros a b Hneq. unfold lists_differ.
  destruct (list_eq_dec Z.eq_dec a b); [contradiction | reflexivity].
Qed.

Lemma lists_differ_false : forall a : list Z, lists_differ a a = false.
Proof.
  intros a. unfold lists_differ.
  destruct (list_eq_dec Z.eq_dec a a); [reflexivity | contradiction].
Qed.

(** The consistency check is its verification followed, when that
    returns, by the restoration. *)
Lemma consistency_check_split :
  forall (random_values : nat -> Z) (self : BDMCommandInterface Serial),
    consistency_check random_values self
    = (captured <- verification random_values ;; restoration captured) self.
Proof.
  intros random_values self.
  unfold consistency_check, verification, restoration, bind, ret, raise.
  repeat
    match goal with
    | |- _ => progress cbn [fst snd]
    | |- context [list_comprehension ?f ?xs ?s] =>
        destruct (list_comprehension f xs s) as [[? | ?] ?];
        [| reflexivity]
    | |- context [lists_differ ?a ?b] =>
        destruct (lists_differ a b); [reflexivity |]
    | |- context [for_each ?f ?xs ?s] =>
        destruct (for_each f xs s) as [[[] | ?] ?]; try reflexivity
    end.
Qed.

Lemma consistency_check_runs : forall random_values : nat -> Z,
  runs 0 (consistency_check random_values) 32 (fun _ => True).
Proof.
  intros random_values start self Hstart.
  rewrite consistency_check_split.
  revert start self Hstart.
  change (runs 0 (captured <- verification random_values ;; restoration captured)
               32 (fun _ => True)).
  eapply runs_bind; [apply verification_runs |].
  intros captured [Haddress Hdata].
  apply restoration_runs; assumption.
Qed.

(** C9. When the registers have been read twice and the second read of
    the address registers, or else of the data registers, differs from the
    first, the check ends in an [InconsistentReadError].  An exception
    anywhere in the verification ends the check there, without the
    restoration; the restoration runs from the state in which verification
    returned, after its sixteen test writes.  Whenever the check ends in an
    [InconsistentReadError], no register write has been issued; whenever
    it ends in a [WriteVerificationError], exactly the sixteen test writes
    have been issued and none of the restoring ones; when it returns, all
    thirty-two have. *)
Theorem consistency_check_keeps_order :
  forall (random_values : nat -> Z) (self : BDMCommandInterface Serial),
    let outcome := consistency_check random_values self in
    let issued := register_writes (snd outcome) - register_writes self in
    (forall a1 s1 d1 s2 a2 s3,
        list_comprehension read_address_register (range NUM_ADDRESS_REGISTERS) self
        = (Ok a1, s1) ->
        list_comprehension read_data_register (range NUM_DATA_REGISTERS) s1
        = (Ok d1, s2) ->
        list_comprehension read_address_register (range NUM_ADDRESS_REGISTERS) s2
        = (Ok a2, s3) ->
        (a2 <> a1 -> outcome = (Raise (ValueError address_reads_differ), s3))
        /\ (a2 = a1 ->
            forall d2 s4,
              list_comprehension read_data_register (range NUM_DATA_REGISTERS) s3
              = (Ok d2, s4) ->
              d2 <> d1 ->
              outcome = (Raise (ValueError data_reads_differ), s4)))
    /\ (forall e failed,
          verification random_values self = (Raise e, failed) ->
          outcome = (Raise e, failed))
    /\ (forall captured verified,
          verification random_values self = (Ok captured, verified) ->
          register_writes verified - register_writes self = 16
          /\ outcome = restoration captured verified)
    /\ (forall e, fst outcome = Raise e -> InconsistentReadError e -> issued = 0)
    /\ (forall e, fst outcome = Raise e -> WriteVerificationError e -> issued = 16)
    /\ (fst outcome = Ok tt -> issued = 32).
Proof.
  intros random_values self outcome issued. split.
  - intros a1 s1 d1 s2 a2 s3 Hfirst Hdata Hagain.
    subst outcome. unfold consistency_check.
    rewrite (bind_Ok _ _ _ _ _ _ _ _ Hfirst).
    rewrite (bind_Ok _ _ _ _ _ _ _ _ Hdata).
    rewrite (bind_Ok _ _ _ _ _ _ _ _ Hagain).
    split.
    + intros Hdiff. rewrite (lists_differ_true _ _ Hdiff).
      apply bind_Raise. reflexivity.
    + intros Hsame d2 s4 Hdata2 Hdiff. subst a2.
      rewrite lists_differ_false.
      erewrite bind_Ok by reflexivity.
      rewrite (bind_Ok _ _ _ _ _ _ _ _ Hdata2).
      rewrite (lists_differ_true _ _ Hdiff).
      apply bind_Raise. reflexivity.
  - split; [| split].
    { intros e failed Hfailed. subst outcome.
      rewrite consistency_check_split. apply bind_Raise. exact Hfailed. }
    { intros captured verified Hverified. split.
      - pose proof (verification_runs random_values self self ltac:(lia))
          as Hruns.
        rewrite Hverified in Hruns. destruct Hruns as [Hcount _]. lia.
      - subst outcome. rewrite consistency_check_split.
        apply bind_Ok. exact Hverified. }
    pose proof (consistency_check_runs random_values self self ltac:(lia))
      as Hruns.
    fold outcome in Hruns. subst issued.
    destruct outcome as [[[] | e] final]; cbn [fst snd] in *.
    + destruct Hruns as [Hcount _].
      repeat split; try (intros e He; discriminate He). intros _; lia.
    + destruct Hruns as [Hread Hverify].
      repeat split.
      * intros e' He' Hkind. inversion He'; subst e'. exact (Hread Hkind).
      * intros e' He' Hkind. inversion He'; subst e'. exact (Hverify Hkind).
      * intros He; discriminate He.
Qed.

Lemma consistency_check_keeps_order_witness :
  fst (consistency_check (fun _ => 0) (BDM_init (mkSerial drifting [])))
  = Raise (ValueError address_reads_differ)
  /\ register_writes
       (snd (consistency_check (fun _ => 0) (BDM_init (mkSerial drifting []))))
     - register_writes (BDM_init (mkSerial drifting [])) = 0.
Proof.
  split.
  - vm_compute. reflexivity.
  - apply (proj1 (proj2 (proj2 (proj2 (consistency_check_keeps_order
                           (fun _ => 0) (BDM_init (mkSerial drifting []))))))
                 (ValueError address_reads_differ)).
    + vm_compute. reflexivity.
    + left. reflexivity.
Defined.

(** * Further properties *)

(** ** Framing of command words *)

Lemma Z_of_byte_of_Z : forall z : Z, Z_of_byte (byte_of_Z z) = z mod 256.
Proof.
  intros z. unfold Z_of_byte, byte_of_Z.
  pose proof (Z.mod_pos_bound z 256 ltac:(lia)) as Hbound.
  destruct (Byte.of_N (Z.to_N (z mod 256))) as [b |] eqn:Hbyte.
  - apply Byte.to_of_N in Hbyte. rewrite Hbyte. apply Z2N.id. lia.
  - apply Byte.of_N_None_iff in Hbyte. lia.
Qed.

Lemma packet_word_packet : forall (letter : byte) (w : Z),
  0 <= w <= 0xFFFF -> packet_word (packet letter w) = w.
Proof.
  intros letter w Hw. unfold packet, be16, packet_word.
  rewrite !Z_of_byte_of_Z.
  change (Z.land w 255) with (Z.land w (Z.ones 8)).
  rewrite Z.land_ones, Z.shiftr_div_pow2 by lia.
  change (2 ^ 8) with 256.
  rewrite Z.mod_mod by lia.
  rewrite (Z.mod_small (w / 256) 256).
  - pose proof (Z.div_mod w 256 ltac:(lia)). lia.
  - split; [apply Z.div_pos; lia |].
    apply Z.div_lt_upper_bound; lia.
Qed.

(** X1. A command word in [0, 0xFFFF] goes to the bridge as one write of
    three bytes, the letter ['s'] (or ['S'] when a response is received
    with it) and the word most significant byte first, so that the word can
    be read back from the bytes; [send_packet] reads nothing. *)
Theorem command_framing_round_trip :
  forall (w : Z) (self : BDMCommandInterface Serial),
    0 <= w <= 0xFFFF ->
    exists (hi lo : byte) (frame : list byte),
      256 * Z_of_byte hi + Z_of_byte lo = w
      /\ on_interface (send_packet w) self = (Ok tt, extend [Wr [x73; hi; lo]] self)
      /\ snd (on_interface (send_and_receive_packet w) self)
         = extend [Wr [x53; hi; lo]; Rd frame] self.
Proof.
  intros w self Hw.
  exists (byte_of_Z (Z.shiftr w 8)), (byte_of_Z (Z.land w 0xFF)).
  eexists. split; [| split].
  - exact (packet_word_packet x73 w Hw).
  - exact (cf_send_packet w self Hw).
  - rewrite (cf_send_and_receive w self Hw). reflexivity.
Qed.

Lemma command_framing_round_trip_witness :
  exists (hi lo : byte) (frame : list byte),
    256 * Z_of_byte hi + Z_of_byte lo = 0x1D40
    /\ on_interface (send_packet 0x1D40) (BDM_init (mkSerial silent []))
       = (Ok tt, extend [Wr [x73; hi; lo]] (BDM_init (mkSerial silent [])))
    /\ snd (on_interface (send_and_receive_packet 0x1D40)
                         (BDM_init (mkSerial silent [])))
       = extend [Wr [x53; hi; lo]; Rd frame] (BDM_init (mkSerial silent [])).
Proof.
  apply (command_framing_round_trip 0x1D40 (BDM_init (mkSerial silent []))).
  lia.
Defined.

(** X2. A command word outside [0, 0xFFFF] is refused with a
    [struct.error] before anything is written: on the serial bridge and on
    the mock alike, the interface is left as it was. *)
Theorem command_word_out_of_range_is_refused :
  forall (w : Z) (self : BDMCommandInterface Serial)
         (mock : BDMCommandInterface MockColdfireSerialInterface.t),
    ~ 0 <= w <= 0xFFFF ->
    on_interface (send_packet w) self = (Raise struct_error, self)
    /\ on_interface (send_and_receive_packet w) self = (Raise struct_error, self)
    /\ on_interface (send_packet w) mock = (Raise struct_error, mock)
    /\ on_interface (send_and_receive_packet w) mock = (Raise struct_error, mock).
Proof.
  intros w self mock Hw.
  rewrite (cf_send_packet_rejected w self Hw).
  rewrite (cf_send_and_receive_rejected w self Hw).
  rewrite extend_nothing.
  assert (Hpack : struct_pack_H_be w = Raise struct_error).
  { unfold struct_pack_H_be.
    destruct (Z.leb_spec 0 w); destruct (Z.leb_spec w 65535);
      try reflexivity; lia. }
  destruct mock as [[cs] c u].
  unfold on_interface, send_packet, send_and_receive_packet, Mock_PacketInterface,
    MockColdfireSerialInterface.send_packet,
    MockColdfireSerialInterface.send_and_receive_packet, bind, lift_result;
    cbn [interface].
  rewrite Hpack. repeat split; reflexivity.
Qed.

Lemma command_word_out_of_range_is_refused_witness :
  on_interface (send_packet 0x10000) (BDM_init (mkSerial silent []))
  = (Raise struct_error, BDM_init (mkSerial silent []))
  /\ on_interface (send_and_receive_packet 0x10000) (BDM_init (mkSerial silent []))
     = (Raise struct_error, BDM_init (mkSerial silent []))
  /\ on_interface (send_packet 0x10000) (BDM_init MockColdfireSerialInterface.init)
     = (Raise struct_error, BDM_init MockColdfireSerialInterface.init)
  /\ on_interface (send_and_receive_packet 0x10000)
                  (BDM_init MockColdfireSerialInterface.init)
     = (Raise struct_error, BDM_init MockColdfireSerialInterface.init).
Proof.
  apply (command_word_out_of_range_is_refused 0x10000
           (BDM_init (mkSerial silent []))
           (BDM_init MockColdfireSerialInterface.init)).
  lia.
Defined.

(** X3. [receive_packet] always sends its ['r'] and asks for three bytes.
    When all three arrive the packet has status 0 and the frame's data; when
    none arrives (a timeout) the call ends in an [IndexError], and when one
    or two arrive in a [struct.error]. *)
Theorem receive_packet_on_short_reads :
  forall self : BDMCommandInterface Serial,
    let frame := next_frame (extend [Wr [x72]] self) in
    snd (on_interface receive_packet self) = extend [Wr [x72]; Rd frame] self
    /\ (length frame = 3%nat ->
        fst (on_interface receive_packet self)
        = Ok (mkResponse 0 (frame_data frame)))
    /\ (length frame = 0%nat ->
        fst (on_interface receive_packet self) = Raise IndexError)
    /\ ((0 < length frame < 3)%nat ->
        fst (on_interface receive_packet self) = Raise struct_error).
Proof.
  intros self frame. rewrite cf_receive. fold frame. cbn [fst snd].
  split; [reflexivity |]. split; [| split].
  - intros Hlen. apply decode_full_frame. exact Hlen.
  - intros Hlen. destruct frame; [reflexivity | discriminate Hlen].
  - intros Hlen.
    destruct frame as [| b0 [| b1 [| b2 rest]]]; cbn [length] in Hlen;
      try lia; reflexivity.
Qed.

Lemma receive_packet_on_short_reads_witness :
  fst (on_interface receive_packet (BDM_init (mkSerial silent [])))
  = Ok (mkResponse 0 0)
  /\ fst (on_interface receive_packet (BDM_init (mkSerial mute [])))
     = Raise IndexError
  /\ fst (on_interface receive_packet (BDM_init (mkSerial stalling [])))
     = Raise struct_error.
Proof.
  split; [| split].
  - apply (proj1 (proj2 (receive_packet_on_short_reads
                           (BDM_init (mkSerial silent []))))).
    reflexivity.
  - apply (proj1 (proj2 (proj2 (receive_packet_on_short_reads
                                  (BDM_init (mkSerial mute [])))))).
    reflexivity.
  - apply (proj2 (proj2 (proj2 (receive_packet_on_short_reads
                                  (BDM_init (mkSerial stalling [])))))).
    cbv. split; repeat constructor.
Defined.

(** ** What the engine remembers *)

Section Session.

Context {I : Type} {PI : PacketInterface I}.

Lemma same_session_refl : forall self : BDMCommandInterface I,
  same_session self self.
Proof. intros self. split; reflexivity. Qed.

Lemma same_session_trans : forall s1 s2 s3 : BDMCommandInterface I,
  same_session s1 s2 -> same_session s2 s3 -> same_session s1 s3.
Proof.
  intros s1 s2 s3 [Hc12 Hu12] [Hc23 Hu23]. split; congruence.
Qed.

Lemma keeps_on_interface : forall (A : Type) (m : M I A),
  keeps_session (on_interface m).
Proof.
  intros A m self. unfold on_interface.
  destruct (m (interface self)) as [r i]. split; reflexivity.
Qed.

Lemma keeps_ret : forall (A : Type) (a : A),
  keeps_session (ret a : M (BDMCommandInterface I) A).
Proof. intros A a self. apply same_session_refl. Qed.

Lemma keeps_raise : forall (A : Type) (e : exn),
  keeps_session (raise e : M (BDMCommandInterface I) A).
Proof. intros A e self. apply same_session_refl. Qed.

Lemma keeps_bind :
  forall (A B : Type) (m : M (BDMCommandInterface I) A)
         (f : A -> M (BDMCommandInterface I) B),
    keeps_session m -> (forall a, keeps_session (f a)) ->
    keeps_session (bind m f).
Proof.
  intros A B m f Hm Hf self. unfold bind.
  specialize (Hm self). destruct (m self) as [[a | e] s1]; cbn [snd] in *.
  - eapply same_session_trans; [exact Hm | apply Hf].
  - exact Hm.
Qed.

Lemma keeps_for_each :
  forall (A : Type) (body : A -> M (BDMCommandInterface I) unit) (xs : list A),
    (forall x, keeps_session (body x)) -> keeps_session (for_each body xs).
Proof.
  intros A body xs Hbody. induction xs as [| x xs IH]; cbn [for_each].
  - apply keeps_ret.
  - apply keeps_bind; [apply Hbody | intros _; exact IH].
Qed.

Lemma keeps_list_comprehension :
  forall (A B : Type) (f : A -> M (BDMCommandInterface I) B) (xs : list A),
    (forall x, keeps_session (f x)) -> keeps_session (list_comprehension f xs).
Proof.
  intros A B f xs Hf. induction xs as [| x xs IH]; cbn [list_comprehension].
  - apply keeps_ret.
  - apply keeps_bind; [apply Hf |]. intros y.
    apply keeps_bind; [exact IH |]. intros ys. apply keeps_ret.
Qed.

Lemma keeps_send : forall commands : list Z, keeps_session (_send commands).
Proof.
  intros commands. unfold _send. apply keeps_for_each. intros command.
  apply keeps_bind; [apply keeps_on_interface | intros _; apply keeps_ret].
Qed.

Lemma keeps_send_then_receive : forall (commands : list Z) (n : Z),
  keeps_session (_send_then_receive commands n).
Proof.
  intros commands n. unfold _send_then_receive.
  apply keeps_bind; [exact (keeps_send commands) |]. intros _.
  apply keeps_bind.
  - apply keeps_list_comprehension. intros _. apply keeps_on_interface.
  - intros [| r0 [| r1 [| r2 rest]]];
      first [apply keeps_ret | apply keeps_raise].
Qed.

Lemma keeps_write_word : forall address data : Z,
  keeps_session (write_word address data).
Proof.
  intros address data. unfold write_word.
  destruct ((data >? 65535) || (data <? 0));
    [apply keeps_raise | apply keeps_send].
Qed.

Ltac keeps :=
  repeat
    first [ apply keeps_send_then_receive
          | apply keeps_send
          | apply keeps_write_word
          | apply keeps_ret
          | apply keeps_raise
          | apply keeps_bind; [| intros ?]
          | match goal with
            | |- keeps_session (if ?b then _ else _) => destruct b
            end ].

Lemma keeps_read_csr :
  keeps_session (read_debug_configuration_status_register
                 : M (BDMCommandInterface I) ConfigurationStatusRegister.t).
Proof. unfold read_debug_configuration_status_register. keeps. Qed.

Lemma keeps_write_csr : forall new_value : Z,
  keeps_session (write_debug_configuration_status_register new_value
                 : M (BDMCommandInterface I) Z).
Proof.
  intros new_value. unfold write_debug_configuration_status_register. keeps.
Qed.

Lemma keeps_chip_erase :
  keeps_session (send_flash_chip_erase : M (BDMCommandInterface I) unit).
Proof. unfold send_flash_chip_erase. keeps. Qed.

(** X4. Reading and writing memory and registers, the CSR accessors, the
    no-op, the single-word flash unlock and the chip erase change nothing
    of the engine but its interface: whether they return or raise, the
    cached step mode and the unlock-bypass flag are as before. *)
Theorem traffic_keeps_session :
  forall (self : BDMCommandInterface I) (address data n : Z),
    same_session self (snd (noop self))
    /\ same_session self (snd (read_byte address self))
    /\ same_session self (snd (read_word address self))
    /\ same_session self (snd (read_longword address self))
    /\ same_session self (snd (read_address_register n self))
    /\ same_session self (snd (read_data_register n self))
    /\ same_session self (snd (read_control_register n self))
    /\ same_session self (snd (read_debug_configuration_status_register self))
    /\ same_session self (snd (write_debug_configuration_status_register data self))
    /\ same_session self (snd (write_byte address data self))
    /\ same_session self (snd (write_word address data self))
    /\ same_session self (snd (write_longword address data self))
    /\ same_session self (snd (write_control_register n data self))
    /\ same_session self (snd (write_address_register n data self))
    /\ same_session self (snd (write_data_register n data self))
    /\ same_session self (snd (send_flash_write_enable self))
    /\ same_session self (snd (send_flash_chip_erase self)).
Proof.
  intros self address data n.
  repeat match goal with |- _ /\ _ => split end;
    match goal with
    | |- same_session self (snd (?m self)) =>
        revert self; change (keeps_session m)
    end;
    unfold noop, read_byte, read_word, read_longword, read_address_register,
      read_data_register, read_control_register,
      read_debug_configuration_status_register,
      write_debug_configuration_status_register, write_byte, write_longword,
      write_control_register, write_address_register, write_data_register,
      send_flash_write_enable, send_flash_chip_erase;
    keeps.
Qed.

(** X5. [read_byte] returns a value in [0, 255] whenever it returns,
    whatever the interface hands back. *)
Theorem read_byte_is_a_byte :
  forall (self after : BDMCommandInterface I) (address v : Z),
    read_byte address self = (Ok v, after) -> 0 <= v <= 255.
Proof.
  intros self after address v Hrun. unfold read_byte, bind in Hrun.
  destruct (_send_then_receive _ 1 self) as [[r | e] s1]; [| discriminate Hrun].
  inversion Hrun; subst v.
  change 255 with (Z.ones 8). rewrite Z.land_ones by lia.
  change (2 ^ 8) with 256. change (Z.ones 8) with 255.
  pose proof (Z.mod_pos_bound r 256 ltac:(lia)). lia.
Qed.

Lemma set_single_step_mode_outcome :
  forall (self : BDMCommandInterface I) (enabled : bool),
    let outcome := set_single_step_mode enabled self in
    in_unlock_bypass_mode (snd outcome) = in_unlock_bypass_mode self
    /\ match fst outcome with
       | Ok _ => current_step_mode (snd outcome) = enabled
       | Raise _ => current_step_mode (snd outcome) = current_step_mode self
       end.
Proof.
  intros self enabled outcome. subst outcome.
  destruct (set_single_step_mode enabled self) as [r after] eqn:Hrun.
  cbn [fst snd]. unfold set_single_step_mode in Hrun.
  destruct (Bool.eqb (current_step_mode self) enabled) eqn:Heq.
  - apply Bool.eqb_prop in Heq. inversion Hrun; subst r after.
    split; [reflexivity | exact Heq].
  - unfold bind at 1 in Hrun.
    pose proof (keeps_read_csr self) as [Hc1 Hu1].
    destruct (read_debug_configuration_status_register self) as [[csr | e] s1];
      cbn [fst snd] in *;
      [| inversion Hrun; subst r after; split; assumption].
    unfold bind at 1 in Hrun.
    match type of Hrun with
    | context [write_debug_configuration_status_register ?v s1] =>
        pose proof (keeps_write_csr v s1) as [Hc2 Hu2];
        destruct (write_debug_configuration_status_register v s1)
          as [[w | e] s2]
    end; cbn [fst snd] in *; inversion Hrun; subst r after; cbn.
    + split; [congruence | reflexivity].
    + split; congruence.
Qed.

(** X6. [set_single_step_mode] never touches the unlock-bypass flag.  When
    it returns, the cached step mode is the mode asked for; when it raises
    (while reading or writing the CSR), the cached mode is what it was. *)
Theorem set_single_step_mode_cache :
  forall (self : BDMCommandInterface I) (enabled : bool),
    let outcome := set_single_step_mode enabled self in
    in_unlock_bypass_mode (snd outcome) = in_unlock_bypass_mode self
    /\ match fst outcome with
       | Ok _ => current_step_mode (snd outcome) = enabled
       | Raise _ => current_step_mode (snd outcome) = current_step_mode self
       end.
Proof. exact set_single_step_mode_outcome. Qed.

(** X7. [step] and [go] never touch the unlock-bypass flag.  When [step]
    returns the cached mode is single-step, when [go] returns it is not;
    when either raises, the cached mode is the new one or the old one,
    according to whether the mode change had gone through. *)
Theorem step_and_go_cache :
  forall self : BDMCommandInterface I,
    in_unlock_bypass_mode (snd (step self)) = in_unlock_bypass_mode self
    /\ in_unlock_bypass_mode (snd (go self)) = in_unlock_bypass_mode self
    /\ match fst (step self) with
       | Ok _ => current_step_mode (snd (step self)) = true
       | Raise _ =>
           current_step_mode (snd (step self)) = true
           \/ current_step_mode (snd (step self)) = current_step_mode self
       end
    /\ match fst (go self) with
       | Ok _ => current_step_mode (snd (go self)) = false
       | Raise _ =>
           current_step_mode (snd (go self)) = false
           \/ current_step_mode (snd (go self)) = current_step_mode self
       end.
Proof.
  intros self. unfold step, go, bind.
  pose proof (set_single_step_mode_outcome self true) as [Hu1 Hc1].
  pose proof (set_single_step_mode_outcome self false) as [Hu0 Hc0].
  cbv zeta in *.
  destruct (set_single_step_mode true self) as [[[] | e1] s1];
    destruct (set_single_step_mode false self) as [[[] | e0] s0];
    cbn [fst snd] in *;
    try (pose proof (keeps_send_then_receive [0x0C00] 1 s1) as [Hc1' Hu1']);
    try (pose proof (keeps_send_then_receive [0x0C00] 1 s0) as [Hc0' Hu0']);
    try destruct (_send_then_receive [0x0C00] 1 s1) as [[r1 | e1'] s1'];
    try destruct (_send_then_receive [0x0C00] 1 s0) as [[r0 | e0'] s0'];
    cbn [fst snd] in *;
    repeat split; try congruence; try (left; congruence); try (right; congruence).
Qed.

(** X8. The unlock-bypass flag follows the flash calls.  When
    [enter_flash_unlock_bypass] returns the flag is set and a bypassed
    write passes its check and goes on to its two word writes; when
    [exit_flash_unlock_bypass] returns the flag is cleared and a bypassed
    write is refused with the [RuntimeError] without anything being sent;
    when either call raises, the flag is what it was.  Neither call looks
    at the flag first. *)
Theorem flash_unlock_bypass_flag :
  forall (self : BDMCommandInterface I) (address data : Z),
    (forall entered,
        enter_flash_unlock_bypass self = (Ok tt, entered) ->
        in_unlock_bypass_mode entered = Some true
        /\ send_unlock_bypassed_flash_write address data entered
           = (write_word 0x00 0xA0 ;; write_word address data) entered)
    /\ (forall e failed,
          enter_flash_unlock_bypass self = (Raise e, failed) ->
          in_unlock_bypass_mode failed = in_unlock_bypass_mode self)
    /\ (forall left,
          exit_flash_unlock_bypass self = (Ok tt, left) ->
          in_unlock_bypass_mode left = Some false
          /\ send_unlock_bypassed_flash_write address data left
             = (Raise ProtocolStateError, left))
    /\ (forall e failed,
          exit_flash_unlock_bypass self = (Raise e, failed) ->
          in_unlock_bypass_mode failed = in_unlock_bypass_mode self).
Proof.
  intros self address data.
  assert (Hkeys : forall a1 d1 a2 d2 a3 d3,
             keeps_session (write_word a1 d1 ;; write_word a2 d2 ;;
                            write_word a3 d3 ;; (ret tt : M (BDMCommandInterface I) unit))).
  { intros. keeps. }
  assert (Hexit : keeps_session (write_word 0x00 0x90 ;; write_word 0x00 0x00 ;;
                                 (ret tt : M (BDMCommandInterface I) unit))).
  { keeps. }
  unfold enter_flash_unlock_bypass, exit_flash_unlock_bypass.
  split; [| split; [| split]].
  - intros entered Hentered.
    assert (Hflag : in_unlock_bypass_mode entered = Some true).
    { revert Hentered. unfold bind, set_in_unlock_bypass_mode.
      repeat match goal with
             | |- context [write_word ?a ?d ?s] =>
                 destruct (write_word a d s) as [[[] | ?] ?]; try discriminate
             end.
      intros H; inversion H; reflexivity. }
    split; [exact Hflag |].
    unfold send_unlock_bypassed_flash_write, get_in_unlock_bypass_mode.
    unfold bind at 1. rewrite Hflag. reflexivity.
  - intros e failed Hfailed.
    specialize (Hkeys (Z.shiftl 0x555 1) 0xAA (Z.shiftl 0x2AA 1) 0x55
                      (Z.shiftl 0x555 1) 0x20 self).
    revert Hfailed Hkeys. unfold bind, set_in_unlock_bypass_mode, ret.
    repeat match goal with
           | |- context [write_word ?a ?d ?s] =>
               destruct (write_word a d s) as [[[] | ?] ?]
           end; cbn [snd];
      intros Hfailed [_ Hflag]; inversion Hfailed; subst; exact Hflag.
  - intros left Hleft.
    assert (Hflag : in_unlock_bypass_mode left = Some false).
    { revert Hleft. unfold bind, set_in_unlock_bypass_mode.
      repeat match goal with
             | |- context [write_word ?a ?d ?s] =>
                 destruct (write_word a d s) as [[[] | ?] ?]; try discriminate
             end.
      intros H; inversion H; reflexivity. }
    split; [exact Hflag |].
    apply bypassed_write_when_locked. exact Hflag.
  - intros e failed Hfailed.
    specialize (Hexit self).
    revert Hfailed Hexit. unfold bind, set_in_unlock_bypass_mode, ret.
    repeat match goal with
           | |- context [write_word ?a ?d ?s] =>
               destruct (write_word a d s) as [[[] | ?] ?]
           end; cbn [snd];
      intros Hfailed [_ Hflag]; inversion Hfailed; subst; exact Hflag.
Qed.

End Session.

Lemma read_byte_is_a_byte_witness :
  read_byte 0 (BDM_init MockColdfireSerialInterface.init)
  = (Ok 255, snd (read_byte 0 (BDM_init MockColdfireSerialInterface.init)))
  /\ 0 <= 255 <= 255.
Proof.
  split.
  - vm_compute. reflexivity.
  - apply (read_byte_is_a_byte
             (BDM_init MockColdfireSerialInterface.init)
             (snd (read_byte 0 (BDM_init MockColdfireSerialInterface.init)))
             0 255).
    vm_compute. reflexivity.
Defined.

Lemma flash_unlock_bypass_flag_witness :
  in_unlock_bypass_mode
    (snd (enter_flash_unlock_bypass (BDM_init MockColdfireSerialInterface.init)))
  = Some true
  /\ in_unlock_bypass_mode
       (snd (exit_flash_unlock_bypass (BDM_init MockColdfireSerialInterface.init)))
     = Some false.
Proof.
  split.
  - apply (proj1 (flash_unlock_bypass_flag
                    (BDM_init MockColdfireSerialInterface.init) 0 0)).
    vm_compute. reflexivity.
  - apply (proj1 (proj2 (proj2 (flash_unlock_bypass_flag
                    (BDM_init MockColdfireSerialInterface.init) 0 0)))).
    vm_compute. reflexivity.
Defined.

(** ** Words and longwords *)

Lemma low_bits_clear : forall lo i : Z,
  0 <= lo < 2 ^ 16 -> 16 <= i -> Z.testbit lo i = false.
Proof.
  intros lo i Hlo Hi.
  destruct (Z.eq_dec lo 0) as [-> | Hpos]; [apply Z.bits_0 |].
  apply Z.bits_above_log2; [lia |].
  assert (Z.log2 lo < 16) by (apply Z.log2_lt_pow2; lia). lia.
Qed.

(** Two 16-bit words joined by [<<] and [|] are the longword
    [65536 * hi + lo]. *)
Lemma join_words : forall hi lo : Z,
  0 <= lo < 2 ^ 16 -> Z.lor (Z.shiftl hi 16) lo = 65536 * hi + lo.
Proof.
  intros hi lo Hlo.
  assert (Hdisjoint : Z.land (Z.shiftl hi 16) lo = 0).
  { apply Z.bits_inj'. intros i Hi. rewrite Z.land_spec, Z.bits_0.
    destruct (Z.ltb_spec i 16).
    - rewrite Z.shiftl_spec_low by lia. reflexivity.
    - rewrite (low_bits_clear lo i Hlo) by lia. apply andb_false_r. }
  rewrite <- Z.lxor_lor by exact Hdisjoint.
  rewrite <- Z.add_nocarry_lxor by exact Hdisjoint.
  rewrite Z.shiftl_mul_pow2 by lia. change (2 ^ 16) with 65536. lia.
Qed.

(** A 32-bit value is its two halves. *)
Lemma split_longword : forall v : Z,
  0 <= v < 2 ^ 32 -> 65536 * Z.shiftr v 16 + Z.land v 0xFFFF = v.
Proof.
  intros v Hv.
  change (Z.land v 65535) with (Z.land v (Z.ones 16)).
  rewrite Z.land_ones, Z.shiftr_div_pow2 by lia.
  change (2 ^ 16) with 65536.
  pose proof (Z.div_mod v 65536 ltac:(lia)). lia.
Qed.

Lemma shiftr_16_out_of_range : forall v : Z,
  ~ 0 <= v < 2 ^ 32 -> ~ 0 <= Z.shiftr v 16 <= 0xFFFF.
Proof.
  intros v Hv [Hlo Hhi].
  rewrite Z.shiftr_div_pow2 in Hlo, Hhi by lia.
  change (2 ^ 16) with 65536 in *. change (2 ^ 32) with 4294967296 in Hv.
  pose proof (Z.div_mod v 65536 ltac:(lia)) as Hdm.
  pose proof (Z.mod_pos_bound v 65536 ltac:(lia)) as Hmod.
  lia.
Qed.

Lemma frame_data_16 : forall frame : list byte, 0 <= frame_data frame < 2 ^ 16.
Proof.
  intros frame. pose proof (frame_data_range frame).
  change (2 ^ 16) with 65536. lia.
Qed.

Lemma lor_register_number : forall opcode n : Z,
  0 <= n <= 7 -> Z.land opcode 7 = 0 -> Z.lor opcode n = opcode + n.
Proof.
  intros opcode n Hn Hclear.
  assert (Hdisjoint : Z.land opcode n = 0).
  { apply Z.bits_inj'. intros i Hi. rewrite Z.land_spec, Z.bits_0.
    destruct (Z.ltb_spec i 3).
    - assert (Hbit : Z.testbit (Z.land opcode 7) i = false)
        by (rewrite Hclear; apply Z.bits_0).
      rewrite Z.land_spec in Hbit.
      change 7 with (Z.ones 3) in Hbit.
      rewrite Z.ones_spec_low, andb_true_r in Hbit by lia.
      rewrite Hbit. reflexivity.
    - destruct (Z.eq_dec n 0) as [-> | Hpos];
        [rewrite Z.bits_0; apply andb_false_r |].
      rewrite (Z.bits_above_log2 n i); [apply andb_false_r | lia |].
      assert (Z.log2 n < 3) by (apply Z.log2_lt_pow2; [lia |];
                                change (2 ^ 3) with 8; lia).
      lia. }
  rewrite <- Z.lxor_lor by exact Hdisjoint.
  rewrite <- Z.add_nocarry_lxor by exact Hdisjoint. reflexivity.
Qed.

(** ** Reads and writes on the wire *)

(** Runs the exchanges of a command sequence against a responsive device. *)
Ltac cf_run Hresp :=
  repeat
    (first
       [ rewrite cf_send_and_receive_ok
           by first [ exact Hresp | lia | apply land_FFFF_range
                    | apply land_FFF_range | (apply shiftr_16_range; lia)
                    | apply frame_data_range | assumption ]
       | rewrite cf_receive_ok by exact Hresp ];
     cbv beta iota).

Lemma register_check_passes : forall n : Z,
  0 <= n <= 7 -> (n >? 8 - 1) || (n <? 0) = false.
Proof.
  intros n Hn.
  destruct (Z.gtb_spec n (8 - 1)); destruct (Z.ltb_spec n 0);
    try reflexivity; lia.
Qed.

(** X9. Reading address or data register [n] (0 to 7) from a responsive
    device sends the one command word [0x2188 + n] (resp. [0x2180 + n]) and
    then two receives.  The frame that comes back while the command is sent
    is dropped; the result is [65536 * first + second] of the two frames
    received after it, a value in [0, 2^32). *)
Theorem register_read_on_the_wire :
  forall (self : BDMCommandInterface Serial) (n : Z),
    responsive (target (interface self)) ->
    0 <= n <= 7 ->
    (exists f0 f1 f2 : list byte,
        read_address_register n self
        = (Ok (65536 * frame_data f1 + frame_data f2),
           extend [Wr (packet x53 (0x2188 + n)); Rd f0;
                   Wr [x72]; Rd f1; Wr [x72]; Rd f2] self)
        /\ 0 <= 65536 * frame_data f1 + frame_data f2 < 2 ^ 32)
    /\ (exists f0 f1 f2 : list byte,
          read_data_register n self
          = (Ok (65536 * frame_data f1 + frame_data f2),
             extend [Wr (packet x53 (0x2180 + n)); Rd f0;
                     Wr [x72]; Rd f1; Wr [x72]; Rd f2] self)
          /\ 0 <= 65536 * frame_data f1 + frame_data f2 < 2 ^ 32).
Proof.
  intros self n Hresp Hn.
  assert (Hvalue : forall f1 f2,
             0 <= 65536 * frame_data f1 + frame_data f2 < 2 ^ 32).
  { intros f1 f2. pose proof (frame_data_range f1).
    pose proof (frame_data_range f2). change (2 ^ 32) with 4294967296. lia. }
  split.
  - unfold read_address_register, NUM_ADDRESS_REGISTERS.
    rewrite (register_check_passes n Hn).
    rewrite (lor_register_number 0x2188 n Hn eq_refl).
    unfold _send_then_receive. change (range 2) with [0; 1].
    cbn [for_each list_comprehension]. unfold bind, ret.
    cf_run Hresp. rewrite !extend_extend. cbn [app data].
    rewrite join_words by apply frame_data_16.
    do 3 eexists. split; [reflexivity | apply Hvalue].
  - unfold read_data_register, NUM_DATA_REGISTERS.
    rewrite (register_check_passes n Hn).
    rewrite (lor_register_number 0x2180 n Hn eq_refl).
    unfold _send_then_receive. change (range 2) with [0; 1].
    cbn [for_each list_comprehension]. unfold bind, ret.
    cf_run Hresp. rewrite !extend_extend. cbn [app data].
    rewrite join_words by apply frame_data_16.
    do 3 eexists. split; [reflexivity | apply Hvalue].
Qed.

Lemma register_read_on_the_wire_witness :
  (exists f0 f1 f2 : list byte,
      read_address_register 7 (BDM_init (mkSerial silent []))
      = (Ok (65536 * frame_data f1 + frame_data f2),
         extend [Wr (packet x53 (0x2188 + 7)); Rd f0;
                 Wr [x72]; Rd f1; Wr [x72]; Rd f2]
                (BDM_init (mkSerial silent [])))
      /\ 0 <= 65536 * frame_data f1 + frame_data f2 < 2 ^ 32)
  /\ (exists f0 f1 f2 : list byte,
        read_data_register 7 (BDM_init (mkSerial silent []))
        = (Ok (65536 * frame_data f1 + frame_data f2),
           extend [Wr (packet x53 (0x2180 + 7)); Rd f0;
                   Wr [x72]; Rd f1; Wr [x72]; Rd f2]
                  (BDM_init (mkSerial silent [])))
        /\ 0 <= 65536 * frame_data f1 + frame_data f2 < 2 ^ 32).
Proof.
  apply (register_read_on_the_wire (BDM_init (mkSerial silent [])) 7).
  - exact silent_responsive.
  - lia.
Defined.

(** X10. Reading memory at a 32-bit address from a responsive device
    sends the opcode (0x1900 byte, 0x1940 word, 0x1980 longword) and the
    two halves of the address, then one receive (two for a longword).  The
    three frames that come back while the command is sent are dropped.
    [read_word] returns the data of the frame received, [read_byte] its low
    8 bits, [read_longword] [65536 * first + second]. *)
Theorem memory_read_on_the_wire :
  forall (self : BDMCommandInterface Serial) (address : Z),
    responsive (target (interface self)) ->
    0 <= address < 2 ^ 32 ->
    exists high low : Z,
      65536 * high + low = address
      /\ 0 <= high <= 0xFFFF /\ 0 <= low <= 0xFFFF
      /\ (exists f0 f1 f2 f3 : list byte,
             read_word address self
             = (Ok (frame_data f3),
                extend [Wr (packet x53 0x1940); Rd f0; Wr (packet x53 high); Rd f1;
                        Wr (packet x53 low); Rd f2; Wr [x72]; Rd f3] self))
      /\ (exists f0 f1 f2 f3 : list byte,
             read_byte address self
             = (Ok (frame_data f3 mod 256),
                extend [Wr (packet x53 0x1900); Rd f0; Wr (packet x53 high); Rd f1;
                        Wr (packet x53 low); Rd f2; Wr [x72]; Rd f3] self))
      /\ (exists f0 f1 f2 f3 f4 : list byte,
             read_longword address self
             = (Ok (65536 * frame_data f3 + frame_data f4),
                extend [Wr (packet x53 0x1980); Rd f0; Wr (packet x53 high); Rd f1;
                        Wr (packet x53 low); Rd f2; Wr [x72]; Rd f3;
                        Wr [x72]; Rd f4] self)).
Proof.
  intros self address Hresp Haddress.
  exists (Z.shiftr address 16), (Z.land address 0xFFFF).
  split; [apply split_longword; exact Haddress |].
  split; [apply shiftr_16_range; exact Haddress |].
  split; [apply land_FFFF_range |].
  split; [| split].
  - unfold read_word, _send_then_receive. change (range 1) with [0].
    cbn [for_each list_comprehension]. unfold bind, ret.
    cf_run Hresp. rewrite !extend_extend. cbn [app data].
    do 4 eexists. reflexivity.
  - unfold read_byte, _send_then_receive. change (range 1) with [0].
    cbn [for_each list_comprehension]. unfold bind, ret.
    cf_run Hresp. rewrite !extend_extend. cbn [app data].
    change (Z.land ?x 255) with (Z.land x (Z.ones 8)).
    rewrite Z.land_ones by lia. change (2 ^ 8) with 256.
    do 4 eexists. reflexivity.
  - unfold read_longword, _send_then_receive. change (range 2) with [0; 1].
    cbn [for_each list_comprehension]. unfold bind, ret.
    cf_run Hresp. rewrite !extend_extend. cbn [app data].
    rewrite join_words by apply frame_data_16.
    do 5 eexists. reflexivity.
Qed.

Lemma memory_read_on_the_wire_witness :
  exists high low : Z,
    65536 * high + low = 0x00200000
    /\ 0 <= high <= 0xFFFF /\ 0 <= low <= 0xFFFF
    /\ (exists f0 f1 f2 f3 : list byte,
           read_word 0x00200000 (BDM_init (mkSerial silent []))
           = (Ok (frame_data f3),
              extend [Wr (packet x53 0x1940); Rd f0; Wr (packet x53 high); Rd f1;
                      Wr (packet x53 low); Rd f2; Wr [x72]; Rd f3]
                     (BDM_init (mkSerial silent []))))
    /\ (exists f0 f1 f2 f3 : list byte,
           read_byte 0x00200000 (BDM_init (mkSerial silent []))
           = (Ok (frame_data f3 mod 256),
              extend [Wr (packet x53 0x1900); Rd f0; Wr (packet x53 high); Rd f1;
                      Wr (packet x53 low); Rd f2; Wr [x72]; Rd f3]
                     (BDM_init (mkSerial silent []))))
    /\ (exists f0 f1 f2 f3 f4 : list byte,
           read_longword 0x00200000 (BDM_init (mkSerial silent []))
           = (Ok (65536 * frame_data f3 + frame_data f4),
              extend [Wr (packet x53 0x1980); Rd f0; Wr (packet x53 high); Rd f1;
                      Wr (packet x53 low); Rd f2; Wr [x72]; Rd f3;
                      Wr [x72]; Rd f4] (BDM_init (mkSerial silent [])))).
Proof.
  apply (memory_read_on_the_wire (BDM_init (mkSerial silent [])) 0x00200000).
  - exact silent_responsive.
  - cbv. split; [discriminate | reflexivity].
Defined.

(** X11. The address of a memory access is not checked: outside
    [0, 2^32) its high half does not fit a command word, and the access
    ends in a [struct.error] after its opcode has already gone to the
    target, which is left with half a command.  [write_word] checks its
    data first, so this happens to it for data that is in range. *)
Theorem address_out_of_range_leaves_half_a_command :
  forall (self : BDMCommandInterface Serial) (address data : Z),
    responsive (target (interface self)) ->
    ~ 0 <= address < 2 ^ 32 ->
    0 <= data <= 0xFFFF ->
    (exists f0 : list byte,
        read_byte address self
        = (Raise struct_error, extend [Wr (packet x53 0x1900); Rd f0] self))
    /\ (exists f0 : list byte,
          read_word address self
          = (Raise struct_error, extend [Wr (packet x53 0x1940); Rd f0] self))
    /\ (exists f0 : list byte,
          read_longword address self
          = (Raise struct_error, extend [Wr (packet x53 0x1980); Rd f0] self))
    /\ (exists f0 : list byte,
          write_word address data self
          = (Raise struct_error, extend [Wr (packet x53 0x1840); Rd f0] self))
    /\ (exists f0 : list byte,
          write_longword address data self
          = (Raise struct_error, extend [Wr (packet x53 0x1880); Rd f0] self)).
Proof.
  intros self address data Hresp Haddress Hdata.
  pose proof (shiftr_16_out_of_range address Haddress) as Hhigh.
  assert (Hcheck : (data >? 65535) || (data <? 0) = false).
  { destruct (Z.gtb_spec data 65535); destruct (Z.ltb_spec data 0);
      try reflexivity; lia. }
  unfold read_byte, read_word, read_longword, write_word, write_longword,
    _send_then_receive, _send.
  rewrite Hcheck. cbn [for_each]. unfold bind, ret.
  rewrite (cf_send_and_receive_ok 0x1900), (cf_send_and_receive_ok 0x1940),
    (cf_send_and_receive_ok 0x1980), (cf_send_and_receive_ok 0x1840),
    (cf_send_and_receive_ok 0x1880) by (exact Hresp || lia).
  cbv beta iota.
  rewrite !(cf_send_and_receive_rejected (Z.shiftr address 16)) by exact Hhigh.
  cbv beta iota. rewrite !extend_extend. cbn [app].
  repeat split; eexists; reflexivity.
Qed.

Lemma address_out_of_range_leaves_half_a_command_witness :
  (exists f0 : list byte,
      read_byte (2 ^ 32) (BDM_init (mkSerial silent []))
      = (Raise struct_error,
         extend [Wr (packet x53 0x1900); Rd f0] (BDM_init (mkSerial silent []))))
  /\ (exists f0 : list byte,
        read_word (2 ^ 32) (BDM_init (mkSerial silent []))
        = (Raise struct_error,
           extend [Wr (packet x53 0x1940); Rd f0] (BDM_init (mkSerial silent []))))
  /\ (exists f0 : list byte,
        read_longword (2 ^ 32) (BDM_init (mkSerial silent []))
        = (Raise struct_error,
           extend [Wr (packet x53 0x1980); Rd f0] (BDM_init (mkSerial silent []))))
  /\ (exists f0 : list byte,
        write_word (2 ^ 32) 0 (BDM_init (mkSerial silent []))
        = (Raise struct_error,
           extend [Wr (packet x53 0x1840); Rd f0] (BDM_init (mkSerial silent []))))
  /\ (exists f0 : list byte,
        write_longword (2 ^ 32) 0 (BDM_init (mkSerial silent []))
        = (Raise struct_error,
           extend [Wr (packet x53 0x1880); Rd f0] (BDM_init (mkSerial silent [])))).
Proof.
  apply (address_out_of_range_leaves_half_a_command
           (BDM_init (mkSerial silent [])) (2 ^ 32) 0).
  - exact silent_responsive.
  - intros [_ H]. revert H. cbv. discriminate.
  - lia.
Defined.

(** X12. Memory writes at a 32-bit address, on a responsive device:
    [write_byte], [write_word] and [write_longword] check the data first
    ([write_longword] checks nothing) and then send the opcode, the two
    halves of the address and the data (a longword as its two halves), from
    which [65536 * high + low] gives address and data back.  No receive
    follows: the reply to the last word is left in flight.  Data out of
    range for a byte or a word is a [ValueError] with nothing sent. *)
Theorem memory_write_on_the_wire :
  forall (self : BDMCommandInterface Serial) (address data : Z),
    responsive (target (interface self)) ->
    0 <= address < 2 ^ 32 ->
    exists high low : Z,
      65536 * high + low = address
      /\ 0 <= high <= 0xFFFF /\ 0 <= low <= 0xFFFF
      /\ (0 <= data <= 255 ->
          exists f0 f1 f2 f3 : list byte,
            write_byte address data self
            = (Ok tt,
               extend [Wr (packet x53 0x1800); Rd f0; Wr (packet x53 high); Rd f1;
                       Wr (packet x53 low); Rd f2; Wr (packet x53 data); Rd f3]
                      self))
      /\ (~ 0 <= data <= 255 ->
          write_byte address data self = (Raise (ValueError byte_out_of_range), self))
      /\ (0 <= data <= 0xFFFF ->
          exists f0 f1 f2 f3 : list byte,
            write_word address data self
            = (Ok tt,
               extend [Wr (packet x53 0x1840); Rd f0; Wr (packet x53 high); Rd f1;
                       Wr (packet x53 low); Rd f2; Wr (packet x53 data); Rd f3]
                      self))
      /\ (~ 0 <= data <= 0xFFFF ->
          write_word address data self = (Raise (ValueError word_out_of_range), self))
      /\ (0 <= data < 2 ^ 32 ->
          exists (data_high data_low : Z) (f0 f1 f2 f3 f4 : list byte),
            65536 * data_high + data_low = data
            /\ 0 <= data_high <= 0xFFFF /\ 0 <= data_low <= 0xFFFF
            /\ write_longword address data self
               = (Ok tt,
                  extend [Wr (packet x53 0x1880); Rd f0;
                          Wr (packet x53 high); Rd f1; Wr (packet x53 low); Rd f2;
                          Wr (packet x53 data_high); Rd f3;
                          Wr (packet x53 data_low); Rd f4] self)).
Proof.
  intros self address data Hresp Haddress.
  exists (Z.shiftr address 16), (Z.land address 0xFFFF).
  split; [apply split_longword; exact Haddress |].
  split; [apply shiftr_16_range; exact Haddress |].
  split; [apply land_FFFF_range |].
  split; [| split; [| split; [| split]]].
  - intros Hdata. unfold write_byte.
    replace ((data >? 255) || (data <? 0)) with false
      by (destruct (Z.gtb_spec data 255); destruct (Z.ltb_spec data 0);
          try reflexivity; lia).
    replace (Z.land data 255) with data.
    2:{ change 255 with (Z.ones 8). rewrite Z.land_ones by lia.
        rewrite Z.mod_small; [reflexivity |]. change (2 ^ 8) with 256. lia. }
    unfold _send. cbn [for_each]. unfold bind, ret.
    cf_run Hresp. rewrite !extend_extend. cbn [app].
    do 4 eexists. reflexivity.
  - intros Hdata. unfold write_byte.
    replace ((data >? 255) || (data <? 0)) with true
      by (destruct (Z.gtb_spec data 255); destruct (Z.ltb_spec data 0);
          try reflexivity; lia).
    reflexivity.
  - intros Hdata. unfold write_word.
    replace ((data >? 65535) || (data <? 0)) with false
      by (destruct (Z.gtb_spec data 65535); destruct (Z.ltb_spec data 0);
          try reflexivity; lia).
    unfold _send. cbn [for_each]. unfold bind, ret.
    cf_run Hresp. rewrite !extend_extend. cbn [app].
    do 4 eexists. reflexivity.
  - intros Hdata. unfold write_word.
    replace ((data >? 65535) || (data <? 0)) with true
      by (destruct (Z.gtb_spec data 65535); destruct (Z.ltb_spec data 0);
          try reflexivity; lia).
    reflexivity.
  - intros Hdata.
    exists (Z.shiftr data 16), (Z.land data 0xFFFF).
    unfold write_longword, _send. cbn [for_each]. unfold bind, ret.
    cf_run Hresp. rewrite !extend_extend. cbn [app].
    do 5 eexists.
    split; [apply split_longword; exact Hdata |].
    split; [apply shiftr_16_range; exact Hdata |].
    split; [apply land_FFFF_range | reflexivity].
Qed.

Lemma memory_write_on_the_wire_witness :
  exists (data_high data_low : Z) (f0 f1 f2 f3 f4 : list byte),
    65536 * data_high + data_low = 0xF0001
    /\ 0 <= data_high <= 0xFFFF /\ 0 <= data_low <= 0xFFFF
    /\ exists high low : Z,
        65536 * high + low = 0x10000090
        /\ write_longword 0x10000090 0xF0001 (BDM_init (mkSerial silent []))
           = (Ok tt,
              extend [Wr (packet x53 0x1880); Rd f0;
                      Wr (packet x53 high); Rd f1; Wr (packet x53 low); Rd f2;
                      Wr (packet x53 data_high); Rd f3;
                      Wr (packet x53 data_low); Rd f4]
                     (BDM_init (mkSerial silent []))).
Proof.
  destruct (memory_write_on_the_wire
              (BDM_init (mkSerial silent [])) 0x10000090 0xF0001
              silent_responsive)
    as (high & low & Haddress & _ & _ & _ & _ & _ & _ & Hlong).
  - cbv. split; [discriminate | reflexivity].
  - destruct Hlong as (dh & dl & f0 & f1 & f2 & f3 & f4 & Hdata & Hdh & Hdl & Hrun).
    { cbv. split; [discriminate | reflexivity]. }
    exists dh, dl, f0, f1, f2, f3, f4.
    split; [exact Hdata |]. split; [exact Hdh |]. split; [exact Hdl |].
    exists high, low. split; [exact Haddress | exact Hrun].
Defined.

(** ** Unlock-bypass writes on the wire *)

Lemma write_word_run :
  forall (self : BDMCommandInterface Serial) (address data : Z),
    responsive (target (interface self)) ->
    0 <= address < 2 ^ 32 ->
    0 <= data <= 0xFFFF ->
    exists f0 f1 f2 f3 : list byte,
      write_word address data self
      = (Ok tt,
         extend [Wr (packet x53 0x1840); Rd f0;
                 Wr (packet x53 (Z.shiftr address 16)); Rd f1;
                 Wr (packet x53 (Z.land address 0xFFFF)); Rd f2;
                 Wr (packet x53 data); Rd f3] self).
Proof.
  intros self address data Hresp Haddress Hdata. unfold write_word.
  replace ((data >? 65535) || (data <? 0)) with false
    by (destruct (Z.gtb_spec data 65535); destruct (Z.ltb_spec data 0);
        try reflexivity; lia).
  unfold _send. cbn [for_each]. unfold bind, ret.
  cf_run Hresp. rewrite !extend_extend. cbn [app].
  do 4 eexists. reflexivity.
Qed.

(** X13. In unlock-bypass mode, on a responsive device, a bypassed write
    of a 16-bit word to a 32-bit address is two word writes: the word 0xA0
    to address 0, then the data to the address, eight command words in
    all and no receive.  Data that is not a 16-bit word is detected only by
    the second word write: the 0xA0 program command has then already gone
    to the flash chip, and the call ends in the [ValueError] with the flag
    still set. *)
Theorem bypassed_write_on_the_wire :
  forall (self : BDMCommandInterface Serial) (address data : Z),
    responsive (target (interface self)) ->
    in_unlock_bypass_mode self = Some true ->
    0 <= address < 2 ^ 32 ->
    exists f0 f1 f2 f3 : list byte,
      let program :=
        [Wr (packet x53 0x1840); Rd f0; Wr (packet x53 0); Rd f1;
         Wr (packet x53 0); Rd f2; Wr (packet x53 0xA0); Rd f3] in
      (0 <= data <= 0xFFFF ->
       exists f4 f5 f6 f7 : list byte,
         send_unlock_bypassed_flash_write address data self
         = (Ok tt,
            extend (program ++
                    [Wr (packet x53 0x1840); Rd f4;
                     Wr (packet x53 (Z.shiftr address 16)); Rd f5;
                     Wr (packet x53 (Z.land address 0xFFFF)); Rd f6;
                     Wr (packet x53 data); Rd f7]) self))
      /\ (~ 0 <= data <= 0xFFFF ->
          send_unlock_bypassed_flash_write address data self
          = (Raise (ValueError word_out_of_range), extend program self)).
Proof.
  intros self address data Hresp Hflag Haddress.
  destruct (write_word_run self 0 0xA0 Hresp ltac:(lia) ltac:(lia))
    as (f0 & f1 & f2 & f3 & Hprogram).
  change (Z.shiftr 0 16) with 0 in Hprogram.
  change (Z.land 0 65535) with 0 in Hprogram.
  exists f0, f1, f2, f3. intros program.
  assert (Hcheck : send_unlock_bypassed_flash_write address data self
                   = write_word address data (extend program self)).
  { unfold send_unlock_bypassed_flash_write, get_in_unlock_bypass_mode.
    unfold bind at 1. rewrite Hflag. cbn [negb].
    unfold bind at 1. rewrite Hprogram. reflexivity. }
  rewrite Hcheck. split.
  - intros Hdata.
    destruct (write_word_run (extend program self) address data Hresp
                             Haddress Hdata)
      as (f4 & f5 & f6 & f7 & Hwrite).
    exists f4, f5, f6, f7. rewrite Hwrite, extend_extend. reflexivity.
  - intros Hdata. unfold write_word.
    replace ((data >? 65535) || (data <? 0)) with true
      by (destruct (Z.gtb_spec data 65535); destruct (Z.ltb_spec data 0);
          try reflexivity; lia).
    reflexivity.
Qed.

Lemma bypassed_write_on_the_wire_witness :
  exists f0 f1 f2 f3 : list byte,
    let program :=
      [Wr (packet x53 0x1840); Rd f0; Wr (packet x53 0); Rd f1;
       Wr (packet x53 0); Rd f2; Wr (packet x53 0xA0); Rd f3] in
    (0 <= 0x10000 <= 0xFFFF ->
     exists f4 f5 f6 f7 : list byte,
       send_unlock_bypassed_flash_write 0 0x10000
         (mkBDM (mkSerial silent []) false (Some true))
       = (Ok tt,
          extend (program ++
                  [Wr (packet x53 0x1840); Rd f4;
                   Wr (packet x53 (Z.shiftr 0 16)); Rd f5;
                   Wr (packet x53 (Z.land 0 0xFFFF)); Rd f6;
                   Wr (packet x53 0x10000); Rd f7])
                 (mkBDM (mkSerial silent []) false (Some true))))
    /\ (~ 0 <= 0x10000 <= 0xFFFF ->
        send_unlock_bypassed_flash_write 0 0x10000
          (mkBDM (mkSerial silent []) false (Some true))
        = (Raise (ValueError word_out_of_range),
           extend program (mkBDM (mkSerial silent []) false (Some true)))).
Proof.
  apply (bypassed_write_on_the_wire
           (mkBDM (mkSerial silent []) false (Some true)) 0 0x10000).
  - exact silent_responsive.
  - reflexivity.
  - cbv. split; [discriminate | reflexivity].
Defined.

(** ** A dump from an address that does not fit *)

(** X14. A dump from a base address outside [0, 2^32) ends in a
    [struct.error] at the first word asked for: the Read-Word opcode has
    gone out (send-only, no frame read), the high half of the address is
    refused, and the generator is finished. *)
Theorem dump_words_from_an_address_out_of_range :
  forall (self : BDMCommandInterface Serial) (base_address num_words : Z),
    ~ 0 <= base_address < 2 ^ 32 ->
    list_dump_words base_address num_words self
    = (Raise struct_error, (extend [Wr (packet x73 0x1940)] self, dw_finished)).
Proof.
  intros self base_address num_words Hbase.
  pose proof (shiftr_16_out_of_range base_address Hbase) as Hhigh.
  unfold list_dump_words, dump_words; cbn [dump_words_steps].
  rewrite take_all_step.
  unfold dump_words_next, dump_words_body; cbn [snd].
  unfold on_self, bind; cbn [fst snd].
  rewrite cf_send_packet by lia. cbn [fst snd].
  rewrite cf_send_packet_rejected by exact Hhigh.
  rewrite extend_extend. reflexivity.
Qed.

Lemma dump_words_from_an_address_out_of_range_witness :
  list_dump_words (-1) 4 (BDM_init (mkSerial silent []))
  = (Raise struct_error,
     (extend [Wr (packet x73 0x1940)] (BDM_init (mkSerial silent [])),
      dw_finished)).
Proof.
  apply (dump_words_from_an_address_out_of_range
           (BDM_init (mkSerial silent [])) (-1) 4).
  intros [H _]. revert H. cbv. intros H. apply H. reflexivity.
Defined.

(** ** The CSR on the wire *)

Lemma land_16_bit_word : forall w : Z, 0 <= w <= 0xFFFF -> Z.land w 0xFFFF = w.
Proof.
  intros w Hw. change 65535 with (Z.ones 16). rewrite Z.land_ones by lia.
  apply Z.mod_small. change (2 ^ 16) with 65536. lia.
Qed.

(** X15. Bits 12 to 15 of a 32-bit value given to
    [write_debug_configuration_status_register] never reach the target:
    on any interface, writing the value does exactly what writing the value
    with these four bits cleared does. *)
Theorem csr_write_drops_bits_12_to_15 :
  forall (I : Type) (PI : PacketInterface I)
         (self : BDMCommandInterface I) (new_value : Z),
    0 <= new_value < 2 ^ 32 ->
    write_debug_configuration_status_register new_value self
    = write_debug_configuration_status_register (Z.land new_value 0xFFFF0FFF) self.
Proof.
  intros I PI self new_value Hrange.
  unfold write_debug_configuration_status_register.
  rewrite Z.shiftr_land. change (Z.shiftr 4294905855 16) with 0xFFFF.
  rewrite (land_16_bit_word (Z.shiftr new_value 16))
    by (apply shiftr_16_range; exact Hrange).
  rewrite <- Z.land_assoc. change (Z.land 4294905855 4095) with 0xFFF.
  reflexivity.
Qed.

Lemma csr_write_drops_bits_12_to_15_witness :
  write_debug_configuration_status_register 0xF010
    (BDM_init MockColdfireSerialInterface.init)
  = write_debug_configuration_status_register (Z.land 0xF010 0xFFFF0FFF)
      (BDM_init MockColdfireSerialInterface.init).
Proof.
  apply (csr_write_drops_bits_12_to_15 _ _
           (BDM_init MockColdfireSerialInterface.init) 0xF010).
  cbv. split; [discriminate | reflexivity].
Defined.

Lemma bits_above : forall a n i : Z,
  0 <= a < 2 ^ n -> 0 <= n <= i -> Z.testbit a i = false.
Proof.
  intros a n i Ha Hi.
  destruct (Z.eq_dec a 0) as [-> | Hpos]; [apply Z.bits_0 |].
  apply Z.bits_above_log2; [lia |].
  assert (Z.log2 a < n) by (apply Z.log2_lt_pow2; lia). lia.
Qed.

Lemma joined_bits : forall hi lo i : Z,
  0 <= lo < 2 ^ 16 -> 0 <= i ->
  Z.testbit (Z.lor (Z.shiftl hi 16) lo) i
  = if i <? 16 then Z.testbit lo i else Z.testbit hi (i - 16).
Proof.
  intros hi lo i Hlo Hi. rewrite Z.lor_spec.
  destruct (Z.ltb_spec i 16).
  - rewrite Z.shiftl_spec_low by lia. reflexivity.
  - rewrite Z.shiftl_spec by lia.
    rewrite (bits_above lo 16 i) by lia. apply orb_false_r.
Qed.

(** The two words that a change of step mode writes back, from the two
    words of the CSR it has read. *)
Lemma new_register_words : forall (hi lo : Z) (enabled : bool),
  0 <= hi < 2 ^ 16 -> 0 <= lo < 2 ^ 16 ->
  let cleared := Z.land (Z.lor (Z.shiftl hi 16) lo) 0xFFFFFFEF in
  let new_register := if enabled then Z.lor cleared 16 else cleared in
  Z.shiftr new_register 16 = hi
  /\ Z.testbit (Z.land new_register 0xFFF) 4 = enabled
  /\ (forall i, 0 <= i < 12 -> i <> 4 ->
      Z.testbit (Z.land new_register 0xFFF) i = Z.testbit lo i)
  /\ (forall i, 12 <= i -> Z.testbit (Z.land new_register 0xFFF) i = false).
Proof.
  intros hi lo enabled Hhi Hlo cleared new_register.
  pose proof (new_register_bits (Z.lor (Z.shiftl hi 16) lo) enabled)
    as [Hbit4 Hothers].
  fold cleared in Hbit4, Hothers. fold new_register in Hbit4, Hothers.
  assert (Hhigh_bits : forall j, 32 <= j -> Z.testbit new_register j = false).
  { intros j Hj. subst new_register cleared.
    assert (Hmask : Z.testbit 0xFFFFFFEF j = false)
      by (apply (bits_above _ 32); [cbv; split; [discriminate | reflexivity] | lia]).
    assert (Hbit : Z.testbit 16 j = false)
      by (apply (bits_above _ 5); [cbv; split; [discriminate | reflexivity] | lia]).
    destruct enabled.
    - rewrite Z.lor_spec, Z.land_spec, Hmask, Hbit, andb_false_r. reflexivity.
    - rewrite Z.land_spec, Hmask, andb_false_r. reflexivity. }
  assert (Hmask12 : forall i, 0 <= i ->
             Z.testbit 0xFFF i = if i <? 12 then true else false).
  { intros i Hi. change 4095 with (Z.ones 12).
    destruct (Z.ltb_spec i 12).
    - apply Z.ones_spec_low; lia.
    - apply Z.ones_spec_high; lia. }
  split; [| split; [| split]].
  - apply Z.bits_inj'. intros i Hi. rewrite Z.shiftr_spec by lia.
    destruct (Z.ltb_spec (i + 16) 32).
    + rewrite Hothers by lia. rewrite joined_bits by lia.
      destruct (Z.ltb_spec (i + 16) 16); [lia |]. f_equal. lia.
    + rewrite Hhigh_bits by lia. symmetry. apply (bits_above hi 16); lia.
  - rewrite Z.land_spec, Hbit4, Hmask12 by lia. apply andb_true_r.
  - intros i Hi Hneq. rewrite Z.land_spec, Hmask12 by lia.
    destruct (Z.ltb_spec i 12); [| lia].
    rewrite andb_true_r, Hothers by lia.
    rewrite joined_bits by lia. destruct (Z.ltb_spec i 16); [reflexivity | lia].
  - intros i Hi. rewrite Z.land_spec, Hmask12 by lia.
    destruct (Z.ltb_spec i 12); [lia |]. apply andb_false_r.
Qed.

(** A change of step mode on a responsive device: what the read of the
    CSR gives, the whole exchange, and the third word written back. *)
Lemma step_mode_change_exchange :
  forall (self : BDMCommandInterface Serial) (enabled : bool),
    responsive (target (interface self)) ->
    current_step_mode self <> enabled ->
    exists (f0 high low g0 g1 g2 g3 : list byte) (third : Z),
      read_debug_configuration_status_register self
      = (Ok (ConfigurationStatusRegister.mk
               (65536 * frame_data high + frame_data low)),
         extend [Wr (packet x53 0x2D80); Rd f0; Wr [x72]; Rd high;
                 Wr [x72]; Rd low] self)
      /\ set_single_step_mode enabled self
         = (Ok tt,
            with_step_mode enabled
              (extend [Wr (packet x53 0x2D80); Rd f0; Wr [x72]; Rd high;
                       Wr [x72]; Rd low;
                       Wr (packet x53 0x2C80); Rd g0;
                       Wr (packet x53 (frame_data high)); Rd g1;
                       Wr (packet x53 third); Rd g2; Wr [x72]; Rd g3] self))
      /\ Z.testbit third 4 = enabled
      /\ (forall i, 0 <= i < 12 -> i <> 4 ->
          Z.testbit third i = Z.testbit (frame_data low) i)
      /\ (forall i, 12 <= i -> Z.testbit third i = false).
Proof.
  intros self enabled Hresp Hdiff.
  assert (Hread :
            exists f0 high low : list byte,
              read_debug_configuration_status_register self
              = (Ok (ConfigurationStatusRegister.mk
                       (Z.lor (Z.shiftl (frame_data high) 16) (frame_data low))),
                 extend [Wr (packet x53 0x2D80); Rd f0; Wr [x72]; Rd high;
                         Wr [x72]; Rd low] self)).
  { unfold read_debug_configuration_status_register, _send_then_receive.
    change (range 2) with [0; 1]. cbn [for_each list_comprehension].
    unfold bind, ret. cf_run Hresp. rewrite !extend_extend. cbn [app data].
    do 3 eexists. reflexivity. }
  destruct Hread as (f0 & high & low & Hread).
  pose proof (new_register_words (frame_data high) (frame_data low) enabled
                (frame_data_16 high) (frame_data_16 low))
    as (Hhalf & Hbit4 & Hlow & Hzero).
  cbv zeta in Hhalf, Hbit4, Hlow, Hzero.
  assert (Hwrite :
            forall s : BDMCommandInterface Serial,
              responsive (target (interface s)) ->
              exists g0 g1 g2 g3 : list byte,
                write_debug_configuration_status_register
                  (if enabled
                   then Z.lor (Z.land (Z.lor (Z.shiftl (frame_data high) 16)
                                             (frame_data low)) 0xFFFFFFEF) 16
                   else Z.land (Z.lor (Z.shiftl (frame_data high) 16)
                                      (frame_data low)) 0xFFFFFFEF) s
                = (Ok (frame_data g3),
                   extend [Wr (packet x53 0x2C80); Rd g0;
                           Wr (packet x53 (frame_data high)); Rd g1;
                           Wr (packet x53
                                 (Z.land
                                    (if enabled
                                     then Z.lor (Z.land (Z.lor (Z.shiftl (frame_data high) 16)
                                                               (frame_data low)) 0xFFFFFFEF) 16
                                     else Z.land (Z.lor (Z.shiftl (frame_data high) 16)
                                                        (frame_data low)) 0xFFFFFFEF)
                                    0xFFF)); Rd g2;
                           Wr [x72]; Rd g3] s)).
  { intros s Hs.
    unfold write_debug_configuration_status_register, _send_then_receive.
    rewrite Hhalf.
    change (range 1) with [0]. cbn [for_each list_comprehension].
    unfold bind, ret. cf_run Hs. rewrite !extend_extend. cbn [app data].
    do 4 eexists. reflexivity. }
  destruct (Hwrite (extend [Wr (packet x53 0x2D80); Rd f0; Wr [x72]; Rd high;
                            Wr [x72]; Rd low] self) Hresp)
    as (g0 & g1 & g2 & g3 & Hwritten).
  exists f0, high, low, g0, g1, g2, g3.
  eexists. split; [| split; [| split; [exact Hbit4 | split; [exact Hlow | exact Hzero]]]].
  - rewrite Hread. rewrite join_words by apply frame_data_16. reflexivity.
  - unfold set_single_step_mode.
    destruct (Bool.eqb (current_step_mode self) enabled) eqn:Heq;
      [apply Bool.eqb_prop in Heq; contradiction |].
    rewrite (bind_Ok _ _ _ _ _ _ _ _ Hread).
    cbn [ConfigurationStatusRegister.data]. cbv zeta.
    rewrite (bind_Ok _ _ _ _ _ _ _ _ Hwritten).
    rewrite extend_extend. reflexivity.
Qed.

(** X16. A change of step mode on a responsive device, word by word: the
    CSR is read (0x2D80, then two receives give its high and low word) and
    written back as 0x2C80, the high word as read, and a third word, then
    one receive.  The third word has bit 4 equal to the mode asked for and
    bits 0 to 11 otherwise as in the low word read, but its bits 12 to 15
    are always zero, whatever they were in the CSR. *)
Theorem step_mode_change_on_the_wire :
  forall (self : BDMCommandInterface Serial) (enabled : bool),
    responsive (target (interface self)) ->
    current_step_mode self <> enabled ->
    exists (f0 high low g0 g1 g2 g3 : list byte) (third : Z),
      set_single_step_mode enabled self
      = (Ok tt,
         with_step_mode enabled
           (extend [Wr (packet x53 0x2D80); Rd f0; Wr [x72]; Rd high;
                    Wr [x72]; Rd low;
                    Wr (packet x53 0x2C80); Rd g0;
                    Wr (packet x53 (frame_data high)); Rd g1;
                    Wr (packet x53 third); Rd g2; Wr [x72]; Rd g3] self))
      /\ Z.testbit third 4 = enabled
      /\ (forall i, 0 <= i < 12 -> i <> 4 ->
          Z.testbit third i = Z.testbit (frame_data low) i)
      /\ (forall i, 12 <= i -> Z.testbit third i = false).
Proof.
  intros self enabled Hresp Hdiff.
  destruct (step_mode_change_exchange self enabled Hresp Hdiff)
    as (f0 & high & low & g0 & g1 & g2 & g3 & third
        & _ & Hrun & Hbit4 & Hlow & Hzero).
  exists f0, high, low, g0, g1, g2, g3, third.
  split; [exact Hrun |]. split; [exact Hbit4 |]. split; [exact Hlow | exact Hzero].
Qed.

Lemma step_mode_change_on_the_wire_witness :
  exists (f0 high low g0 g1 g2 g3 : list byte) (third : Z),
    set_single_step_mode true (BDM_init (mkSerial silent []))
    = (Ok tt,
       with_step_mode true
         (extend [Wr (packet x53 0x2D80); Rd f0; Wr [x72]; Rd high;
                  Wr [x72]; Rd low;
                  Wr (packet x53 0x2C80); Rd g0;
                  Wr (packet x53 (frame_data high)); Rd g1;
                  Wr (packet x53 third); Rd g2; Wr [x72]; Rd g3]
                 (BDM_init (mkSerial silent []))))
    /\ Z.testbit third 4 = true
    /\ (forall i, 0 <= i < 12 -> i <> 4 ->
        Z.testbit third i = Z.testbit (frame_data low) i)
    /\ (forall i, 12 <= i -> Z.testbit third i = false).
Proof.
  apply (step_mode_change_on_the_wire (BDM_init (mkSerial silent [])) true).
  - exact silent_responsive.
  - discriminate.
Defined.

(** ** The step mode written back *)

Lemma csr_F000_responsive : responsive csr_F000.
Proof.
  intros h n. unfold csr_F000.
  destruct (Nat.eqb (reads_so_far h) 2).
  - rewrite length_app, repeat_length. cbn [length]. lia.
  - rewrite repeat_length. apply le_n.
Qed.

(** C6. [single_step_mode] decodes bit 4 of the CSR (0x00000010 gives true,
    0x00000000 false), and [set_single_step_mode enabled] leaves the engine
    as it is, with nothing read and nothing written, when the cached mode is
    already [enabled].  Otherwise, on a responsive device, it reads the CSR
    (0x2D80 and two receives: high word, low word), writes it back with
    0x2C80, the high word as read and a third word, receives once, and sets
    the cache, so that a second call with the same value does nothing.  The
    third word has bit 4 equal to [enabled] and bits 0 to 11 of the CSR
    otherwise, but bits 12 to 15 of it are always clear: it is the modified
    CSR cut to twelve bits, not the modified CSR.  On a device whose CSR
    reads 0x0000F000, enabling step mode sends 0x2C80, 0x0000, 0x0010, and
    not the words of 0x0000F010.  On the mock, whose CSR reads 0xFFFFFFFF,
    the third word is 0x0FFF or 0x0FEF; there the first of two calls with
    the same value issues one CSR write when it changes the mode and the
    second none. *)
Theorem set_single_step_mode_writes_back_a_truncated_csr :
  ConfigurationStatusRegister.single_step_mode
    (ConfigurationStatusRegister.mk 0x00000010) = true
  /\ ConfigurationStatusRegister.single_step_mode
       (ConfigurationStatusRegister.mk 0x00000000) = false
  /\ (forall (I : Type) (PI : PacketInterface I)
             (self : BDMCommandInterface I) (enabled : bool),
        current_step_mode self = enabled ->
        set_single_step_mode enabled self = (Ok tt, self))
  /\ (forall (self : BDMCommandInterface Serial) (enabled : bool),
        responsive (target (interface self)) ->
        current_step_mode self <> enabled ->
        exists (f0 high low g0 g1 g2 g3 : list byte) (third : Z),
          let csr := 65536 * frame_data high + frame_data low in
          let after :=
            with_step_mode enabled
              (extend [Wr (packet x53 0x2D80); Rd f0; Wr [x72]; Rd high;
                       Wr [x72]; Rd low;
                       Wr (packet x53 0x2C80); Rd g0;
                       Wr (packet x53 (Z.shiftr csr 16)); Rd g1;
                       Wr (packet x53 third); Rd g2; Wr [x72]; Rd g3] self) in
          read_debug_configuration_status_register self
          = (Ok (ConfigurationStatusRegister.mk csr),
             extend [Wr (packet x53 0x2D80); Rd f0; Wr [x72]; Rd high;
                     Wr [x72]; Rd low] self)
          /\ set_single_step_mode enabled self = (Ok tt, after)
          /\ set_single_step_mode enabled after = (Ok tt, after)
          /\ Z.testbit third 4 = enabled
          /\ (forall i, 0 <= i < 12 -> i <> 4 ->
              Z.testbit third i = Z.testbit csr i)
          /\ (forall i, 12 <= i -> Z.testbit third i = false))
  /\ (let self := BDM_init (mkSerial csr_F000 []) in
      let modified := Z.lor (Z.land 0x0000F000 0xFFFFFFEF) 0x10 in
      responsive (target (interface self))
      /\ current_step_mode self <> true
      /\ fst (read_debug_configuration_status_register self)
         = Ok (ConfigurationStatusRegister.mk 0x0000F000)
      /\ modified = 0x0000F010
      /\ fst (set_single_step_mode true self) = Ok tt
      /\ written (history (interface (snd (set_single_step_mode true self))))
         = [packet x53 0x2D80; [x72]; [x72];
            packet x53 0x2C80; packet x53 0x0000; packet x53 0x0010; [x72]]
      /\ written (history (interface (snd (set_single_step_mode true self))))
         <> [packet x53 0x2D80; [x72]; [x72]]
              ++ csr_write_as_specified modified ++ [[x72]])
  /\ (forall (cs : list (list byte)) (c : bool) (u : option bool),
        set_single_step_mode (negb c) (mkBDM (MockColdfireSerialInterface.mk cs) c u)
        = (Ok tt,
           mkBDM (MockColdfireSerialInterface.mk
                    (cs ++ [packet x53 0x2D80; [x72]; [x72];
                            packet x53 0x2C80; packet x53 0xFFFF;
                            packet x53 (if c then 0xFEF else 0xFFF); [x72]]))
                 (negb c) u))
  /\ (forall (cs : list (list byte)) (c : bool) (u : option bool) (enabled : bool),
        let self := mkBDM (MockColdfireSerialInterface.mk cs) c u in
        let once := snd (set_single_step_mode enabled self) in
        let twice := snd (set_single_step_mode enabled once) in
        csr_writes (MockColdfireSerialInterface.commands_sent (interface once))
        = (csr_writes cs + (if Bool.eqb c enabled then 0 else 1))%nat
        /\ csr_writes (MockColdfireSerialInterface.commands_sent (interface twice))
           = csr_writes (MockColdfireSerialInterface.commands_sent (interface once))).
Proof.
  split; [reflexivity |]. split; [reflexivity |].
  split; [| split; [| split; [| split]]].
  - intros I PI self enabled Hsame. unfold set_single_step_mode.
    rewrite Hsame, Bool.eqb_reflx. reflexivity.
  - intros self enabled Hresp Hdiff.
    destruct (step_mode_change_exchange self enabled Hresp Hdiff)
      as (f0 & high & low & g0 & g1 & g2 & g3 & third
          & Hread & Hrun & Hbit4 & Hlow & Hzero).
    exists f0, high, low, g0, g1, g2, g3, third. cbv zeta.
    assert (Hhigh : Z.shiftr (65536 * frame_data high + frame_data low) 16
                    = frame_data high).
    { pose proof (frame_data_16 low) as Hl. rewrite Z.shiftr_div_pow2 by lia.
      change (2 ^ 16) with 65536 in *.
      symmetry. apply (Z.div_unique _ 65536 _ (frame_data low)); lia. }
    rewrite Hhigh.
    split; [exact Hread |]. split; [exact Hrun |]. split.
    { unfold set_single_step_mode, with_step_mode; cbn [current_step_mode].
      rewrite Bool.eqb_reflx. reflexivity. }
    split; [exact Hbit4 |]. split; [| exact Hzero].
    intros i Hi Hne. rewrite (Hlow i Hi Hne).
    rewrite <- join_words by apply frame_data_16.
    rewrite joined_bits by (apply frame_data_16 || lia).
    destruct (Z.ltb_spec i 16); [reflexivity | lia].
  - cbv zeta. split; [exact csr_F000_responsive |].
    split; [discriminate |].
    split; [vm_compute; reflexivity |].
    split; [reflexivity |].
    split; [vm_compute; reflexivity |].
    split; [vm_compute; reflexivity |].
    vm_compute. discriminate.
  - exact mock_set_single_step_mode.
  - intros cs c u enabled self once twice. subst self once twice.
    destruct (Bool.eqb c enabled) eqn:Heq.
    + apply Bool.eqb_prop in Heq. subst enabled.
      unfold set_single_step_mode; cbn [current_step_mode].
      rewrite Bool.eqb_reflx. cbn [snd interface current_step_mode
        MockColdfireSerialInterface.commands_sent].
      rewrite Bool.eqb_reflx. cbn [snd interface
        MockColdfireSerialInterface.commands_sent].
      split; lia.
    + assert (Henabled : enabled = negb c)
        by (destruct c, enabled; try reflexivity; discriminate Heq).
      subst enabled. rewrite mock_set_single_step_mode.
      cbn [snd interface MockColdfireSerialInterface.commands_sent].
      split.
      * rewrite csr_writes_app. f_equal. destruct c; vm_compute; reflexivity.
      * unfold set_single_step_mode; cbn [current_step_mode].
        rewrite Bool.eqb_reflx. reflexivity.
Qed.

Lemma set_single_step_mode_writes_back_a_truncated_csr_witness :
  set_single_step_mode false (BDM_init (mkSerial csr_F000 []))
  = (Ok tt, BDM_init (mkSerial csr_F000 []))
  /\ exists (f0 high low g0 g1 g2 g3 : list byte) (third : Z),
       read_debug_configuration_status_register (BDM_init (mkSerial csr_F000 []))
       = (Ok (ConfigurationStatusRegister.mk
                (65536 * frame_data high + frame_data low)),
          extend [Wr (packet x53 0x2D80); Rd f0; Wr [x72]; Rd high;
                  Wr [x72]; Rd low] (BDM_init (mkSerial csr_F000 [])))
       /\ Z.testbit third 4 = true
       /\ (forall i, 12 <= i -> Z.testbit third i = false).
Proof.
  destruct set_single_step_mode_writes_back_a_truncated_csr
    as (_ & _ & Hsame & Hchange & _).
  split.
  - apply (Hsame _ _ (BDM_init (mkSerial csr_F000 [])) false). reflexivity.
  - destruct (Hchange (BDM_init (mkSerial csr_F000 [])) true
                csr_F000_responsive ltac:(discriminate))
      as (f0 & high & low & g0 & g1 & g2 & g3 & third
          & Hread & _ & _ & Hbit4 & _ & Hzero).
    exists f0, high, low, g0, g1, g2, g3, third.
    split; [exact Hread |]. split; [exact Hbit4 | exact Hzero].
Defined.

(** ** The consistency check in a dry run *)

Section DryRun.

Variables (cs : list (list byte)) (c : bool) (u : option bool).

Lemma mock_register_read : forall (opcode n : Z) (cs1 : list (list byte)),
  0 <= opcode + n <= 0xFFFF ->
  _send_then_receive [opcode + n] 2 (mkBDM (MockColdfireSerialInterface.mk cs1) c u)
  = (Ok 0xFFFFFFFF,
     mkBDM (MockColdfireSerialInterface.mk
              (cs1 ++ [packet x53 (opcode + n); [x72]; [x72]])) c u).
Proof.
  intros opcode n cs1 Hrange. unfold _send_then_receive.
  change (range 2) with [0; 1]. cbn [for_each list_comprehension].
  unfold bind, ret.
  rewrite mock_send_and_receive by exact Hrange. cbv beta iota.
  rewrite !mock_receive. cbv beta iota.
  repeat rewrite <- app_assoc. reflexivity.
Qed.

Lemma mock_register_write : forall (opcode n : Z) (cs1 : list (list byte)),
  0 <= opcode + n <= 0xFFFF ->
  _send_then_receive [opcode + n] 1 (mkBDM (MockColdfireSerialInterface.mk cs1) c u)
  = (Ok 0xFFFF,
     mkBDM (MockColdfireSerialInterface.mk
              (cs1 ++ [packet x53 (opcode + n); [x72]])) c u).
Proof.
  intros opcode n cs1 Hrange. unfold _send_then_receive.
  change (range 1) with [0]. cbn [for_each list_comprehension].
  unfold bind, ret.
  rewrite mock_send_and_receive by exact Hrange. cbv beta iota.
  rewrite !mock_receive. cbv beta iota.
  repeat rewrite <- app_assoc. reflexivity.
Qed.

Lemma mock_read_address_register : forall (n : Z) (cs1 : list (list byte)),
  0 <= n <= 7 ->
  read_address_register n (mkBDM (MockColdfireSerialInterface.mk cs1) c u)
  = (Ok 0xFFFFFFFF,
     mkBDM (MockColdfireSerialInterface.mk
              (cs1 ++ [packet x53 (0x2188 + n); [x72]; [x72]])) c u).
Proof.
  intros n cs1 Hn. unfold read_address_register, NUM_ADDRESS_REGISTERS.
  rewrite (register_check_passes n Hn).
  rewrite (lor_register_number 0x2188 n Hn eq_refl).
  apply mock_register_read. lia.
Qed.

Lemma mock_read_data_register : forall (n : Z) (cs1 : list (list byte)),
  0 <= n <= 7 ->
  read_data_register n (mkBDM (MockColdfireSerialInterface.mk cs1) c u)
  = (Ok 0xFFFFFFFF,
     mkBDM (MockColdfireSerialInterface.mk
              (cs1 ++ [packet x53 (0x2180 + n); [x72]; [x72]])) c u).
Proof.
  intros n cs1 Hn. unfold read_data_register, NUM_DATA_REGISTERS.
  rewrite (register_check_passes n Hn).
  rewrite (lor_register_number 0x2180 n Hn eq_refl).
  apply mock_register_read. lia.
Qed.

Lemma mock_write_address_register : forall (n v : Z) (cs1 : list (list byte)),
  0 <= n <= 7 ->
  write_address_register n v (mkBDM (MockColdfireSerialInterface.mk cs1) c u)
  = (Ok 0xFFFF,
     mkBDM (MockColdfireSerialInterface.mk
              (cs1 ++ [packet x53 (0x2088 + n); [x72]])) c u).
Proof.
  intros n v cs1 Hn. unfold write_address_register, NUM_ADDRESS_REGISTERS.
  rewrite (register_check_passes n Hn).
  rewrite (lor_register_number 0x2088 n Hn eq_refl).
  apply mock_register_write. lia.
Qed.

Lemma mock_write_data_register : forall (n v : Z) (cs1 : list (list byte)),
  0 <= n <= 7 ->
  write_data_register n v (mkBDM (MockColdfireSerialInterface.mk cs1) c u)
  = (Ok 0xFFFF,
     mkBDM (MockColdfireSerialInterface.mk
              (cs1 ++ [packet x53 (0x2080 + n); [x72]])) c u).
Proof.
  intros n v cs1 Hn. unfold write_data_register, NUM_DATA_REGISTERS.
  rewrite (register_check_passes n Hn).
  rewrite (lor_register_number 0x2080 n Hn eq_refl).
  apply mock_register_write. lia.
Qed.

Lemma mock_read_address_registers : forall cs1 : list (list byte),
  list_comprehension read_address_register (range NUM_ADDRESS_REGISTERS)
                     (mkBDM (MockColdfireSerialInterface.mk cs1) c u)
  = (Ok (repeat 0xFFFFFFFF 8),
     mkBDM (MockColdfireSerialInterface.mk (cs1 ++ eight_reads 0x2188)) c u).
Proof.
  intros cs1. change (range NUM_ADDRESS_REGISTERS) with [0; 1; 2; 3; 4; 5; 6; 7].
  cbn [list_comprehension]. unfold bind, ret.
  repeat (rewrite mock_read_address_register by lia; cbv beta iota).
  unfold eight_reads. change (range 8) with [0; 1; 2; 3; 4; 5; 6; 7].
  cbn [flat_map repeat]. repeat rewrite <- app_assoc. reflexivity.
Qed.

Lemma mock_read_data_registers : forall cs1 : list (list byte),
  list_comprehension read_data_register (range NUM_DATA_REGISTERS)
                     (mkBDM (MockColdfireSerialInterface.mk cs1) c u)
  = (Ok (repeat 0xFFFFFFFF 8),
     mkBDM (MockColdfireSerialInterface.mk (cs1 ++ eight_reads 0x2180)) c u).
Proof.
  intros cs1. change (range NUM_DATA_REGISTERS) with [0; 1; 2; 3; 4; 5; 6; 7].
  cbn [list_comprehension]. unfold bind, ret.
  repeat (rewrite mock_read_data_register by lia; cbv beta iota).
  unfold eight_reads. change (range 8) with [0; 1; 2; 3; 4; 5; 6; 7].
  cbn [flat_map repeat]. repeat rewrite <- app_assoc. reflexivity.
Qed.

Lemma mock_write_address_registers :
  forall (v0 v1 v2 v3 v4 v5 v6 v7 : Z) (cs1 : list (list byte)),
    for_each (fun iv => write_address_register (fst iv) (snd iv) ;; ret tt)
             (enumerate [v0; v1; v2; v3; v4; v5; v6; v7])
             (mkBDM (MockColdfireSerialInterface.mk cs1) c u)
    = (Ok tt,
       mkBDM (MockColdfireSerialInterface.mk (cs1 ++ eight_writes 0x2088)) c u).
Proof.
  intros v0 v1 v2 v3 v4 v5 v6 v7 cs1.
  unfold enumerate. cbn [enumerate_from for_each fst snd Z.add Pos.add Pos.succ].
  unfold bind, ret.
  repeat (rewrite mock_write_address_register by lia; cbv beta iota).
  unfold eight_writes. change (range 8) with [0; 1; 2; 3; 4; 5; 6; 7].
  cbn [flat_map]. repeat rewrite <- app_assoc. reflexivity.
Qed.

Lemma mock_write_data_registers :
  forall (v0 v1 v2 v3 v4 v5 v6 v7 : Z) (cs1 : list (list byte)),
    for_each (fun iv => write_data_register (fst iv) (snd iv) ;; ret tt)
             (enumerate [v0; v1; v2; v3; v4; v5; v6; v7])
             (mkBDM (MockColdfireSerialInterface.mk cs1) c u)
    = (Ok tt,
       mkBDM (MockColdfireSerialInterface.mk (cs1 ++ eight_writes 0x2080)) c u).
Proof.
  intros v0 v1 v2 v3 v4 v5 v6 v7 cs1.
  unfold enumerate. cbn [enumerate_from for_each fst snd Z.add Pos.add Pos.succ].
  unfold bind, ret.
  repeat (rewrite mock_write_data_register by lia; cbv beta iota).
  unfold eight_writes. change (range 8) with [0; 1; 2; 3; 4; 5; 6; 7].
  cbn [flat_map]. repeat rewrite <- app_assoc. reflexivity.
Qed.

End DryRun.

(** X17. On the mock every register reads as 0xFFFFFFFF, so the
    consistency check cannot pass in a dry run: the two reads agree, the
    sixteen test writes go out, and the read-back of the address registers
    differs from the values drawn (each below 0xFFFFFFFF), which ends the
    check in its "Wrote to all 8 address registers" [ValueError], before the
    data registers are read back and before any restoring write. *)
Theorem consistency_check_fails_on_the_mock :
  forall (random_values : nat -> Z) (cs : list (list byte)) (c : bool)
         (u : option bool),
    (forall k, 0 <= random_values k < 0xFFFFFFFF) ->
    consistency_check random_values (mkBDM (MockColdfireSerialInterface.mk cs) c u)
    = (Raise (ValueError address_writes_differ),
       mkBDM (MockColdfireSerialInterface.mk
                (cs ++ eight_reads 0x2188 ++ eight_reads 0x2180
                    ++ eight_reads 0x2188 ++ eight_reads 0x2180
                    ++ eight_writes 0x2088 ++ eight_writes 0x2080
                    ++ eight_reads 0x2188)) c u).
Proof.
  intros random_values cs c u Hrandom. unfold consistency_check.
  erewrite bind_Ok by apply mock_read_address_registers.
  erewrite bind_Ok by apply mock_read_data_registers.
  erewrite bind_Ok by apply mock_read_address_registers.
  rewrite lists_differ_false. erewrite bind_Ok by reflexivity.
  erewrite bind_Ok by apply mock_read_data_registers.
  rewrite lists_differ_false. erewrite bind_Ok by reflexivity.
  cbv zeta.
  change (Z.to_nat NUM_ADDRESS_REGISTERS) with 8%nat.
  change (Z.to_nat NUM_DATA_REGISTERS) with 8%nat.
  cbn [seq map].
  erewrite bind_Ok by apply mock_write_address_registers.
  erewrite bind_Ok by apply mock_write_data_registers.
  erewrite bind_Ok by apply mock_read_address_registers.
  rewrite lists_differ_true.
  - erewrite bind_Raise by reflexivity.
    repeat rewrite <- app_assoc. reflexivity.
  - cbn [repeat]. intros Heq. inversion Heq as [Hfirst].
    specialize (Hrandom 0%nat). lia.
Qed.

Lemma consistency_check_fails_on_the_mock_witness :
  consistency_check (fun _ => 0) (BDM_init MockColdfireSerialInterface.init)
  = (Raise (ValueError address_writes_differ),
     mkBDM (MockColdfireSerialInterface.mk
              ([] ++ eight_reads 0x2188 ++ eight_reads 0x2180
                  ++ eight_reads 0x2188 ++ eight_reads 0x2180
                  ++ eight_writes 0x2088 ++ eight_writes 0x2080
                  ++ eight_reads 0x2188)) false None).
Proof.
  apply (consistency_check_fails_on_the_mock (fun _ => 0) [] false None).
  intros k. lia.
Defined.

(** ** The commands of the command line *)

Lemma byte_of_Z_of_byte : forall b : byte, byte_of_Z (Z_of_byte b) = b.
Proof.
  intros b. unfold byte_of_Z.
  rewrite Z.mod_small by (pose proof (Z_of_byte_range b); lia).
  unfold Z_of_byte. rewrite N2Z.id, Byte.of_to_N. reflexivity.
Qed.

Lemma to_bytes_1_of_byte : forall b : byte, to_bytes_1 (Z_of_byte b) = Done [b].
Proof.
  intros b. unfold to_bytes_1. pose proof (Z_of_byte_range b) as Hb.
  destruct (Z.leb_spec 0 (Z_of_byte b)); [| lia].
  destruct (Z.leb_spec (Z_of_byte b) 255); [| lia].
  cbn [andb]. rewrite byte_of_Z_of_byte. reflexivity.
Qed.

(** The two bytes that a raw dump writes for the word of a frame are the
    frame's last byte and then its middle byte. *)
Lemma frame_word_bytes : forall b0 lo hi : byte,
  to_bytes_1 (Z.shiftr (frame_data [b0; lo; hi]) 8) = Done [hi]
  /\ to_bytes_1 (Z.land (frame_data [b0; lo; hi]) 0xFF) = Done [lo].
Proof.
  intros b0 lo hi. cbn [frame_data].
  pose proof (Z_of_byte_range lo) as Hlo.
  pose proof (Z_of_byte_range hi) as Hhi.
  assert (Hhigh : Z.shiftr (Z_of_byte lo + 256 * Z_of_byte hi) 8 = Z_of_byte hi).
  { rewrite Z.shiftr_div_pow2 by lia. change (2 ^ 8) with 256.
    rewrite Z.mul_comm, Z.div_add by lia.
    rewrite Z.div_small by lia. reflexivity. }
  assert (Hlow : Z.land (Z_of_byte lo + 256 * Z_of_byte hi) 0xFF = Z_of_byte lo).
  { change 255 with (Z.ones 8). rewrite Z.land_ones by lia.
    change (2 ^ 8) with 256.
    rewrite Z.mul_comm, Z.mod_add by lia. apply Z.mod_small. lia. }
  rewrite Hhigh, Hlow. split; apply to_bytes_1_of_byte.
Qed.

Section RawDump.

Variable self0 : BDMCommandInterface Serial.
Hypothesis device_responsive : responsive (target (interface self0)).

(** The body of the raw loop on the word of a full frame. *)
Lemma raw_body_on_a_frame :
  forall (frame : list byte) (s : BDMCommandInterface Serial * list chunk),
    length frame = 3%nat ->
    (high <-- computed (to_bytes_1 (Z.shiftr (frame_data frame) 8)) ;;;
     write_out (raw_bytes high) ;;;
     low <-- computed (to_bytes_1 (Z.land (frame_data frame) 0xFF)) ;;;
     write_out (raw_bytes low)) s
    = (Done tt,
       (fst s, snd s ++ [raw_bytes [nth 2 frame x00]; raw_bytes [nth 1 frame x00]])).
Proof.
  intros frame s Hlen.
  destruct frame as [| b0 [| lo [| hi [| b3 rest]]]]; try discriminate Hlen.
  destruct (frame_word_bytes b0 lo hi) as [Hhigh Hlow].
  unfold cbind, computed, write_out. rewrite Hhigh. cbn [fst snd].
  rewrite Hlow. cbn [fst snd nth]. rewrite <- app_assoc. reflexivity.
Qed.

Lemma raw_loop : forall (k : nat) (evs : list event) (out : list chunk) (i : Z),
  exists (frames : list (list byte)) (last : list byte),
    length frames = k
    /\ Forall (fun f => length f = 3%nat) (frames ++ [last])
    /\ for_each_word (S (S k))
         (fun _ word =>
            high <-- computed (to_bytes_1 (Z.shiftr word 8)) ;;;
            write_out (raw_bytes high) ;;;
            low <-- computed (to_bytes_1 (Z.land word 0xFF)) ;;;
            write_out (raw_bytes low))
         i (dw_in_loop k) (extend evs self0, out)
       = (Done tt,
          (extend (pipelined frames ++ [Wr [x72]; Rd last]) (extend evs self0),
           out ++ flat_map (fun f => [raw_bytes [nth 2 f x00];
                                      raw_bytes [nth 1 f x00]])
                           (frames ++ [last]))).
Proof.
  induction k as [| k IH]; intros evs out i.
  - exists [], (next_frame (extend [Wr [x72]] (extend evs self0))).
    assert (Hlen : length (next_frame (extend [Wr [x72]] (extend evs self0)))
                   = 3%nat)
      by (apply next_frame_length; exact device_responsive).
    split; [reflexivity |]. split; [repeat constructor; exact Hlen |].
    cbn [for_each_word fst snd].
    rewrite (next_after_loop self0 device_responsive). cbv zeta. cbn [fst snd].
    rewrite (raw_body_on_a_frame _ _ Hlen). cbn [fst snd].
    rewrite next_at_last_yield. cbn [fst snd app flat_map pipelined].
    rewrite extend_extend. reflexivity.
  - pose (frame := next_frame (extend [Wr (packet x53 0x1D40)] (extend evs self0))).
    assert (Hlen : length frame = 3%nat)
      by (apply next_frame_length; exact device_responsive).
    destruct (IH (evs ++ [Wr (packet x53 0x1D40); Rd frame])
                 (out ++ [raw_bytes [nth 2 frame x00]; raw_bytes [nth 1 frame x00]])
                 (i + 1))
      as (frames & last & Hframes & Hall & Hrun).
    exists (frame :: frames), last.
    split; [cbn [length]; congruence |].
    split; [cbn [app]; constructor; assumption |].
    change (for_each_word (S (S (S k)))) with
      (fun body i g (s : BDMCommandInterface Serial * list chunk) =>
         match dump_words_next (fst s, g) with
         | (Raise e, sg) => (Failed (from_engine e), (fst sg, snd s))
         | (Ok None, sg) => (Done tt, (fst sg, snd s))
         | (Ok (Some word), sg) =>
             match body i word (fst sg, snd s) with
             | (Done _, s') => for_each_word (S (S k)) body (i + 1) (snd sg) s'
             | (Failed e, s') => (Failed e, s')
             end
         end).
    cbv beta. cbn [fst snd].
    rewrite (next_in_loop self0 device_responsive). cbv zeta. fold frame.
    cbn [fst snd].
    rewrite (raw_body_on_a_frame frame _ Hlen). cbn [fst snd].
    rewrite extend_extend, Hrun, !extend_extend.
    cbn [pipelined flat_map app]. repeat rewrite <- app_assoc. reflexivity.
Qed.

End RawDump.

(** X18. A raw dump from a responsive device and a 32-bit address writes
    two one-byte chunks per word dumped, the last byte of the response
    frame and then its middle byte: the little-endian frames of the bridge
    come out as big-endian words.  It dumps [max(num_bytes // 2, 1)] words,
    so at least two bytes and never an odd number. *)
Theorem raw_dump_writes_the_words_big_endian :
  forall (self : BDMCommandInterface Serial) (out : list chunk)
         (starting_address num_bytes : Z),
    responsive (target (interface self)) ->
    0 <= starting_address < 2 ^ 32 ->
    exists (frames : list (list byte)) (last : list byte),
      Z.of_nat (length (frames ++ [last])) = Z.max (num_bytes / 2) 1
      /\ Forall (fun f => length f = 3%nat) (frames ++ [last])
      /\ dump starting_address num_bytes raw (self, out)
         = (Done tt,
            (extend ([Wr (packet x73 0x1940);
                      Wr (packet x73 (Z.shiftr starting_address 16));
                      Wr (packet x73 (Z.land starting_address 0xFFFF))]
                     ++ pipelined frames ++ [Wr [x72]; Rd last]) self,
             out ++ flat_map (fun f => [raw_bytes [nth 2 f x00];
                                        raw_bytes [nth 1 f x00]])
                             (frames ++ [last]))).
Proof.
  intros self out starting_address num_bytes Hresp Hbase.
  destruct (raw_loop self Hresp (Z.to_nat (num_bytes / 2 - 1))
              [Wr (packet x73 0x1940);
               Wr (packet x73 (Z.shiftr starting_address 16));
               Wr (packet x73 (Z.land starting_address 0xFFFF))] out 0)
    as (frames & last & Hlen & Hall & Hrun).
  exists frames, last.
  split; [rewrite length_app; cbn [length]; lia |]. split; [exact Hall |].
  unfold dump, dump_words; cbn [dump_words_steps].
  change (for_each_word (S (S (Z.to_nat (num_bytes / 2 - 1))))) with
    (fun body i g (s : BDMCommandInterface Serial * list chunk) =>
       match dump_words_next (fst s, g) with
       | (Raise e, sg) => (Failed (from_engine e), (fst sg, snd s))
       | (Ok None, sg) => (Done tt, (fst sg, snd s))
       | (Ok (Some word), sg) =>
           match body i word (fst sg, snd s) with
           | (Done _, s') =>
               for_each_word (S (Z.to_nat (num_bytes / 2 - 1))) body (i + 1)
                             (snd sg) s'
           | (Failed e, s') => (Failed e, s')
           end
       end) in Hrun |- *.
  cbv beta in Hrun |- *. cbn [fst snd] in Hrun |- *.
  rewrite <- (extend_nothing self) at 1.
  rewrite (next_when_created self starting_address (num_bytes / 2) Hbase).
  rewrite Hrun, extend_extend. reflexivity.
Qed.

Lemma raw_dump_writes_the_words_big_endian_witness :
  exists (frames : list (list byte)) (last : list byte),
    Z.of_nat (length (frames ++ [last])) = Z.max (7 / 2) 1
    /\ Forall (fun f => length f = 3%nat) (frames ++ [last])
    /\ dump 0x00200000 7 raw (BDM_init (mkSerial silent []), [])
       = (Done tt,
          (extend ([Wr (packet x73 0x1940);
                    Wr (packet x73 (Z.shiftr 0x00200000 16));
                    Wr (packet x73 (Z.land 0x00200000 0xFFFF))]
                   ++ pipelined frames ++ [Wr [x72]; Rd last])
                  (BDM_init (mkSerial silent [])),
           [] ++ flat_map (fun f => [raw_bytes [nth 2 f x00];
                                     raw_bytes [nth 1 f x00]])
                          (frames ++ [last]))).
Proof.
  apply (raw_dump_writes_the_words_big_endian
           (BDM_init (mkSerial silent [])) [] 0x00200000 7).
  - exact silent_responsive.
  - cbv. split; [discriminate | reflexivity].
Defined.

Lemma cbind_Done :
  forall (S A B : Type) (m : C S A) (k : A -> C S B) (s s1 : S) (a : A),
    m s = (Done a, s1) -> cbind m k s = k a s1.
Proof. intros S A B m k s s1 a Hm. unfold cbind. rewrite Hm. reflexivity. Qed.

Lemma cbind_Failed :
  forall (S A B : Type) (m : C S A) (k : A -> C S B) (s s1 : S) (e : cli_exn),
    m s = (Failed e, s1) -> cbind m k s = (Failed e, s1).
Proof. intros S A B m k s s1 e Hm. unfold cbind. rewrite Hm. reflexivity. Qed.

Lemma engine_Ok :
  forall (S A : Type) (m : M S A) (s s1 : S) (a : A),
    m s = (Ok a, s1) -> engine m s = (Done a, s1).
Proof. intros S A m s s1 a Hm. unfold engine. rewrite Hm. reflexivity. Qed.

Lemma engine_Raise :
  forall (S A : Type) (m : M S A) (s s1 : S) (e : exn),
    m s = (Raise e, s1) -> engine m s = (Failed (from_engine e), s1).
Proof. intros S A m s s1 e Hm. unfold engine. rewrite Hm. reflexivity. Qed.

Section Load.

Context {I : Type} {PI : PacketInterface I}.

Lemma erase_check_keeps_session : forall self : BDMCommandInterface I,
  same_session self (snd (send_flash_chip_erase self))
  /\ forall s,
      same_session s
        (snd (list_comprehension
                (fun i => word <- read_word i ;; ret (i, word))
                (even_range 16) s)).
Proof.
  intros self. split.
  - apply keeps_chip_erase.
  - intros s. revert s.
    change (keeps_session
              (list_comprehension
                 (fun i => word <- read_word i ;; ret (i, word))
                 (even_range 16) : M (BDMCommandInterface I) (list (Z * Z)))).
    apply keeps_list_comprehension. intros i.
    apply keeps_bind; [| intros w; apply keeps_ret].
    unfold read_word. apply keeps_send_then_receive.
Qed.

(** An odd [--max-bytes] below the size of the file is refused before
    anything is sent. *)
Lemma load_refuses_odd_max_bytes :
  forall (self : BDMCommandInterface I) (data : list byte) (max_bytes : Z)
         (skip_erase : bool),
    max_bytes < Z.of_nat (length data) /\ max_bytes mod 2 = 1 ->
    load data max_bytes skip_erase self = (Failed max_bytes_not_even, self).
Proof.
  intros self data max_bytes skip_erase [Hless Hodd]. unfold load.
  apply Z.ltb_lt in Hless. apply Z.eqb_eq in Hodd. rewrite Hless, Hodd.
  apply cbind_Failed. reflexivity.
Qed.

(** What is left of [load] once the data is cut to size: the erase and
    its check when asked for, then the call of the missing method. *)
Lemma load_after_the_prelude :
  forall (self : BDMCommandInterface I) (data : list byte) (max_bytes : Z)
         (skip_erase : bool),
    ~ (max_bytes < Z.of_nat (length data) /\ max_bytes mod 2 = 1) ->
    load data max_bytes skip_erase self
    = if skip_erase
      then (Failed (from_engine AttributeError), self)
      else match (send_flash_chip_erase ;;
                  list_comprehension
                    (fun i => word <- read_word i ;; ret (i, word))
                    (even_range 16)) self with
           | (Raise e, after) => (Failed (from_engine e), after)
           | (Ok words, after) =>
               (Failed (if forallb (fun iw => snd iw =? 0xFFFF) words
                        then from_engine AttributeError
                        else flash_not_erased (map snd words)), after)
           end.
Proof.
  intros self data max_bytes skip_erase Hok.
  assert (Hrest : forall (d : list byte) (s : BDMCommandInterface I),
             (engine send_flash_unlock_bypass ;;;
              try_finally
                (cfor_each
                   (fun i =>
                      high <-- engine (lift_result (byte_at d i)) ;;;
                      low <-- engine (lift_result (byte_at d (i + 1))) ;;;
                      let v := Z.lor (Z.shiftl high 8) low in
                      engine (send_unlock_bypassed_flash_write i v))
                   (even_range (Z.of_nat (length d))))
                (engine exit_flash_unlock_bypass)) s
             = (Failed (from_engine AttributeError), s))
    by reflexivity.
  assert (Htail :
            forall d : list byte,
              ((if negb skip_erase
                then engine send_flash_chip_erase ;;;
                     words <-- engine (list_comprehension
                                         (fun i => word <- read_word i ;; ret (i, word))
                                         (even_range 16)) ;;;
                     if negb (forallb (fun iw => snd iw =? 0xFFFF) words)
                     then craise (flash_not_erased (map snd words))
                     else cret tt
                else cret tt) ;;;
               engine send_flash_unlock_bypass ;;;
               try_finally
                 (cfor_each
                    (fun i =>
                       high <-- engine (lift_result (byte_at d i)) ;;;
                       low <-- engine (lift_result (byte_at d (i + 1))) ;;;
                       let v := Z.lor (Z.shiftl high 8) low in
                       engine (send_unlock_bypassed_flash_write i v))
                    (even_range (Z.of_nat (length d))))
                 (engine exit_flash_unlock_bypass)) self
              = if skip_erase
                then (Failed (from_engine AttributeError), self)
                else match (send_flash_chip_erase ;;
                            list_comprehension
                              (fun i => word <- read_word i ;; ret (i, word))
                              (even_range 16)) self with
                     | (Raise e, after) => (Failed (from_engine e), after)
                     | (Ok words, after) =>
                         (Failed (if forallb (fun iw => snd iw =? 0xFFFF) words
                                  then from_engine AttributeError
                                  else flash_not_erased (map snd words)), after)
                     end).
  { intros d. destruct skip_erase; cbn [negb].
    - erewrite cbind_Done by reflexivity. apply Hrest.
    - destruct (send_flash_chip_erase self) as [[[] | e] s1] eqn:Herased.
      2:{ rewrite (bind_Raise _ _ _ _ _ _ _ _ Herased).
          apply cbind_Failed. apply cbind_Failed. apply engine_Raise.
          exact Herased. }
      rewrite (bind_Ok _ _ _ _ _ _ _ _ Herased).
      destruct (list_comprehension
                  (fun i => word <- read_word i ;; ret (i, word))
                  (even_range 16) s1) as [[words | e] s2] eqn:Hchecked.
      2:{ apply cbind_Failed.
          erewrite cbind_Done by (apply engine_Ok; exact Herased).
          apply cbind_Failed. apply engine_Raise. exact Hchecked. }
      destruct (forallb (fun iw => snd iw =? 65535) words) eqn:Hverdict.
      + erewrite cbind_Done; [apply Hrest |].
        erewrite cbind_Done by (apply engine_Ok; exact Herased).
        erewrite cbind_Done by (apply engine_Ok; exact Hchecked).
        rewrite Hverdict. reflexivity.
      + apply cbind_Failed.
        erewrite cbind_Done by (apply engine_Ok; exact Herased).
        erewrite cbind_Done by (apply engine_Ok; exact Hchecked).
        rewrite Hverdict. reflexivity. }
  unfold load.
  destruct (max_bytes <? Z.of_nat (length data)) eqn:Hless.
  - destruct (max_bytes mod 2 =? 1) eqn:Hodd.
    + exfalso. apply Hok.
      apply Z.ltb_lt in Hless. apply Z.eqb_eq in Hodd. split; assumption.
    + erewrite cbind_Done by reflexivity. apply Htail.
  - erewrite cbind_Done by reflexivity. apply Htail.
Qed.

(** The erase and its check, followed by the verdict, end in a failure
    with the session as it was. *)
Lemma erase_and_check_fails : forall self : BDMCommandInterface I,
  exists (e : cli_exn) (after : BDMCommandInterface I),
    match (send_flash_chip_erase ;;
           list_comprehension
             (fun i => word <- read_word i ;; ret (i, word))
             (even_range 16)) self with
    | (Raise e, after) => (Failed (A := unit) (from_engine e), after)
    | (Ok words, after) =>
        (Failed (if forallb (fun iw => snd iw =? 0xFFFF) words
                 then from_engine AttributeError
                 else flash_not_erased (map snd words)), after)
    end = (Failed e, after)
    /\ same_session self after.
Proof.
  intros self.
  destruct (erase_check_keeps_session self) as [Herase Hreads].
  destruct (send_flash_chip_erase self) as [[[] | e] s1] eqn:Herased;
    cbn [snd] in Herase.
  2:{ rewrite (bind_Raise _ _ _ _ _ _ _ _ Herased).
      eexists _, s1. split; [reflexivity | exact Herase]. }
  rewrite (bind_Ok _ _ _ _ _ _ _ _ Herased).
  specialize (Hreads s1).
  destruct (list_comprehension
              (fun i => word <- read_word i ;; ret (i, word))
              (even_range 16) s1) as [[words | e] s2]; cbn [snd] in Hreads;
    (eexists _, s2;
     split; [reflexivity | eapply same_session_trans; eassumption]).
Qed.

(** Every run of [load] fails, with the session as it was. *)
Lemma load_fails_and_keeps_session :
  forall (self : BDMCommandInterface I) (data : list byte) (max_bytes : Z)
         (skip_erase : bool),
    (exists e, fst (load data max_bytes skip_erase self) = Failed e)
    /\ same_session self (snd (load data max_bytes skip_erase self)).
Proof.
  intros self data max_bytes skip_erase.
  assert (Hcases : (max_bytes < Z.of_nat (length data) /\ max_bytes mod 2 = 1)
                   \/ ~ (max_bytes < Z.of_nat (length data) /\ max_bytes mod 2 = 1)).
  { destruct (Z.ltb_spec max_bytes (Z.of_nat (length data)));
      destruct (Z.eq_dec (max_bytes mod 2) 1); (left; lia) || (right; lia). }
  destruct Hcases as [Hodd | Hok].
  - rewrite load_refuses_odd_max_bytes by exact Hodd.
    split; [eexists; reflexivity | apply same_session_refl].
  - rewrite load_after_the_prelude by exact Hok.
    destruct skip_erase;
      [split; [eexists; reflexivity | apply same_session_refl] |].
    destruct (erase_and_check_fails self) as (e & after & Hrun & Hkeeps).
    rewrite Hrun. split; [eexists; reflexivity | exact Hkeeps].
Qed.

End Load.

(** *** The erase and its check on the wire *)

Lemma sends_ret : forall (A : Type) (a : A), sends (ret a) [].
Proof.
  intros A a self Hresp. exists a, self.
  split; [reflexivity |]. split; [reflexivity |].
  split; [rewrite app_nil_r; reflexivity | split; reflexivity].
Qed.

Lemma sends_bind :
  forall (A B : Type) (m : M (BDMCommandInterface Serial) A)
         (k : A -> M (BDMCommandInterface Serial) B)
         (cmds1 cmds2 : list (list byte)),
    sends m cmds1 -> (forall a, sends (k a) cmds2) ->
    sends (bind m k) (cmds1 ++ cmds2).
Proof.
  intros A B m k cmds1 cmds2 Hm Hk self Hresp.
  destruct (Hm self Hresp) as (a & s1 & Hrun1 & Htarget1 & Hwritten1 & Hkeeps1).
  assert (Hresp1 : responsive (target (interface s1)))
    by (rewrite Htarget1; exact Hresp).
  destruct (Hk a s1 Hresp1) as (b & s2 & Hrun2 & Htarget2 & Hwritten2 & Hkeeps2).
  exists b, s2. rewrite (bind_Ok _ _ _ _ _ _ _ _ Hrun1).
  split; [exact Hrun2 |].
  split; [rewrite Htarget2; exact Htarget1 |].
  split; [rewrite Hwritten2, Hwritten1, app_assoc; reflexivity |].
  eapply same_session_trans; eassumption.
Qed.

Lemma sends_list_comprehension :
  forall (A B : Type) (f : A -> M (BDMCommandInterface Serial) B)
         (cmds : A -> list (list byte)) (xs : list A),
    (forall x, In x xs -> sends (f x) (cmds x)) ->
    sends (list_comprehension f xs) (flat_map cmds xs).
Proof.
  intros A B f cmds xs. induction xs as [| x xs IH]; intros Hf.
  - apply sends_ret.
  - cbn [list_comprehension flat_map].
    apply sends_bind; [apply Hf; left; reflexivity |].
    intros y. rewrite <- (app_nil_r (flat_map cmds xs)).
    apply sends_bind; [apply IH; intros x' Hin; apply Hf; right; exact Hin |].
    intros ys. apply sends_ret.
Qed.

Lemma sends_write_word : forall address data : Z,
  0 <= address < 2 ^ 32 -> 0 <= data <= 0xFFFF ->
  sends (write_word address data) (word_write address data).
Proof.
  intros address data Haddress Hdata self Hresp.
  destruct (write_word_run self address data Hresp Haddress Hdata)
    as (f0 & f1 & f2 & f3 & Hrun).
  eexists tt, _. split; [exact Hrun |].
  split; [reflexivity |].
  split; [| split; reflexivity].
  unfold extend; cbn [interface history]. rewrite written_app. reflexivity.
Qed.

Lemma sends_read_word : forall address : Z,
  0 <= address < 2 ^ 32 ->
  sends (read_word address) (word_read address).
Proof.
  intros address Haddress self Hresp.
  unfold read_word, _send_then_receive. change (range 1) with [0].
  cbn [for_each list_comprehension]. unfold bind, ret.
  cf_run Hresp. rewrite !extend_extend. cbn [app data].
  eexists _, _. split; [reflexivity |].
  split; [reflexivity |].
  split; [| split; reflexivity].
  unfold extend; cbn [interface history]. rewrite written_app. reflexivity.
Qed.

Lemma sends_erase_and_check :
  sends (send_flash_chip_erase ;;
         list_comprehension (fun i => word <- read_word i ;; ret (i, word))
                            (even_range 16))
        (chip_erase_commands ++ erase_check_commands).
Proof.
  assert (Hwrite : forall address data : Z,
             (address = Z.shiftl 0x555 1 \/ address = Z.shiftl 0x2AA 1) ->
             0 <= data <= 0xFF ->
             sends (write_word address data) (word_write address data)).
  { intros address data Haddress Hdata.
    apply sends_write_word; [| lia].
    destruct Haddress as [-> | ->]; cbv; split; (discriminate || reflexivity). }
  apply sends_bind.
  - unfold send_flash_chip_erase, chip_erase_commands.
    repeat (apply sends_bind; [apply Hwrite; [auto | lia] | intros _]).
    apply Hwrite; [auto | lia].
  - intros _. unfold erase_check_commands.
    rewrite <- (flat_map_ext (fun i => word_read i ++ [])) 
      by (intros i; apply app_nil_r).
    apply sends_list_comprehension. intros i Hin.
    apply sends_bind; [| intros w; apply sends_ret].
    apply sends_read_word.
    change (even_range 16) with [0; 2; 4; 6; 8; 10; 12; 14] in Hin.
    change (2 ^ 32) with 4294967296. cbn [In] in Hin. lia.
Qed.

(** *** The erase and its check in a dry run *)

Lemma mock_write_word : forall (address data : Z) cs c u,
  0 <= address < 2 ^ 32 -> 0 <= data <= 0xFFFF ->
  write_word address data (mkBDM (MockColdfireSerialInterface.mk cs) c u)
  = (Ok tt,
     mkBDM (MockColdfireSerialInterface.mk (cs ++ word_write address data)) c u).
Proof.
  intros address data cs c u Haddress Hdata. unfold write_word.
  replace ((data >? 65535) || (data <? 0)) with false
    by (destruct (Z.gtb_spec data 65535); destruct (Z.ltb_spec data 0);
        try reflexivity; lia).
  unfold _send. cbn [for_each]. unfold bind, ret.
  rewrite (mock_send_and_receive 0x1840) by lia. cbv beta iota.
  rewrite mock_send_and_receive by (apply shiftr_16_range; exact Haddress).
  cbv beta iota.
  rewrite mock_send_and_receive by apply land_FFFF_range. cbv beta iota.
  rewrite mock_send_and_receive by exact Hdata. cbv beta iota.
  repeat rewrite <- app_assoc. reflexivity.
Qed.

Lemma mock_read_word : forall (address : Z) cs c u,
  0 <= address < 2 ^ 32 ->
  read_word address (mkBDM (MockColdfireSerialInterface.mk cs) c u)
  = (Ok 0xFFFF,
     mkBDM (MockColdfireSerialInterface.mk (cs ++ word_read address)) c u).
Proof.
  intros address cs c u Haddress. unfold read_word, _send_then_receive.
  change (range 1) with [0]. cbn [for_each list_comprehension].
  unfold bind, ret.
  rewrite (mock_send_and_receive 0x1940) by lia. cbv beta iota.
  rewrite mock_send_and_receive by (apply shiftr_16_range; exact Haddress).
  cbv beta iota.
  rewrite mock_send_and_receive by apply land_FFFF_range. cbv beta iota.
  rewrite mock_receive. cbv beta iota.
  repeat rewrite <- app_assoc. reflexivity.
Qed.

Lemma mock_erase_and_check : forall cs c u,
  (send_flash_chip_erase ;;
   list_comprehension (fun i => word <- read_word i ;; ret (i, word))
                      (even_range 16))
    (mkBDM (MockColdfireSerialInterface.mk cs) c u)
  = (Ok (map (fun i => (i, 0xFFFF)) (even_range 16)),
     mkBDM (MockColdfireSerialInterface.mk
              (cs ++ chip_erase_commands ++ erase_check_commands)) c u).
Proof.
  intros cs c u. unfold send_flash_chip_erase.
  change (even_range 16) with [0; 2; 4; 6; 8; 10; 12; 14].
  cbn [list_comprehension map]. unfold bind, ret.
  repeat (rewrite mock_write_word
            by first [ lia | (cbv; split; (discriminate || reflexivity)) ];
          cbv beta iota).
  repeat (rewrite mock_read_word
            by (change (2 ^ 32) with 4294967296; lia);
          cbv beta iota).
  unfold chip_erase_commands, erase_check_commands.
  change (even_range 16) with [0; 2; 4; 6; 8; 10; 12; 14].
  cbn [flat_map]. repeat rewrite <- app_assoc. reflexivity.
Qed.

(** X19. The [load_flash] command never programs a word.  After the
    optional erase and its check, it calls [send_flash_unlock_bypass], a
    method the engine does not have, so every run ends in an exception
    with the unlock-bypass flag and the cached step mode untouched, on any
    interface.  An odd [--max-bytes] below the size of the file is refused
    with nothing sent; otherwise, with [--skip-erase], nothing is sent
    before the [AttributeError], and without it the run is the chip erase
    and the eight reads that check it, up to the first exception among
    them, and then the failed check or the [AttributeError]: the result
    and the engine left behind do not depend on the file.  On a responsive
    device the [write] calls of such a run are exactly those of the erase
    (seven word writes) and of the eight word reads, and so they are in a
    dry run, which always ends in the [AttributeError]. *)
Theorem load_never_programs_the_flash :
  (forall (I : Type) (PI : PacketInterface I) (self : BDMCommandInterface I)
          (data : list byte) (max_bytes : Z) (skip_erase : bool),
      (exists e, fst (load data max_bytes skip_erase self) = Failed e)
      /\ same_session self (snd (load data max_bytes skip_erase self))
      /\ (skip_erase = true ->
          ~ (max_bytes < Z.of_nat (length data) /\ max_bytes mod 2 = 1) ->
          load data max_bytes skip_erase self
          = (Failed (from_engine AttributeError), self))
      /\ (max_bytes < Z.of_nat (length data) /\ max_bytes mod 2 = 1 ->
          load data max_bytes skip_erase self
          = (Failed max_bytes_not_even, self))
      /\ (skip_erase = false ->
          ~ (max_bytes < Z.of_nat (length data) /\ max_bytes mod 2 = 1) ->
          load data max_bytes skip_erase self
          = match (send_flash_chip_erase ;;
                   list_comprehension
                     (fun i => word <- read_word i ;; ret (i, word))
                     (even_range 16)) self with
            | (Raise e, after) => (Failed (from_engine e), after)
            | (Ok words, after) =>
                (Failed (if forallb (fun iw => snd iw =? 0xFFFF) words
                         then from_engine AttributeError
                         else flash_not_erased (map snd words)), after)
            end))
  /\ (forall (self : BDMCommandInterface Serial) (data : list byte)
             (max_bytes : Z),
        responsive (target (interface self)) ->
        ~ (max_bytes < Z.of_nat (length data) /\ max_bytes mod 2 = 1) ->
        exists (e : cli_exn) (after : BDMCommandInterface Serial),
          load data max_bytes false self = (Failed e, after)
          /\ (e = from_engine AttributeError
              \/ exists words, e = flash_not_erased words)
          /\ written (history (interface after))
             = written (history (interface self))
                 ++ chip_erase_commands ++ erase_check_commands)
  /\ (forall (cs : list (list byte)) (c : bool) (u : option bool)
             (data : list byte) (max_bytes : Z),
        ~ (max_bytes < Z.of_nat (length data) /\ max_bytes mod 2 = 1) ->
        load data max_bytes false (mkBDM (MockColdfireSerialInterface.mk cs) c u)
        = (Failed (from_engine AttributeError),
           mkBDM (MockColdfireSerialInterface.mk
                    (cs ++ chip_erase_commands ++ erase_check_commands)) c u)).
Proof.
  split; [| split].
  - intros I PI self data max_bytes skip_erase.
    destruct (load_fails_and_keeps_session self data max_bytes skip_erase)
      as [Hfails Hkeeps].
    split; [exact Hfails |]. split; [exact Hkeeps |].
    split; [| split].
    + intros -> Hok. rewrite load_after_the_prelude by exact Hok. reflexivity.
    + apply load_refuses_odd_max_bytes.
    + intros -> Hok. rewrite load_after_the_prelude by exact Hok. reflexivity.
  - intros self data max_bytes Hresp Hok.
    rewrite load_after_the_prelude by exact Hok.
    destruct (sends_erase_and_check self Hresp)
      as (words & after & Hrun & _ & Hwritten & _).
    rewrite Hrun. eexists _, after. split; [reflexivity |].
    split; [| exact Hwritten].
    destruct (forallb (fun iw => snd iw =? 65535) words);
      [left; reflexivity | right; eexists; reflexivity].
  - intros cs c u data max_bytes Hok.
    rewrite load_after_the_prelude by exact Hok.
    rewrite mock_erase_and_check. reflexivity.
Qed.

Lemma load_never_programs_the_flash_witness :
  load [x12; x34] 0x10000000 true (BDM_init MockColdfireSerialInterface.init)
  = (Failed (from_engine AttributeError), BDM_init MockColdfireSerialInterface.init)
  /\ load [x12; x34] 1 false (BDM_init MockColdfireSerialInterface.init)
     = (Failed max_bytes_not_even, BDM_init MockColdfireSerialInterface.init)
  /\ load [x12; x34] 0x10000000 false (BDM_init MockColdfireSerialInterface.init)
     = (Failed (from_engine AttributeError),
        mkBDM (MockColdfireSerialInterface.mk
                 ([] ++ chip_erase_commands ++ erase_check_commands)) false None)
  /\ exists (e : cli_exn) (after : BDMCommandInterface Serial),
       load [x12; x34] 0x10000000 false (BDM_init (mkSerial silent []))
       = (Failed e, after)
       /\ written (history (interface after))
          = written (history (interface (BDM_init (mkSerial silent []))))
              ++ chip_erase_commands ++ erase_check_commands.
Proof.
  destruct load_never_programs_the_flash as (Hany & Hwire & Hmock).
  split; [| split; [| split]].
  - apply (proj1 (proj2 (proj2 (Hany _ _ (BDM_init MockColdfireSerialInterface.init)
                                   [x12; x34] 0x10000000 true)))).
    + reflexivity.
    + intros [H _]. revert H. cbv. discriminate.
  - apply (proj1 (proj2 (proj2 (proj2
             (Hany _ _ (BDM_init MockColdfireSerialInterface.init)
                   [x12; x34] 1 false))))).
    split; reflexivity.
  - apply (Hmock [] false None [x12; x34] 0x10000000).
    intros [H _]. revert H. cbv. discriminate.
  - destruct (Hwire (BDM_init (mkSerial silent [])) [x12; x34] 0x10000000
                silent_responsive)
      as (e & after & Hrun & _ & Hwritten).
    + intros [H _]. revert H. cbv. discriminate.
    + exists e, after. split; [exact Hrun | exact Hwritten].
Defined.
